(** * The send, broadcast and CPFP pipeline of the ElectrumSV main window

    A shallow embedding of the transaction preparation and broadcast code of
    [electrumsv/gui/qt/main_window.py]: [get_coins], [do_update_fee],
    [read_send_tab], [do_send], [sign_tx_with_password],
    [broadcast_transaction], [do_clear] and [cpfp].

    The window is a record of the attributes these methods read and write.
    Methods are computations in a state-and-exception monad over that record;
    what the user gets to see (message boxes, dialogs) is appended to the
    [shown] field, in the order the calls are made.  The collaborators the
    window calls into (account engine, network, payee endpoint, widgets) are
    interfaces, given as type classes. *)

From Stdlib Require Import ZArith QArith Qround Qabs Qpower Qreduction.
From Stdlib Require Import Lia Lqa.
From stdpp Require Import base option list strings pretty functions gmap.

Local Open Scope Z_scope.

(** ** Python values *)

Module Py.

(** The exception classes the pipeline raises or catches.  All of them
    derive from [Exception]. *)
Inductive exn : Type :=
  | Exception (msg : string)
  | NotEnoughFunds
  | ExcessiveFee
  | UserCancelled
  | TypeError (msg : string).

(** [str(e)]. *)
Definition str_exn (e : exn) : string :=
  match e with
  | Exception msg | TypeError msg => msg
  | NotEnoughFunds | ExcessiveFee | UserCancelled => ""
  end.

(** What a call produces: a value, or an exception that propagates. *)
Inductive Outcome (A : Type) : Type :=
  | Returned (a : A)
  | Raised (e : exn).
Global Arguments Returned {A} a.
Global Arguments Raised {A} e.

(** Truth value of a [str]: the empty string is false. *)
Definition truthy_str (s : string) : bool :=
  match s with
  | EmptyString => false
  | String _ _ => true
  end.

(** Truth value of an [Optional[str]]. *)
Definition truthy_opt_str (o : option string) : bool :=
  match o with
  | None => false
  | Some s => truthy_str s
  end.

(** The newline character of ['\n']. *)
Definition nl : string := String (Ascii.ascii_of_nat 10) EmptyString.

(** [sep.join(parts)]. *)
Definition join (sep : string) (parts : list string) : string :=
  String.concat sep parts.

(** [round(x)] with one argument: the nearest integer, ties going to the
    even neighbour.  A float is modelled by the rational it denotes. *)
Definition round (x : Q) : Z :=
  let f := Qfloor x in
  match Qcompare (x - inject_Z f) (1 # 2) with
  | Lt => f
  | Gt => f + 1
  | Eq => if Z.even f then f else f + 1
  end.

(** A [float] is an IEEE 754 binary64 number: a significand of 53 bits
    times a power of two, the exponent of the last bit being -1074 at
    least.  A float is modelled by the rational it denotes, and an operation
    that yields a float by the exact operation followed by the rounding to
    the nearest float.  [2 ** e] as a rational: *)
Definition pow2 (e : Z) : Q := (2 ^ e)%Q.

(** The numbers that have 53 significant bits and no bit below that of
    [2 ** -1074]. *)
Definition float53 (x : Q) : Prop :=
  ∃ m e : Z, Z.abs m < 2 ^ 53 ∧ -1074 ≤ e ∧ (x == inject_Z m * pow2 e)%Q.

(** The finite floats: those of these numbers that are below [2 ** 1024]
    in magnitude. *)
Definition binary64 (x : Q) : Prop :=
  float53 x ∧ (Qabs x < pow2 1024)%Q.

(** The numbers that round to a finite float: those below the midpoint of
    the largest float and [2 ** 1024].  From there on an operation on
    floats gives an infinity and [int / int] raises [OverflowError]; that
    is outside this model, which rounds as if exponents had no upper
    limit. *)
Definition in_float_range (x : Q) : Prop :=
  (Qabs x < pow2 1024 - pow2 970)%Q.

(** [floor(log2(x))] of a positive rational. *)
Definition ilog2 (x : Q) : Z :=
  let k := Z.log2 (Qnum x) - Z.log2 (Zpos (Qden x)) in
  if Qle_bool (pow2 k) x then k else k - 1.

(** The exponent of the last of the 53 bits that [x] is rounded to: 52
    below that of its leading bit, and -1074 where the floats become
    subnormal. *)
Definition ulp_exponent (x : Q) : Z := Z.max (ilog2 (Qabs x) - 52) (-1074).

(** The float nearest to [x], ties going to the even significand: [x] is
    rounded to a whole number of units in its last place. *)
Definition nearest_float (x : Q) : Q :=
  let e := ulp_exponent x in
  Qred (inject_Z (round (x / pow2 e)) * pow2 e).
Global Arguments nearest_float : simpl never.

(** [a / b] on two ints, [b] not zero: true division, the float nearest to
    the quotient. *)
Definition truediv (a b : Z) : Q := nearest_float (inject_Z a / inject_Z b).

(** [x - y] and [x * y] on two floats. *)
Definition float_sub (x y : Q) : Q := nearest_float (x - y).
Definition float_mul (x y : Q) : Q := nearest_float (x * y).

(** [float(n)], the conversion an int undergoes when it meets a float in
    an operation. *)
Definition float_of_int (n : Z) : Q := nearest_float (inject_Z n).

End Py.
Import Py.

(** ** Data model *)

(** The [value] attribute of an [XTxOutput]: unset, a number of satoshis, or
    the builtin [all] that the window uses to mean "send the maximum". *)
Inductive OutputValue : Type :=
  | ValueNone
  | ValueInt (satoshis : Z)
  | ValueAll.

Record XTxOutput : Type := {
  value : OutputValue;
  script_pubkey : string
}.

Record UTXO : Type := {
  utxo_tx_hash : string;
  out_index : Z;
  utxo_value : Z;
  keyinstance_id : Z
}.

(** A transaction as the window observes it. *)
Record Transaction : Type := {
  txid : string;            (* tx.txid() *)
  hash : string;            (* tx.hash(), a byte string *)
  is_complete : bool;       (* tx.is_complete() *)
  estimated_size : Z;       (* tx.estimated_size() *)
  output_value : Z;         (* tx.output_value() *)
  get_fee : Z;              (* tx.get_fee() *)
  tx_str : string           (* str(tx) *)
}.

Record PaymentRequest : Type := {
  pr_key : string;
  get_outputs : list XTxOutput;   (* pr.get_outputs() *)
  has_expired : bool              (* pr.has_expired(), when it is asked *)
}.

Record Config : Type := {
  fee_per_kb : Z;
  max_fee_rate : Z
}.

(** Modelled from the spec: the InvoiceStore collaborator, [set_paid(request,
    txid)] and [save()].  The store keeps the requests marked paid with the
    transaction id recorded against each, and counts the saves. *)
Record InvoiceStore : Type := {
  paid : list (PaymentRequest * string);
  saves : nat
}.

Definition set_paid (pr : PaymentRequest) (tx_id : string) (s : InvoiceStore)
  : InvoiceStore :=
  {| paid := paid s ++ [(pr, tx_id)]; saves := saves s |}.

Definition save (s : InvoiceStore) : InvoiceStore :=
  {| paid := paid s; saves := S (saves s) |}.

(** The mutable part of an account object: the transactions it tracks with
    their [TxFlags], the labels, and the invoice store. *)
Record Account : Type := {
  transactions : gmap string Z;
  labels : gmap string string;
  invoices : InvoiceStore
}.

(** [account.have_transaction(tx_hash)]. *)
Definition have_transaction (a : Account) (tx_hash : string) : bool :=
  bool_decide (is_Some (transactions a !! tx_hash)).

(** Modelled from the spec: the AccountEngine collaborator's
    [set_transaction_state(hash, flags)], which makes [flags] the state flags
    of the transaction. *)
Definition set_transaction_state (tx_hash : string) (flags : Z) (a : Account)
  : Account :=
  {| transactions := <[tx_hash := flags]> (transactions a);
     labels := labels a;
     invoices := invoices a |}.

(** [account.set_transaction_label(tx_hash, text)]. *)
Definition set_transaction_label (tx_hash : string) (text : string)
  (a : Account) : Account :=
  {| transactions := transactions a;
     labels := <[tx_hash := text]> (labels a);
     invoices := invoices a |}.

Definition with_invoices (f : InvoiceStore → InvoiceStore) (a : Account)
  : Account :=
  {| transactions := transactions a;
     labels := labels a;
     invoices := f (invoices a) |}.

(** Account objects are referred to by reference; two references may denote
    the same object ([self._account] and the [account] argument usually do). *)
Definition AccountRef : Type := Z.

(** The pay-to field of the send tab, as the window queries it. *)
Record PayToEdit : Type := {
  is_pr : bool;
  get_errors : list (Z * string);              (* payto_e.get_errors() *)
  payto_outputs : bool → list XTxOutput;       (* payto_e.get_outputs(is_max) *)
  get_payee_script : option string             (* payto_e.get_payee_script() *)
}.

(** The CPFP dialog as it is laid out before it is executed. *)
Record CpfpDialog : Type := {
  dlg_total_size : Z;
  dlg_input_amount : Z;
  dlg_proposed_fee : Q
}.

(** What the window shows or logs. *)
Inductive UiEvent : Type :=
  | ShowNamed (name : string)
  | ShowError (msg : string)
  | ShowWarning (msg : string)
  | ShowMessage (msg : string)
  | LogException (msg : string)
  | OnException (e : exn)
  | ShowTransaction (account : AccountRef) (tx : Transaction)
      (tx_desc : option string)
  | PasswordDialog (msg : string)
  | WaitingDialogShown (msg : string)
  | UntrustedMessageDialog (title text : string) (e : exn)
  | InvoiceListUpdate
  | CpfpDialogShown (d : CpfpDialog).

(** The attributes of the main window that the pipeline reads and writes,
    with an account selected ([self._account] is not [None]). *)
Record Window : Type := {
  config : Config;
  accounts : AccountRef → Account;
  _account : AccountRef;
  is_max : bool;
  payment_request : option PaymentRequest;
  not_enough_funds : bool;
  pay_from : list UTXO;
  payto_e : PayToEdit;
  amount_e : option Z;        (* amount_e.get_amount() *)
  message_e : string;         (* message_e.text() *)
  status_bar : string;
  shown : list UiEvent
}.

(** ** Attribute assignment *)

Definition set_accounts (v : AccountRef → Account) (w : Window) : Window :=
  {| config := config w; accounts := v; _account := _account w;
     is_max := is_max w; payment_request := payment_request w;
     not_enough_funds := not_enough_funds w; pay_from := pay_from w;
     payto_e := payto_e w; amount_e := amount_e w; message_e := message_e w;
     status_bar := status_bar w; shown := shown w |}.

Definition set_is_max (v : bool) (w : Window) : Window :=
  {| config := config w; accounts := accounts w; _account := _account w;
     is_max := v; payment_request := payment_request w;
     not_enough_funds := not_enough_funds w; pay_from := pay_from w;
     payto_e := payto_e w; amount_e := amount_e w; message_e := message_e w;
     status_bar := status_bar w; shown := shown w |}.

Definition set_payment_request (v : option PaymentRequest) (w : Window)
  : Window :=
  {| config := config w; accounts := accounts w; _account := _account w;
     is_max := is_max w; payment_request := v;
     not_enough_funds := not_enough_funds w; pay_from := pay_from w;
     payto_e := payto_e w; amount_e := amount_e w; message_e := message_e w;
     status_bar := status_bar w; shown := shown w |}.

Definition set_not_enough_funds (v : bool) (w : Window) : Window :=
  {| config := config w; accounts := accounts w; _account := _account w;
     is_max := is_max w; payment_request := payment_request w;
     not_enough_funds := v; pay_from := pay_from w;
     payto_e := payto_e w; amount_e := amount_e w; message_e := message_e w;
     status_bar := status_bar w; shown := shown w |}.

Definition set_pay_from (v : list UTXO) (w : Window) : Window :=
  {| config := config w; accounts := accounts w; _account := _account w;
     is_max := is_max w; payment_request := payment_request w;
     not_enough_funds := not_enough_funds w; pay_from := v;
     payto_e := payto_e w; amount_e := amount_e w; message_e := message_e w;
     status_bar := status_bar w; shown := shown w |}.

Definition set_payto_e (v : PayToEdit) (w : Window) : Window :=
  {| config := config w; accounts := accounts w; _account := _account w;
     is_max := is_max w; payment_request := payment_request w;
     not_enough_funds := not_enough_funds w; pay_from := pay_from w;
     payto_e := v; amount_e := amount_e w; message_e := message_e w;
     status_bar := status_bar w; shown := shown w |}.

Definition set_amount_e (v : option Z) (w : Window) : Window :=
  {| config := config w; accounts := accounts w; _account := _account w;
     is_max := is_max w; payment_request := payment_request w;
     not_enough_funds := not_enough_funds w; pay_from := pay_from w;
     payto_e := payto_e w; amount_e := v; message_e := message_e w;
     status_bar := status_bar w; shown := shown w |}.

Definition set_message_e (v : string) (w : Window) : Window :=
  {| config := config w; accounts := accounts w; _account := _account w;
     is_max := is_max w; payment_request := payment_request w;
     not_enough_funds := not_enough_funds w; pay_from := pay_from w;
     payto_e := payto_e w; amount_e := amount_e w; message_e := v;
     status_bar := status_bar w; shown := shown w |}.

Definition set_status_bar (v : string) (w : Window) : Window :=
  {| config := config w; accounts := accounts w; _account := _account w;
     is_max := is_max w; payment_request := payment_request w;
     not_enough_funds := not_enough_funds w; pay_from := pay_from w;
     payto_e := payto_e w; amount_e := amount_e w; message_e := message_e w;
     status_bar := v; shown := shown w |}.

Definition set_shown (v : list UiEvent) (w : Window) : Window :=
  {| config := config w; accounts := accounts w; _account := _account w;
     is_max := is_max w; payment_request := payment_request w;
     not_enough_funds := not_enough_funds w; pay_from := pay_from w;
     payto_e := payto_e w; amount_e := amount_e w; message_e := message_e w;
     status_bar := status_bar w; shown := v |}.

(** ** The monad of window methods *)

(** A method runs on the window, may change its attributes, and either
    returns or raises. *)
Definition M (A : Type) : Type := Window → Outcome A * Window.

Global Instance M_ret : MRet M := λ A (a : A) w, (Returned a, w).

Global Instance M_bind : MBind M := λ A B (f : A → M B) (m : M A) w,
  match m w with
  | (Returned a, w') => f a w'
  | (Raised e, w') => (Raised e, w')
  end.

(** [raise e]. *)
Definition raise {A : Type} (e : exn) : M A := λ w, (Raised e, w).

(** Read an attribute of [self]. *)
Definition gets {A : Type} (f : Window → A) : M A := λ w, (Returned (f w), w).

(** Assign an attribute of [self]. *)
Definition modify (f : Window → Window) : M unit := λ w, (Returned tt, f w).

(** A call into a collaborator: its exception, if any, propagates. *)
Definition call {A : Type} (r : Outcome A) : M A := λ w, (r, w).

(** Something is put in front of the user, or logged. *)
Definition emit (e : UiEvent) : M unit :=
  modify (λ w, set_shown (shown w ++ [e]) w).

(** Mutation of the account object behind a reference. *)
Definition modify_account (r : AccountRef) (f : Account → Account) : M unit :=
  modify (λ w, set_accounts (alter f r (accounts w)) w).

(** The window state a method leaves behind, and what it produced. *)
Definition exec {A : Type} (m : M A) (w : Window) : Window := snd (m w).
Definition eval {A : Type} (m : M A) (w : Window) : Outcome A := fst (m w).

(** ** Collaborators *)

(** The methods of [AbstractAccount] that compute on the account's coins and
    keys.  They are not part of the window; the window only calls them. *)
Class AccountEngine : Type := {
  (* account.get_spendable_coins(domain, config, isInvoice) *)
  get_spendable_coins :
    Account → option (list Z) → Config → bool → list UTXO;
  (* account.make_unsigned_transaction(coins, outputs, config, fee) *)
  make_unsigned_transaction :
    Account → list UTXO → list XTxOutput → Config → option Z
    → Outcome Transaction;
  (* account.sign_transaction(tx, password): the transaction once signed *)
  sign_transaction : Account → Transaction → string → Outcome Transaction;
  (* account.cpfp(parent_tx, fee) *)
  account_cpfp : Account → Transaction → Z → option Transaction;
  (* account.get_dummy_script_template().to_script() *)
  get_dummy_script : Account → string
}.

(** The peer network, the payee endpoint of a payment request, and the
    constants of [electrumsv.constants.TxFlags] the window uses. *)
Class Network : Type := {
  (* network.broadcast_transaction_and_wait(tx) *)
  broadcast_transaction_and_wait : Transaction → Outcome string;
  (* pr.send_payment(account, str(tx)) *)
  send_payment : PaymentRequest → Account → string → Outcome (bool * string);
  (* electrumsv.network.broadcast_failure_reason(exception) *)
  broadcast_failure_reason : exn → string;
  StateDispatched : Z;
  HasByteData : Z
}.

(** Formatting helpers and the modal dialogs, whose answers come from the
    user. *)
Class Gui : Type := {
  format_amount : Z → string;
  format_amount_and_units : Z → string;
  (* self.password_dialog(msg) *)
  password_dialog : string → option string;
  (* d.exec_() of the CPFP dialog, and fee_e.get_amount() when it returns *)
  exec_cpfp_dialog : CpfpDialog → bool * option Z
}.

(** ** The methods *)

Section Pipeline.

Context `{!AccountEngine, !Network, !Gui}.

(** The future of a task run on a worker: the task's exception, if any, is
    kept in the future and does not propagate. *)
Definition run_task {A : Type} (task : M A) : M (Outcome A) :=
  λ w, let '(future, w') := task w in (Returned future, w').

(** Modelled from the spec: [WaitingDialog(parent, message, task, on_done)] of
    [gui/qt/util.py].  The task runs on a worker, and its completion, a
    returned value or a raised exception, is delivered to [on_done] on the
    control thread. *)
Definition WaitingDialog {A : Type} (message : string) (task : M A)
  (on_done : Outcome A → M unit) : M unit :=
  emit (WaitingDialogShown message) ;;
  future ← run_task task;
  on_done future.

(** [on_exception]. *)
Definition on_exception (exception : exn) : M unit :=
  match exception with
  | UserCancelled => mret tt
  | _ => emit (LogException "") ;; emit (ShowError (str_exn exception))
  end.

(** [get_coins]. *)
Definition get_coins (account : AccountRef) (isInvoice : bool)
  : M (list UTXO) :=
  pay_from ← gets pay_from;
  match pay_from with
  | _ :: _ => mret pay_from
  | [] =>
      a ← gets (λ w, accounts w account);
      config ← gets config;
      mret (get_spendable_coins a None config isInvoice)
  end.

(** [do_clear].  Clearing the edit fields of the send tab empties the amount,
    the description and the pay-to field; the tree widgets and the balance
    part of the status bar are not part of the window record. *)
Definition do_clear : M unit :=
  modify (set_is_max false) ;;
  modify (set_not_enough_funds false) ;;
  modify (set_payment_request None) ;;
  modify (set_payto_e {| is_pr := false; get_errors := [];
                         payto_outputs := λ _, [];
                         get_payee_script := None |}) ;;
  modify (set_amount_e None) ;;
  modify (set_message_e "") ;;
  modify (set_pay_from []).

(** [all if self.is_max else self.amount_e.get_amount()]. *)
Definition amount_to_send (w : Window) : OutputValue :=
  if is_max w then ValueAll
  else match amount_e w with
       | None => ValueNone
       | Some v => ValueInt v
       end.

(** [do_update_fee]. *)
Definition do_update_fee : M unit :=
  amount ← gets amount_to_send;
  match amount with
  | ValueNone =>
      modify (set_not_enough_funds false) ;;
      modify (set_status_bar "")
  | _ =>
      let fee : option Z := None in
      is_max ← gets is_max;
      payto_e ← gets payto_e;
      self_account ← gets _account;
      a ← gets (λ w, accounts w self_account);
      let outputs :=
        match payto_outputs payto_e is_max with
        | [] =>
            let output_script :=
              match get_payee_script payto_e with
              | None => get_dummy_script a
              | Some s => s
              end in
            [ {| value := amount; script_pubkey := output_script |} ]
        | outputs => outputs
        end in
      coins ← get_coins self_account false;
      config ← gets config;
      match make_unsigned_transaction a coins outputs config fee with
      | Returned tx =>
          modify (set_not_enough_funds false) ;;
          if is_max then modify (set_amount_e (Some (output_value tx)))
          else mret tt
      | Raised NotEnoughFunds =>
          modify (set_not_enough_funds true)
      | Raised _ =>
          emit (LogException "transaction failure")
      end
  end.

(** [output.value is None]. *)
Definition value_is_None (o : XTxOutput) : bool :=
  match value o with
  | ValueNone => true
  | _ => false
  end.

(** The text of the warning for invalid lines of the pay-to field. *)
Definition invalid_lines_text (errors : list (Z * string)) : string :=
  "Invalid lines found:" +:+ nl +:+ nl +:+
  join nl (map (λ x, "Line #" +:+ pretty (fst x + 1) +:+ ": " +:+ snd x)
               errors).

(** [read_send_tab].  [None] is what the bare [return]s give. *)
Definition read_send_tab
  : M (option (list XTxOutput * option Z * string * list UTXO)) :=
  pr ← gets payment_request;
  match pr with
  | Some p =>
      if has_expired p then
        emit (ShowError "Payment request has expired") ;; mret None
      else mret (Some (true, get_outputs p))
  | None =>
      payto_e ← gets payto_e;
      match get_errors payto_e with
      | _ :: _ =>
          emit (ShowWarning (invalid_lines_text (get_errors payto_e))) ;;
          mret None
      | [] =>
          is_max ← gets is_max;
          mret (Some (false, payto_outputs payto_e is_max))
      end
  end ≫= λ r,
  match r with
  | None => mret None
  | Some (isInvoice, outputs) =>
      label ← gets message_e;
      match outputs with
      | [] => emit (ShowError "No outputs") ;; mret None
      | _ :: _ =>
          if existsb value_is_None outputs then
            emit (ShowError "Invalid Amount") ;; mret None
          else
            let fee : option Z := None in
            self_account ← gets _account;
            coins ← get_coins self_account isInvoice;
            mret (Some (outputs, fee, label, coins))
      end
  end.

(** [show_transaction]: a transaction dialog is opened. *)
Definition show_transaction (account : AccountRef) (tx : Transaction)
  (tx_desc : option string) : M unit :=
  emit (ShowTransaction account tx tx_desc).

(** The worker [broadcast_tx] of [broadcast_transaction].  It returns
    [None] on the payment-request path and the network's answer otherwise.
    Its locals [status] and [msg] are assigned ([msg = ack_msg]) and never
    read, so they have no counterpart here. *)
Definition broadcast_tx (account : AccountRef) (tx : Transaction)
  : M (option string) :=
  pr ← gets payment_request;
  match pr with
  | Some pr =>
      if has_expired pr then
        modify (set_payment_request None) ;;
        raise (Exception "Payment request has expired")
      else
        a ← gets (λ w, accounts w account);
        '(ack_status, ack_msg) ← call (send_payment pr a (tx_str tx));
        (if ack_status : bool then
           self_account ← gets _account;
           modify_account self_account
             (with_invoices (set_paid pr (txid tx))) ;;
           modify_account self_account (with_invoices save) ;;
           modify (set_payment_request None)
         else mret tt) ;;
        mret None
  | None =>
      result ← call (broadcast_transaction_and_wait tx);
      a ← gets (λ w, accounts w account);
      (if String.eqb result (txid tx) && have_transaction a (hash tx) then
         modify_account account
           (set_transaction_state (hash tx)
              (Z.lor StateDispatched HasByteData))
       else mret tt) ;;
      mret (Some result)
  end.

(** The completion callback [on_done] of [broadcast_transaction]. *)
Definition broadcast_on_done (tx : Transaction) (tx_desc : option string)
  (success_text : string) (future : Outcome (option string)) : M unit :=
  match future with
  | Raised exception =>
      emit (LogException "unhandled exception broadcasting transaction") ;;
      let reason := broadcast_failure_reason exception in
      emit (UntrustedMessageDialog "Transaction Broadcast Error"
              ("Your transaction was not sent: " +:+ reason +:+ ".")
              exception)
  | Returned tx_id =>
      match tx_id with
      | Some (String _ _ as tx_id) =>
          match tx_desc with
          | Some desc =>
              if is_complete tx then
                self_account ← gets _account;
                modify_account self_account
                  (set_transaction_label (hash tx) desc)
              else mret tt
          | None => mret tt
          end ;;
          emit (ShowMessage (success_text +:+ nl +:+ tx_id)) ;;
          emit InvoiceListUpdate ;;
          do_clear
      | _ => mret tt
      end
  end.

(** [broadcast_transaction]. *)
Definition broadcast_transaction (account : AccountRef) (tx : Transaction)
  (tx_desc : option string) (success_text : option string) : M unit :=
  let success_text :=
    match success_text with
    | None => "Payment sent."
    | Some s => s
    end in
  WaitingDialog "Broadcasting transaction..." (broadcast_tx account tx)
    (broadcast_on_done tx tx_desc success_text).

(** [sign_tx_with_password].  Signing changes the transaction object in
    place; the callback is handed the object as signing left it. *)
Definition sign_tx_with_password (tx : Transaction)
  (callback : bool → Transaction → M unit) (password : string) : M unit :=
  let sign_tx : M Transaction :=
    self_account ← gets _account;
    a ← gets (λ w, accounts w self_account);
    call (sign_transaction a tx password) in
  let on_done (future : Outcome Transaction) : M unit :=
    match future with
    | Raised exc => on_exception exc ;; callback false tx
    | Returned signed => callback true signed
    end in
  WaitingDialog "Signing transaction..." sign_tx on_done.

(** [sum(output.value for output in outputs)]: only ints can be added. *)
Fixpoint sum_values (start : Z) (outputs : list XTxOutput) : Outcome Z :=
  match outputs with
  | [] => Returned start
  | o :: outputs =>
      match value o with
      | ValueInt v => sum_values (start + v) outputs
      | ValueNone =>
          Raised (TypeError
            "unsupported operand type(s) for +: 'int' and 'NoneType'")
      | ValueAll =>
          Raised (TypeError
            "unsupported operand type(s) for +: 'int' and 'builtin_function_or_method'")
      end
  end.

Definition fee_warning : string :=
  "Warning" +:+ ": " +:+
  "The fee is less than 500 sats/kb.  It may take a very long time to confirm.".

(** [fee < round(tx.estimated_size() * 0.5)]. *)
Definition fee_below_floor (fee : Z) (tx : Transaction) : bool :=
  fee <? round (float_mul (float_of_int (estimated_size tx)) (1 # 2)).

(** The lines [msg] of the confirmation prompt of [do_send]. *)
Definition confirmation_msg (amount fee : Z) (tx : Transaction)
  : list string :=
  let msg :=
    [ "Amount to be sent" +:+ ": " +:+ format_amount_and_units amount;
      "Mining fee" +:+ ": " +:+ format_amount_and_units fee ] in
  let msg := if fee_below_floor fee tx then msg ++ [fee_warning] else msg in
  msg ++ [""; "Enter your password to proceed"].

(** The callback [sign_done] of [do_send]. *)
Definition sign_done (tx_desc : string) (success : bool) (tx : Transaction)
  : M unit :=
  if success then
    self_account ← gets _account;
    if negb (is_complete tx) then
      show_transaction self_account tx None ;; do_clear
    else
      broadcast_transaction self_account tx (Some tx_desc) None
  else mret tt.

(** [do_send]. *)
Definition do_send (preview : bool) : M unit :=
  emit (ShowNamed "think-before-sending") ;;
  r ← read_send_tab;
  match r with
  | None => mret tt
  | Some (outputs, fee, tx_desc, coins) =>
      self_account ← gets _account;
      a ← gets (λ w, accounts w self_account);
      config ← gets config;
      match make_unsigned_transaction a coins outputs config fee with
      | Raised NotEnoughFunds => emit (ShowMessage "Insufficient funds")
      | Raised ExcessiveFee =>
          emit (ShowMessage "Your fee is too high.  Max is 50 sat/byte.")
      | Raised e => emit (LogException "") ;; emit (ShowMessage (str_exn e))
      | Returned tx =>
          is_max ← gets is_max;
          amount ← (if is_max : bool then mret (output_value tx)
                    else call (sum_values 0 outputs));
          let fee := get_fee tx in
          if preview then show_transaction self_account tx (Some tx_desc)
          else
            let msg := confirmation_msg amount fee tx in
            let confirm_rate := 2 * max_fee_rate config in
            emit (PasswordDialog (join nl msg)) ;;
            match password_dialog (join nl msg) with
            | Some (String _ _ as password) =>
                sign_tx_with_password tx (sign_done tx_desc) password
            | _ => mret tt
            end
      end
  end.

(** [cpfp].  The dialog is laid out, with the proposed fee preset in its fee
    field, and executed; the label that follows the fee field as the user
    types is display only. *)
Definition cpfp (account : AccountRef) (parent_tx new_tx : Transaction)
  : M unit :=
  let total_size := estimated_size parent_tx + estimated_size new_tx in
  let max_fee := output_value new_tx in
  config ← gets config;
  let fee := truediv (fee_per_kb config * total_size) 1000 in
  let d := {| dlg_total_size := total_size; dlg_input_amount := max_fee;
              dlg_proposed_fee := fee |} in
  emit (CpfpDialogShown d) ;;
  let '(accepted, fee) := exec_cpfp_dialog d in
  if negb accepted then mret tt
  else
    match fee with
    | None =>
        raise (TypeError
          "'>' not supported between instances of 'NoneType' and 'int'")
    | Some fee =>
        if fee >? max_fee then emit (ShowError "Max fee exceeded")
        else
          a ← gets (λ w, accounts w account);
          match account_cpfp a parent_tx fee with
          | None => emit (ShowError "CPFP no longer valid")
          | Some new_tx =>
              self_account ← gets _account;
              show_transaction self_account new_tx None
          end
    end.

End Pipeline.

(** What a method put in front of the user: the events it appended. *)
Definition shown_by {A : Type} (m : M A) (w : Window) : list UiEvent :=
  drop (length (shown w)) (shown (exec m w)).

(** The build that [do_update_fee] asks of the account engine: the call
    [self._account.make_unsigned_transaction(self.get_coins(self._account),
    outputs, self.config, fee)] with the arguments as the method computes
    them. *)
Definition update_fee_outputs `{!AccountEngine} (w : Window)
  : list XTxOutput :=
  match payto_outputs (payto_e w) (is_max w) with
  | [] =>
      [ {| value := amount_to_send w;
           script_pubkey :=
             match get_payee_script (payto_e w) with
             | None => get_dummy_script (accounts w (_account w))
             | Some s => s
             end |} ]
  | outputs => outputs
  end.

Definition update_fee_coins `{!AccountEngine} (w : Window) : list UTXO :=
  match pay_from w with
  | [] => get_spendable_coins (accounts w (_account w)) None (config w) false
  | coins => coins
  end.

Definition update_fee_build `{!AccountEngine} (w : Window)
  : Outcome Transaction :=
  make_unsigned_transaction (accounts w (_account w)) (update_fee_coins w)
    (update_fee_outputs w) (config w) None.


(** The dialog [cpfp] lays out for a parent and its child: total size,
    input amount and the fee it proposes. *)
Definition cpfp_dialog (w : Window) (parent_tx new_tx : Transaction)
  : CpfpDialog :=
  {| dlg_total_size := estimated_size parent_tx + estimated_size new_tx;
     dlg_input_amount := output_value new_tx;
     dlg_proposed_fee :=
       truediv
         (fee_per_kb (config w)
          * (estimated_size parent_tx + estimated_size new_tx))
         1000 |}.

(** What [cpfp] shows once the engine was asked for the child. *)
Definition cpfp_built (self_account : AccountRef)
  (child : option Transaction) : UiEvent :=
  match child with
  | None => ShowError "CPFP no longer valid"
  | Some new_tx => ShowTransaction self_account new_tx None
  end.

(** [tx.output_value() if self.is_max else sum(output.value for output in
    outputs)], the amount [do_send] puts in its prompt. *)
Definition amount_to_confirm (w : Window) (outputs : list XTxOutput)
  (tx : Transaction) : Outcome Z :=
  if is_max w then Returned (output_value tx) else sum_values 0 outputs.

(** ** A sample wallet

    The scenarios of the testable properties: an account with one coin of
    100000 satoshis and one of 1000, an engine that pays a flat fee of 225
    satoshis for a transaction of 225 bytes, a network that accepts what it
    is sent, and a payee endpoint that refuses the request keyed "refused". *)

Module Scenario.

Definition coin (v : Z) : UTXO :=
  {| utxo_tx_hash := "c0"; out_index := 0; utxo_value := v;
     keyinstance_id := 1 |}.

Definition output (v : Z) : XTxOutput :=
  {| value := ValueInt v; script_pubkey := "76a9" |}.

Definition total_in (coins : list UTXO) : Z :=
  foldr (λ c acc, utxo_value c + acc) 0 coins.

Definition total_out (outputs : list XTxOutput) : Z :=
  foldr (λ o acc, match value o with ValueInt v => v + acc | _ => acc end)
        0 outputs.

Definition build (coins : list UTXO) (outputs : list XTxOutput)
  : Outcome Transaction :=
  let fee := 225 in
  let spend_all := existsb (λ o, match value o with
                                 | ValueAll => true | _ => false end)
                           outputs in
  if total_in coins <? total_out outputs + fee then Raised NotEnoughFunds
  else Returned
    {| txid := "ab12"; hash := "h-ab12"; is_complete := false;
       estimated_size := 225;
       output_value := if spend_all then total_in coins - fee
                       else total_out outputs;
       get_fee := fee; tx_str := "0100" |}.

Definition signed (tx : Transaction) : Transaction :=
  {| txid := txid tx; hash := hash tx; is_complete := true;
     estimated_size := estimated_size tx; output_value := output_value tx;
     get_fee := get_fee tx; tx_str := tx_str tx |}.

Definition engine : AccountEngine :=
  {| get_spendable_coins := λ _ _ _ isInvoice,
       if isInvoice then [coin 100000] else [coin 100000; coin 1000];
     make_unsigned_transaction := λ _ coins outputs _ _, build coins outputs;
     sign_transaction := λ _ tx _, Returned (signed tx);
     account_cpfp := λ _ parent fee,
       Some {| txid := "cd34"; hash := "h-cd34"; is_complete := false;
               estimated_size := 192;
               output_value := output_value parent - fee;
               get_fee := fee; tx_str := "0200" |};
     get_dummy_script := λ _, "6a" |}.

Definition network : Network :=
  {| broadcast_transaction_and_wait := λ tx, Returned (txid tx);
     send_payment := λ pr _ _,
       if String.eqb (pr_key pr) "refused" then Returned (false, "rejected")
       else Returned (true, "thanks");
     broadcast_failure_reason := λ _, "reason unknown";
     StateDispatched := 2 ^ 24;
     HasByteData := 2 ^ 12 |}.

Definition gui : Gui :=
  {| format_amount := pretty;
     format_amount_and_units := λ x, pretty x +:+ " BSV";
     password_dialog := λ _, Some "hunter2";
     exec_cpfp_dialog := λ d, (true, Some (Qfloor (dlg_proposed_fee d))) |}.

Definition account : Account :=
  {| transactions := {[ "h-ab12" := 2 ^ 23 ]};
     labels := ∅;
     invoices := {| paid := []; saves := 0 |} |}.

Definition payto (outputs : list XTxOutput) : PayToEdit :=
  {| is_pr := false; get_errors := []; payto_outputs := λ _, outputs;
     get_payee_script := None |}.

Definition window (outputs : list XTxOutput) : Window :=
  {| config := {| fee_per_kb := 1000; max_fee_rate := 50000 |};
     accounts := λ _, account;
     _account := 1;
     is_max := false;
     payment_request := None;
     not_enough_funds := false;
     pay_from := [];
     payto_e := payto outputs;
     amount_e := Some 50000;
     message_e := "rent";
     status_bar := "";
     shown := [] |}.

Definition request (key : string) (expired : bool) : PaymentRequest :=
  {| pr_key := key; get_outputs := [output 50000]; has_expired := expired |}.

Definition tx : Transaction :=
  {| txid := "ab12"; hash := "h-ab12"; is_complete := true;
     estimated_size := 225; output_value := 50000; get_fee := 225;
     tx_str := "0100" |}.

Definition child (v : Z) : Transaction :=
  {| txid := "cd34"; hash := "h-cd34"; is_complete := false;
     estimated_size := 192; output_value := v; get_fee := 0;
     tx_str := "0200" |}.

End Scenario.

(** ** More of the send tab *)


(** [spend_max]. *)
Definition spend_max `{!AccountEngine} : M unit :=
  modify (set_is_max true) ;;
  do_update_fee.

(** ** Python lists *)

Module PyList.

(** [l.pop(i)]: the element at index [i], an index below zero counting from
    the end, and the list without it.  [None] stands for the [IndexError] of
    an index out of range, on which the list is left as it was. *)
Definition pop {A : Type} (i : Z) (l : list A) : option (A * list A) :=
  let n := Z.of_nat (length l) in
  let j := if i <? 0 then i + n else i in
  if (j <? 0) || (n <=? j) then None
  else x ← l !! Z.to_nat j; Some (x, delete (Z.to_nat j) l).

(** [l.remove(x)]: the list without the first element equal to [x].  [None]
    stands for the [ValueError] raised when there is none. *)
Fixpoint remove `{EqDecision A} (x : A) (l : list A) : option (list A) :=
  match l with
  | [] => None
  | y :: l => if decide (x = y) then Some l else (y ::.) <$> remove x l
  end.

(** [if x in l: l.remove(x)]. *)
Definition discard `{EqDecision A} (x : A) (l : list A) : list A :=
  if decide (x ∈ l) then default l (remove x l) else l.

(** [Counter(l)[x]]. *)
Definition count `{EqDecision A} (x : A) (l : list A) : nat :=
  length (filter (λ y, y = x) l).

End PyList.

(** ** The fee timer and the pinned coins *)

(** The window with the attributes of its timer: the request for a fee
    recalculation, the request for a refresh of the display, and the
    refreshes made. *)
Record Session : Type := {
  window : Window;
  require_fee_update : bool;
  need_update : bool;          (* need_update.is_set() *)
  refreshes : nat              (* calls of refresh_wallet_display() *)
}.

Definition set_window (w : Window) (s : Session) : Session :=
  {| window := w; require_fee_update := require_fee_update s;
     need_update := need_update s; refreshes := refreshes s |}.

Definition set_require_fee_update (v : bool) (s : Session) : Session :=
  {| window := window s; require_fee_update := v;
     need_update := need_update s; refreshes := refreshes s |}.

(** [update_fee]. *)
Definition update_fee (s : Session) : Session :=
  set_require_fee_update true s.

(** [set_pay_from]: the coins are copied into [pay_from] (the list widget
    that mirrors them is redrawn). *)
Definition session_set_pay_from (coins : list UTXO) (s : Session) : Session :=
  set_window (set_pay_from coins (window s)) s.

(** [spend_coins]. *)
Definition spend_coins (coins : list UTXO) (s : Session) : Session :=
  update_fee (session_set_pay_from coins s).

(** [from_list_delete], given the index [i] that [indexOfTopLevelItem]
    found for the item: its position in the list, which mirrors
    [pay_from], or -1 when the item is not in it.  [None] stands for the
    [IndexError] of [pop]. *)
Definition from_list_delete (i : Z) (s : Session) : option Session :=
  '(_, rest) ← PyList.pop i (pay_from (window s));
  Some (update_fee (set_window (set_pay_from rest (window s)) s)).

Section Timer.

Context `{!AccountEngine}.

(** [payto_e.resolve()], the alias resolution of the pay-to field. *)
Variable resolve : PayToEdit → PayToEdit.

(** [timer_actions]. *)
Definition timer_actions (s : Session) : Outcome unit * Session :=
  let s :=
    if need_update s
    then {| window := window s; require_fee_update := require_fee_update s;
            need_update := false; refreshes := S (refreshes s) |}
    else s in
  let s := set_window (set_payto_e (resolve (payto_e (window s))) (window s))
             s in
  if require_fee_update s then
    match do_update_fee (window s) with
    | (Returned _, w) => (Returned tt, set_require_fee_update false (set_window w s))
    | (Raised e, w) => (Raised e, set_window w s)
    end
  else (Returned tt, s).

End Timer.

(** ** The network status *)

(** The counters of an account that [_update_network_status] reads and
    resets. *)
Record SyncCounters : Type := {
  request_count : Z;
  response_count : Z
}.

(** [network.get_server_height()] and [network.get_local_height()]. *)
Record NetworkHeights : Type := {
  server_height : Z;
  local_height : Z
}.

Module PyFormat.

Definition comma : Ascii.ascii := Ascii.ascii_of_nat 44.

(** The digits, least significant first, with a comma after every third
    that has a successor. *)
Fixpoint commas (digits : list Ascii.ascii) : list Ascii.ascii :=
  match digits with
  | a :: b :: c :: ((_ :: _) as rest) =>
      a :: b :: c :: comma :: commas rest
  | _ => digits
  end.

Definition group (digits : string) : string :=
  String.string_of_list_ascii
    (rev (commas (rev (String.list_ascii_of_string digits)))).

(** [f'{n:,d}']. *)
Definition thousands (n : Z) : string :=
  if n <? 0 then "-" +:+ group (pretty (- n)) else group (pretty n).

End PyFormat.

(** The loop of [_update_network_status] over the accounts: the counters of
    the accounts that wait for responses are added up, the others are
    reset. *)
Fixpoint tally (request_total response_total : Z)
  (accounts : list SyncCounters) : Z * Z * list SyncCounters :=
  match accounts with
  | [] => (request_total, response_total, [])
  | account :: accounts =>
      if request_count account >? response_count account then
        let '(q, r, accounts') :=
          tally (request_total + request_count account)
                (response_total + response_count account) accounts in
        (q, r, account :: accounts')
      else
        let '(q, r, accounts') :=
          tally request_total response_total accounts in
        (q, r, {| request_count := 0; response_count := 0 |} :: accounts')
  end.

(** [_update_network_status]: the text handed to the status bar, and the
    accounts as the loop leaves them.  [network] is [None] when the wallet
    runs offline. *)
Definition _update_network_status (network : option NetworkHeights)
  (accounts : list SyncCounters) : string * list SyncCounters :=
  match network with
  | None => ("Offline", accounts)
  | Some net =>
      let '(request_total, response_total, accounts') :=
        tally 0 0 accounts in
      let text :=
        if request_total >? response_total then
          "Synchronizing..." +:+ " " +:+ PyFormat.thousands response_total
          +:+ "/" +:+ PyFormat.thousands request_total
        else if server_height net =? 0 then "Not connected"
        else
          let server_lag := local_height net - server_height net in
          if server_lag >? 1
          then "Server " +:+ pretty server_lag +:+ " blocks behind"
          else "Connected" in
      (text, accounts')
  end.

(** ** Notifications of incoming transactions *)

(** The attributes behind the tray notifications.  Times are seconds; a
    float is modelled by the rational it denotes. *)
Record Notifier : Type := {
  tx_notifications : list (option Transaction * AccountRef);
  last_notify_tx_time : Q;
  tx_notify_timer : option Q;    (* the pending single-shot timer, in ms *)
  cleaned_up : bool;
  tray : list string             (* what notify() has shown, in order *)
}.

(** [notify_tx_rate]. *)
Definition notify_tx_rate : Q := 30.

Section Notify.

Context `{!Gui}.

(** [account.get_transaction_delta(tx_hash)]. *)
Variable get_transaction_delta : AccountRef → string → option Z.

(** The loop of [notify_tx_cb]: the transactions with a delta that is
    neither [None] nor zero are counted and their deltas added up. *)
Fixpoint combine_transactions (total_amount : Z) (n_ok : Z)
  (notifications : list (option Transaction * AccountRef)) : Z * Z :=
  match notifications with
  | [] => (total_amount, n_ok)
  | (Some tx, account) :: notifications =>
      match get_transaction_delta account (hash tx) with
      | Some v =>
          if v =? 0
          then combine_transactions total_amount n_ok notifications
          else combine_transactions (total_amount + v) (n_ok + 1)
                 notifications
      | None => combine_transactions total_amount n_ok notifications
      end
  | (None, _) :: notifications =>
      combine_transactions total_amount n_ok notifications
  end.

(** [notify_tx_cb], with the network connected or not and the clock reading
    [now]. *)
Definition notify_tx_cb (connected : bool) (now : Q) (s : Notifier)
  : Notifier :=
  let '(total_amount, n_ok) :=
    if connected
    then match tx_notifications s with
         | [] => (0, 0)
         | _ :: _ => combine_transactions 0 0 (tx_notifications s)
         end
    else (0, 0) in
  let shown :=
    if n_ok =? 0 then []
    else if n_ok >? 1 then
      [ pretty n_ok +:+
        " new transactions received: Total amount received in the new transactions "
        +:+ format_amount_and_units total_amount ]
    else
      [ "New transaction received: "
        +:+ format_amount_and_units total_amount ] in
  {| tx_notifications := [];
     last_notify_tx_time :=
       if n_ok =? 0 then last_notify_tx_time s else now;
     tx_notify_timer := None;
     cleaned_up := cleaned_up s;
     tray := tray s ++ shown |}.

(** [notify_transactions], with the clock reading [now]; [now'] is the
    reading [notify_tx_cb] makes when it is called from here.  The elapsed
    time, the time that remains and the delay in ms are floats, each
    rounded as it is computed. *)
Definition notify_transactions (connected : bool) (now now' : Q)
  (s : Notifier) : Notifier :=
  match tx_notify_timer s, tx_notifications s, cleaned_up s with
  | None, _ :: _, false =>
      let elapsed := float_sub now (last_notify_tx_time s) in
      if Qlt_le_dec elapsed notify_tx_rate then
        let when := float_sub notify_tx_rate elapsed in
        {| tx_notifications := tx_notifications s;
           last_notify_tx_time := last_notify_tx_time s;
           tx_notify_timer := Some (float_mul when 1000);
           cleaned_up := cleaned_up s;
           tray := tray s |}
      else notify_tx_cb connected now' s
  | _, _, _ => s
  end.

End Notify.

(** ** Recently opened wallets *)

Section RecentlyVisited.

(** [os.path.normpath], [os.path.exists] and [get_wallet_name_from_path]. *)
Variable normpath : string → string.
Variable path_exists : string → bool.
Variable get_wallet_name_from_path : string → string.

(** The list [update_recently_visited] stores under ['recently_open']. *)
Definition recently_open (filename : string) (recent : list string)
  : list string :=
  let recent := PyList.discard filename recent in
  let filename := normpath filename in
  let recent := PyList.discard filename recent in
  let recent := filename :: recent in
  take 10 (filter (λ path, path_exists path = true) recent).

(** The entries of the menu: the text and the path it opens. *)
Definition recently_visited_menu (recent : list string)
  : list (string * string) :=
  let wallet_names := map get_wallet_name_from_path recent in
  map (λ '(wallet_name, path),
         (if Nat.eqb (PyList.count wallet_name wallet_names) 1
          then wallet_name else path, path))
      (zip wallet_names recent).

(** [update_recently_visited]: the stored list, the entries of the rebuilt
    menu, and whether the menu is enabled ([bool(pairs)] of a generator,
    which is true). *)
Definition update_recently_visited (filename : string)
  (recent : list string) : list string * list (string * string) * bool :=
  let recent := recently_open filename recent in
  (recent, recently_visited_menu recent, true).

End RecentlyVisited.

(** ** Top-level windows *)

(** [push_top_level_window]. *)
Definition push_top_level_window (window : Z) (tl_windows : list Z)
  : list Z :=
  tl_windows ++ [window].

(** [pop_top_level_window]; [None] stands for the [ValueError] of
    [remove]. *)
Definition pop_top_level_window (window : Z) (tl_windows : list Z)
  : option (list Z) :=
  PyList.remove window tl_windows.

(** [self.tl_windows[-1] if self.tl_windows else self], the window that
    [top_level_window] starts from. *)
Definition top_level_override (self : Z) (tl_windows : list Z) : Z :=
  default self (last tl_windows).

(** ** Transactions read from text *)

(** An input of a transaction read from text, as [tx_from_text] sees it. *)
Record XTxInput : Type := {
  prev_hash : string;
  prev_idx : Z;
  txin_value : option Z
}.

(** Modelled from the spec: [coin.key()] of [UTXO], which is not under the
    sources; a spendable output is identified by its transaction hash and
    its output index. *)
Definition coin_key (coin : UTXO) : string * Z :=
  (utxo_tx_hash coin, out_index coin).

(** The body of the inner loop of [tx_from_text] for one input: when its
    outpoint is among the account's outpoints, it takes the value of the
    coin at the index of the first such outpoint. *)
Definition value_from_coins (my_coins : list UTXO) (txin : XTxInput)
  : XTxInput :=
  let my_outpoints := map coin_key my_coins in
  let outpoint := (prev_hash txin, prev_idx txin) in
  if decide (outpoint ∈ my_outpoints) then
    match list_find (λ k, k = outpoint) my_outpoints with
    | Some (my_index, _) =>
        match my_coins !! my_index with
        | Some coin =>
            {| prev_hash := prev_hash txin; prev_idx := prev_idx txin;
               txin_value := Some (utxo_value coin) |}
        | None => txin
        end
    | None => txin
    end
  else txin.

Section TxFromText.

Context `{!AccountEngine}.

(** [Transaction.from_dict(txdict_from_str(txt))], as far as the inputs of
    the transaction go. *)
Variable parse_inputs : string → Outcome (list XTxInput).

(** [tx_from_text], for the accounts of the wallet in the order of
    [get_accounts()]; the transaction is given by its inputs.  The call
    [get_spendable_coins(None, self.config)] leaves the invoice flag to its
    default, taken to be [False] as in [get_coins]. *)
Definition tx_from_text (wallet_accounts : list AccountRef) (txt : string)
  : M (option (list XTxInput)) :=
  match txt with
  | EmptyString => mret None
  | String _ _ =>
      inputs ← call (parse_inputs txt);
      w ← gets (λ w, w);
      mret (Some
        (foldl (λ inputs account,
                  let my_coins :=
                    get_spendable_coins (accounts w account) None (config w)
                      false in
                  map (value_from_coins my_coins) inputs)
               inputs wallet_accounts))
  end.

End TxFromText.

(** ** Notions used to state the properties *)

(** An account that waits for responses, and an account as the status
    update leaves it. *)
Definition lagging (account : SyncCounters) : bool :=
  request_count account >? response_count account.

Definition settle (account : SyncCounters) : SyncCounters :=
  if lagging account then account
  else {| request_count := 0; response_count := 0 |}.

(** The sum of a list of integers. *)
Definition sum_Z (l : list Z) : Z := foldr Z.add 0 l.

(** The deltas that count in a notification: those of the queued
    transactions that are neither missing nor zero. *)
Definition counted_deltas (get_transaction_delta : AccountRef → string → option Z)
  (notifications : list (option Transaction * AccountRef)) : list Z :=
  omap (λ '(tx, account),
          tx ← tx;
          v ← get_transaction_delta account (hash tx);
          if v =? 0 then None else Some v)
       notifications.

(** ** Samples of what can go wrong, and of the other state *)

Module Faults.

(** An engine whose signing refuses the password. *)
Definition engine_refusing : AccountEngine :=
  {| get_spendable_coins := @get_spendable_coins Scenario.engine;
     make_unsigned_transaction :=
       @make_unsigned_transaction Scenario.engine;
     sign_transaction := λ _ _ _, Raised (Exception "Incorrect password");
     account_cpfp := @account_cpfp Scenario.engine;
     get_dummy_script := @get_dummy_script Scenario.engine |}.

(** An engine that signs for one of several cosigners: the transaction
    stays incomplete. *)
Definition engine_cosigning : AccountEngine :=
  {| get_spendable_coins := @get_spendable_coins Scenario.engine;
     make_unsigned_transaction :=
       @make_unsigned_transaction Scenario.engine;
     sign_transaction := λ _ tx _, Returned tx;
     account_cpfp := @account_cpfp Scenario.engine;
     get_dummy_script := @get_dummy_script Scenario.engine |}.

(** A network out of reach. *)
Definition network_down : Network :=
  {| broadcast_transaction_and_wait := λ _, Raised (Exception "timed out");
     send_payment := λ _ _ _, Raised (Exception "connection refused");
     broadcast_failure_reason := λ _, "reason unknown";
     StateDispatched := 2 ^ 24;
     HasByteData := 2 ^ 12 |}.

(** A user who dismisses the dialogs. *)
Definition gui_dismissing : Gui :=
  {| format_amount := pretty;
     format_amount_and_units := λ x, pretty x +:+ " BSV";
     password_dialog := λ _, None;
     exec_cpfp_dialog := λ _, (false, None) |}.

(** A user who accepts the CPFP dialog with the fee field emptied. *)
Definition gui_empty_fee : Gui :=
  {| format_amount := pretty;
     format_amount_and_units := λ x, pretty x +:+ " BSV";
     password_dialog := λ _, Some "hunter2";
     exec_cpfp_dialog := λ _, (true, None) |}.

End Faults.

Module Samples.

Definition session : Session :=
  {| window := Scenario.window [Scenario.output 50000];
     require_fee_update := false; need_update := true; refreshes := 0 |}.

Definition resolve (payto : PayToEdit) : PayToEdit := payto.

Definition syncing : list SyncCounters :=
  [ {| request_count := 1200; response_count := 1100 |};
    {| request_count := 7; response_count := 7 |};
    {| request_count := 40; response_count := 2 |} ].

Definition heights : NetworkHeights :=
  {| server_height := 700000; local_height := 700003 |}.

Definition tx2 : Transaction :=
  {| txid := "ef56"; hash := "h-ef56"; is_complete := true;
     estimated_size := 226; output_value := 1200; get_fee := 113;
     tx_str := "0300" |}.

(** The deltas of two incoming transactions; a third is unknown. *)
Definition delta (account : AccountRef) (tx_hash : string) : option Z :=
  if String.eqb tx_hash "h-ab12" then Some 50000
  else if String.eqb tx_hash "h-ef56" then Some 1200
  else None.

Definition notifier : Notifier :=
  {| tx_notifications :=
       [ (Some Scenario.tx, 1); (None, 1); (Some tx2, 2);
         (Some (Scenario.child 0), 1) ];
     last_notify_tx_time := 1000;
     tx_notify_timer := None;
     cleaned_up := false;
     tray := [] |}.

Definition normpath (path : string) : string :=
  if String.eqb path "./b.sqlite" then "b.sqlite" else path.

Definition path_exists (path : string) : bool :=
  negb (String.eqb path "gone.sqlite").

Definition wallet_name (path : string) : string := path.

Definition inputs : list XTxInput :=
  [ {| prev_hash := "c0"; prev_idx := 0; txin_value := None |};
    {| prev_hash := "ff"; prev_idx := 3; txin_value := Some 5 |} ].

Definition parse_inputs (txt : string) : Outcome (list XTxInput) :=
  if String.eqb txt "0100" then Returned inputs
  else Raised (Exception "could not parse").

End Samples.

(** A wallet whose engine charges the configured rate on a transaction
    of 225 bytes, the fee in whole satoshis. *)
Module Rates.

Definition build (config : Config) (coins : list UTXO)
  (outputs : list XTxOutput) : Outcome Transaction :=
  let size := 225 in
  let fee := fee_per_kb config * size / 1000 in
  if Scenario.total_in coins <? Scenario.total_out outputs + fee
  then Raised NotEnoughFunds
  else Returned
    {| txid := "ab12"; hash := "h-ab12"; is_complete := false;
       estimated_size := size;
       output_value := Scenario.total_out outputs;
       get_fee := fee; tx_str := "0100" |}.

Definition engine : AccountEngine :=
  {| get_spendable_coins := @get_spendable_coins Scenario.engine;
     make_unsigned_transaction := λ _ coins outputs config _,
       build config coins outputs;
     sign_transaction := @sign_transaction Scenario.engine;
     account_cpfp := @account_cpfp Scenario.engine;
     get_dummy_script := @get_dummy_script Scenario.engine |}.

Definition window (rate : Z) : Window :=
  {| config := {| fee_per_kb := rate; max_fee_rate := 50000 |};
     accounts := λ _, Scenario.account;
     _account := 1;
     is_max := false;
     payment_request := None;
     not_enough_funds := false;
     pay_from := [];
     payto_e := Scenario.payto [Scenario.output 50000];
     amount_e := Some 50000;
     message_e := "rent";
     status_bar := "";
     shown := [] |}.

End Rates.

(** ** Properties *)

Ltac unfold_M :=
  unfold exec, eval, mbind, M_bind, mret, M_ret, gets, modify, call, raise,
    emit, modify_account, run_task in *;
  simpl in *.





(** *** Floats *)

Lemma pow2_pos (e : Z) : (0 < pow2 e)%Q.
Proof. by apply Qpower_0_lt. Qed.

Lemma pow2_add (a b : Z) : (pow2 (a + b) == pow2 a * pow2 b)%Q.
Proof. by apply Qpower_plus. Qed.

Lemma pow2_le (a b : Z) : a ≤ b → (pow2 a <= pow2 b)%Q.
Proof. intros H. by apply Qpower_le_compat_l. Qed.

Lemma pow2_Z (n : Z) : 0 ≤ n → (pow2 n == inject_Z (2 ^ n))%Q.
Proof. intros H. unfold pow2. by rewrite Zpower_Qpower. Qed.

Lemma round_nearest (x : Q) (k : Z) :
  (Qabs (inject_Z (round x) - x) <= Qabs (inject_Z k - x))%Q.
Proof.
  pose proof (Qfloor_le x) as Hlo. pose proof (Qlt_floor x) as Hhi.
  rewrite inject_Z_plus in Hhi. change (inject_Z 1) with 1%Q in Hhi.
  assert (inject_Z k <= inject_Z (Qfloor x)
          ∨ inject_Z (Qfloor x) + 1 <= inject_Z k)%Q as Hk.
  { destruct (Z_le_gt_dec k (Qfloor x)) as [H | H].
    - left. by rewrite <- Zle_Qle.
    - right. change 1%Q with (inject_Z 1). rewrite <- inject_Z_plus.
      rewrite <- Zle_Qle. lia. }
  pose proof (Qle_Qabs (inject_Z k - x)) as Hb1.
  pose proof (Qle_Qabs (- (inject_Z k - x))) as Hb2.
  rewrite Qabs_opp in Hb2.
  apply Qabs_Qle_condition.
  unfold round.
  destruct (Qcompare_spec (x - inject_Z (Qfloor x)) (1 # 2)) as [H | H | H];
    [destruct (Z.even _) | |]; rewrite ?inject_Z_plus;
    change (inject_Z 1) with 1%Q;
    set (f := inject_Z (Qfloor x)) in *; set (z := inject_Z k) in *;
    set (b := Qabs (z - x)) in *; clearbody f z b;
    destruct Hk; split; lra.
Qed.

Lemma ilog2_spec (x : Q) :
  (0 < x)%Q → (pow2 (ilog2 x) <= x)%Q ∧ (x < pow2 (ilog2 x + 1))%Q.
Proof.
  intros Hx. destruct x as [n d].
  assert (0 < n) as Hn by (unfold Qlt in Hx; simpl in Hx; lia).
  pose proof (Z.log2_spec n Hn) as [Hn1 Hn2].
  pose proof (Z.log2_spec (Zpos d) ltac:(done)) as [Hd1 Hd2].
  pose proof (Z.log2_nonneg n). pose proof (Z.log2_nonneg (Zpos d)).
  unfold ilog2. cbn [Qnum Qden].
  set (a := Z.log2 n) in *. set (b := Z.log2 (Zpos d)) in *.
  assert (pow2 (a - b - 1) <= n # d)%Q as Hlow.
  { apply (Qmult_le_r _ _ (pow2 (b + 1))); [apply pow2_pos|].
    rewrite <- pow2_add. replace (a - b - 1 + (b + 1)) with a by lia.
    rewrite !pow2_Z by lia. unfold Qle, Qmult, inject_Z; simpl. nia. }
  assert (n # d < pow2 (a - b + 1))%Q as Hhigh.
  { apply (Qmult_lt_r _ _ (pow2 b)); [apply pow2_pos|].
    rewrite <- pow2_add. replace (a - b + 1 + b) with (a + 1) by lia.
    rewrite !pow2_Z by lia. unfold Qlt, Qmult, inject_Z; simpl. nia. }
  destruct (Qle_bool (pow2 (a - b)) (n # d)) eqn:Hle.
  - apply Qle_bool_iff in Hle. done.
  - split; [done|]. replace (a - b - 1 + 1) with (a - b) by lia.
    apply Qnot_le_lt. intros Hc. apply Qle_bool_iff in Hc. congruence.
Qed.

Lemma Qabs_cases (a : Q) :
  (0 <= a ∧ Qabs a == a)%Q ∨ (a <= 0 ∧ Qabs a == - a)%Q.
Proof.
  destruct (Qlt_le_dec a 0) as [H | H].
  - right. split; [lra |]. apply Qabs_neg. lra.
  - left. split; [done |]. by apply Qabs_pos.
Qed.

Ltac Qabs_lra :=
  repeat match goal with
  | |- context [Qabs ?a] =>
      destruct (Qabs_cases a) as [[? ?] | [? ?]];
      generalize dependent (Qabs a); intros
  | H : context [Qabs ?a] |- _ =>
      destruct (Qabs_cases a) as [[? ?] | [? ?]];
      generalize dependent (Qabs a); intros
  end; lra.

Lemma Qabs_scale (a b s : Q) :
  (0 < s)%Q → (Qabs (a * s - b * s) == Qabs (a - b) * s)%Q.
Proof.
  intros Hs. assert (a * s - b * s == (a - b) * s)%Q as -> by ring.
  rewrite Qabs_Qmult, (Qabs_pos s); [done | lra].
Qed.

Lemma Qabs_scaled (y x u t s : Q) :
  (0 < s)%Q → (y == u * s)%Q → (x == t * s)%Q →
  (Qabs (y - x) == Qabs (u - t) * s)%Q.
Proof.
  intros Hs Hy Hx. rewrite <- Qabs_scale by done. apply Qabs_wd.
  by rewrite Hy, Hx.
Qed.

Lemma nearest_float_eq (x : Q) :
  (nearest_float x
   == inject_Z (round (x / pow2 (ulp_exponent x))) * pow2 (ulp_exponent x))%Q.
Proof. apply Qred_correct. Qed.

Lemma scaled_eq (x : Q) (e : Z) : (x == x / pow2 e * pow2 e)%Q.
Proof. pose proof (pow2_pos e). field. lra. Qed.

Lemma scaled_bounds (x : Q) :
  ¬ (x == 0)%Q →
  (Qabs (x / pow2 (ulp_exponent x)) < pow2 53)%Q ∧
  (-1074 < ulp_exponent x →
   (pow2 52 <= Qabs (x / pow2 (ulp_exponent x)))%Q).
Proof.
  intros Hx.
  assert (0 < Qabs x)%Q as Hpos.
  { pose proof (Qabs_nonneg x). destruct (Qeq_dec (Qabs x) 0) as [H0 | H0].
    - destruct Hx. revert H0. clear. intros H0. Qabs_lra.
    - lra. }
  destruct (ilog2_spec _ Hpos) as [Hlo Hhi].
  set (e := ulp_exponent x). set (s := pow2 e).
  pose proof (pow2_pos e) as Hs. fold s in Hs.
  assert (Qabs (x / s) * s == Qabs x)%Q as Habs.
  { rewrite <- (Qabs_pos s) at 2 by lra. rewrite <- Qabs_Qmult.
    apply Qabs_wd. unfold s. symmetry. apply scaled_eq. }
  split.
  - apply (Qmult_lt_r _ _ s Hs). rewrite Habs. unfold s.
    rewrite <- pow2_add. eapply Qlt_le_trans; [exact Hhi |].
    apply pow2_le. unfold e, ulp_exponent. lia.
  - intros He. apply (Qmult_le_r _ _ s Hs). rewrite Habs. unfold s.
    rewrite <- pow2_add.
    replace (52 + e) with (ilog2 (Qabs x)); [done |].
    unfold e, ulp_exponent in *. lia.
Qed.

Lemma nearest_float_0 (x : Q) : (x == 0)%Q → (nearest_float x == 0)%Q.
Proof.
  intros Hx. rewrite nearest_float_eq.
  assert (round (x / pow2 (ulp_exponent x)) = 0) as ->; [| ring].
  pose proof (round_nearest (x / pow2 (ulp_exponent x)) 0) as H.
  assert (x / pow2 (ulp_exponent x) == 0)%Q as H0.
  { generalize (pow2 (ulp_exponent x)). intros p. unfold Qdiv.
    rewrite Hx. ring. }
  change (inject_Z 0) with 0%Q in H.
  assert (inject_Z (round (x / pow2 (ulp_exponent x))) == inject_Z 0)%Q
    as Heq.
  { change (inject_Z 0) with 0%Q. revert H H0.
    generalize (inject_Z (round (x / pow2 (ulp_exponent x)))).
    generalize (x / pow2 (ulp_exponent x))%Q. clear. intros. Qabs_lra. }
  by apply inject_Z_injective.
Qed.

(** No float is nearer to [x] than [nearest_float x]. *)
Lemma nearest_float_nearest (x y : Q) :
  float53 y → (Qabs (nearest_float x - x) <= Qabs (y - x))%Q.
Proof.
  intros (m' & e' & Hm' & He' & Hy).
  destruct (Qeq_dec x 0) as [Hx | Hx].
  { rewrite (nearest_float_0 x Hx), Hx. clear. Qabs_lra. }
  rewrite nearest_float_eq.
  destruct (scaled_bounds x Hx) as [Hhi Hlo].
  set (e := ulp_exponent x) in *. set (t := (x / pow2 e)%Q) in *.
  set (s := pow2 e). pose proof (pow2_pos e) as Hs. fold s in Hs.
  assert (x == t * s)%Q as Hxt by apply scaled_eq.
  set (u := (y / pow2 e)%Q).
  assert (y == u * s)%Q as Hyu by apply scaled_eq.
  rewrite (Qabs_scaled y x u t s Hs Hyu Hxt).
  rewrite (Qabs_scaled _ x _ t s Hs (Qeq_refl _) Hxt).
  apply Qmult_le_compat_r; [| lra].
  destruct (Z_le_gt_dec e e') as [Hee | Hee].
  - (* [y] is on the grid of [x]. *)
    assert (u == inject_Z (m' * 2 ^ (e' - e)))%Q as ->.
    { unfold u. rewrite Hy, inject_Z_mult, <- pow2_Z by lia.
      replace e' with ((e' - e) + e) at 1 by lia. rewrite pow2_add.
      pose proof (pow2_pos e). field. lra. }
    apply round_nearest.
  - (* [y] is finer than the grid of [x]: it is below [2 ^ 52] grid
       steps in magnitude, and [x] is not. *)
    assert (-1074 < e) as He by lia. specialize (Hlo He).
    assert (Qabs u < pow2 52)%Q as Hu.
    { apply (Qmult_lt_r _ _ s Hs).
      assert (Qabs u * s == Qabs y)%Q as ->.
      { rewrite <- (Qabs_pos s) at 1 by lra. rewrite <- Qabs_Qmult.
        by rewrite <- Hyu. }
      rewrite Hy, Qabs_Qmult, (Qabs_pos (pow2 e')) by
        (pose proof (pow2_pos e'); lra).
      unfold s. rewrite <- pow2_add.
      apply Qlt_le_trans with (pow2 53 * pow2 e')%Q.
      - apply Qmult_lt_r; [apply pow2_pos |].
        rewrite pow2_Z by lia.
        change (Qabs (inject_Z m')) with (inject_Z (Z.abs m')).
        by rewrite <- Zlt_Qlt.
      - rewrite <- pow2_add. apply pow2_le. lia. }
    pose proof (round_nearest t (2 ^ 52)) as Hup.
    pose proof (round_nearest t (- 2 ^ 52)) as Hdown.
    rewrite inject_Z_opp in Hdown.
    rewrite <- pow2_Z in Hup, Hdown by lia.
    revert Hup Hdown Hu Hlo. generalize (pow2 52) (inject_Z (round t)).
    clearbody t u. clear. intros. Qabs_lra.
Qed.

(** What [nearest_float] gives is a float. *)
Lemma nearest_float_float53 (x : Q) : float53 (nearest_float x).
Proof.
  destruct (Qeq_dec x 0) as [Hx | Hx].
  { exists 0, 0. split; [done |]. split; [done |].
    rewrite (nearest_float_0 x Hx). ring. }
  destruct (scaled_bounds x Hx) as [Hhi _].
  set (e := ulp_exponent x) in *. set (t := (x / pow2 e)%Q) in *.
  assert (Z.abs (round t) ≤ 2 ^ 53) as Hm.
  { pose proof (round_nearest t (2 ^ 53)) as Hup.
    pose proof (round_nearest t (- 2 ^ 53)) as Hdown.
    rewrite inject_Z_opp in Hdown. rewrite pow2_Z in Hhi by lia.
    assert (inject_Z (- 2 ^ 53) <= inject_Z (round t)
            ∧ inject_Z (round t) <= inject_Z (2 ^ 53))%Q as [H1 H2].
    { rewrite inject_Z_opp. revert Hup Hdown Hhi.
      generalize (inject_Z (2 ^ 53)) (inject_Z (round t)).
      clearbody t. clear. intros. split; Qabs_lra. }
    rewrite <- Zle_Qle in H1, H2. lia. }
  assert (-1074 ≤ e) as He by (unfold e, ulp_exponent; lia).
  destruct (decide (Z.abs (round t) = 2 ^ 53)) as [Htop | Htop].
  - assert (round t = 2 ^ 53 ∨ round t = - 2 ^ 53) as Hcases by lia.
    exists (round t / 2), (e + 1). split; [| split; [lia |]].
    + by destruct Hcases as [-> | ->].
    + rewrite nearest_float_eq. fold e t. rewrite pow2_add.
      assert (round t = 2 * (round t / 2)) as Heven
        by (by destruct Hcases as [-> | ->]).
      rewrite Heven at 1. rewrite inject_Z_mult.
      change (pow2 1) with 2%Q. change (inject_Z 2) with 2%Q. ring.
  - exists (round t), e. split; [lia |]. split; [done |].
    apply nearest_float_eq.
Qed.

(** A float is its own nearest float. *)
Lemma nearest_float_id (x : Q) : float53 x → (nearest_float x == x)%Q.
Proof.
  intros Hx. pose proof (nearest_float_nearest x x Hx) as H.
  revert H. generalize (nearest_float x). clear. intros. Qabs_lra.
Qed.

Lemma ilog2_unique (x : Q) (l : Z) :
  (pow2 l <= x)%Q → (x < pow2 (l + 1))%Q → ilog2 x = l.
Proof.
  intros Hlo Hhi.
  assert (0 < x)%Q as Hx by (pose proof (pow2_pos l); lra).
  destruct (ilog2_spec x Hx) as [Hlo' Hhi'].
  assert (pow2 l < pow2 (ilog2 x + 1))%Q as H1 by lra.
  assert (pow2 (ilog2 x) < pow2 (l + 1))%Q as H2 by lra.
  apply Qpower_lt_compat_l_inv in H1; [| done].
  apply Qpower_lt_compat_l_inv in H2; [| done]. lia.
Qed.

Lemma round_comp (x y : Q) : (x == y)%Q → round x = round y.
Proof.
  intros H. unfold round. rewrite (Qfloor_comp _ _ H).
  assert (x - inject_Z (Qfloor y) == y - inject_Z (Qfloor y))%Q as H'
    by (by rewrite H).
  by rewrite (Qcompare_comp _ _ H' _ _ (Qeq_refl (1 # 2))).
Qed.

(** [nearest_float] is a function of the number, not of the fraction that
    stands for it. *)
Lemma nearest_float_comp (x y : Q) :
  (x == y)%Q → nearest_float x = nearest_float y.
Proof.
  intros H. destruct (Qeq_dec x 0) as [Hx | Hx].
  { apply Qred_eq_iff. rewrite <- !nearest_float_eq.
    rewrite (nearest_float_0 x Hx), (nearest_float_0 y); [done |].
    by rewrite <- H. }
  assert (ulp_exponent x = ulp_exponent y) as He.
  { unfold ulp_exponent. f_equal. f_equal.
    assert (0 < Qabs y)%Q as Hpos.
    { rewrite <- H. revert Hx. clear. intros. 
      pose proof (Qabs_nonneg x).
      destruct (Qeq_dec (Qabs x) 0) as [H0 | H0]; [| lra].
      destruct Hx. revert H0. clear. intros. Qabs_lra. }
    destruct (ilog2_spec _ Hpos) as [Hlo Hhi].
    apply ilog2_unique; by rewrite H. }
  unfold nearest_float. rewrite He. apply Qred_complete.
  rewrite (round_comp (x / _) (y / pow2 (ulp_exponent y))); [done |].
  by rewrite H.
Qed.

(** Rounding keeps the order. *)
Lemma nearest_float_mono (x y : Q) :
  (x <= y)%Q → (nearest_float x <= nearest_float y)%Q.
Proof.
  intros Hxy. destruct (Qlt_le_dec (nearest_float y) (nearest_float x))
    as [Hlt | Hle]; [| done].
  pose proof (nearest_float_nearest x _ (nearest_float_float53 y)) as H1.
  pose proof (nearest_float_nearest y _ (nearest_float_float53 x)) as H2.
  assert (x == y)%Q as Heq.
  { revert Hxy Hlt H1 H2. generalize (nearest_float x) (nearest_float y).
    clear. intros. Qabs_lra. }
  rewrite (nearest_float_comp x y Heq) in Hlt. lra.
Qed.

Lemma float53_inject_Z (n : Z) : Z.abs n < 2 ^ 53 → float53 (inject_Z n).
Proof.
  intros H. exists n, 0. split; [done |]. split; [done |].
  change (pow2 0) with 1%Q. ring.
Qed.

Lemma float53_opp (x : Q) : float53 x → float53 (- x).
Proof.
  intros (m & e & Hm & He & Hx). exists (- m), e.
  split; [lia |]. split; [done |]. rewrite Hx, inject_Z_opp. ring.
Qed.

(** Every float is a whole number of steps of [2 ^ -1074]. *)
Lemma float53_steps (x : Q) :
  float53 x → ∃ k : Z, (x == inject_Z k * pow2 (-1074))%Q.
Proof.
  intros (m & e & _ & He & Hx). exists (m * 2 ^ (e + 1074)).
  rewrite Hx, inject_Z_mult, <- pow2_Z by lia.
  replace e with (e + 1074 + -1074) at 1 by lia. rewrite pow2_add. ring.
Qed.

(** Two floats differ by a step at least. *)
Lemma float53_gap (x y : Q) :
  float53 x → float53 y → (x < y)%Q → (pow2 (-1074) <= y - x)%Q.
Proof.
  intros [kx Hx]%float53_steps [ky Hy]%float53_steps Hlt.
  pose proof (pow2_pos (-1074)) as Hp.
  assert (kx < ky) as Hk.
  { rewrite Hx, Hy in Hlt. apply Qmult_lt_r in Hlt; [| done].
    by rewrite <- Zlt_Qlt in Hlt. }
  assert (inject_Z 1 <= inject_Z (ky - kx))%Q as H1
    by (rewrite <- Zle_Qle; lia).
  rewrite Hx, Hy. unfold Z.sub in H1.
  rewrite inject_Z_plus, inject_Z_opp in H1.
  change (inject_Z 1) with 1%Q in H1.
  assert (1 * pow2 (-1074)
          <= (inject_Z ky + - inject_Z kx) * pow2 (-1074))%Q as H
    by (apply Qmult_le_compat_r; lra).
  lra.
Qed.

Lemma nearest_float_step (x : Q) :
  (pow2 (-1074) <= x)%Q → (pow2 (-1074) <= nearest_float x)%Q.
Proof.
  intros H. apply nearest_float_mono in H.
  rewrite nearest_float_id in H; [done |].
  exists 1, (-1074). split; [done |]. split; [done |]. ring.
Qed.

(** The difference of two floats, the first below the second, rounds to a
    positive float. *)
Lemma float_sub_pos (x y : Q) :
  float53 x → float53 y → (x < y)%Q → (0 < float_sub y x)%Q.
Proof.
  intros Hx Hy Hlt. pose proof (pow2_pos (-1074)).
  pose proof (nearest_float_step _ (float53_gap x y Hx Hy Hlt)).
  unfold float_sub. lra.
Qed.

(** A number in the range of the floats rounds to a float below
    [2 ^ 1024]. *)
Lemma nearest_float_binary64 (x : Q) :
  in_float_range x → binary64 (nearest_float x).
Proof.
  unfold in_float_range. intros Hx. split; [apply nearest_float_float53 |].
  set (top := (inject_Z (2 ^ 53 - 1) * pow2 971)%Q).
  assert (float53 top) as Htop.
  { exists (2 ^ 53 - 1), 971. split; [done |]. split; [done |]. done. }
  assert (top == pow2 1024 - 2 * pow2 970)%Q as Heq.
  { unfold top. replace 1024 with (54 + 970) by done.
    replace 971 with (1 + 970) by done. rewrite !pow2_add.
    rewrite (pow2_Z 54), (pow2_Z 1) by done.
    unfold Z.sub. rewrite inject_Z_plus.
    change (inject_Z (2 ^ 54)) with (2 * inject_Z (2 ^ 53))%Q.
    change (inject_Z (2 ^ 1)) with 2%Q. change (inject_Z (- (1))) with (-1)%Q.
    ring. }
  pose proof (pow2_pos 970) as H970.
  pose proof (nearest_float_nearest x top Htop) as Hnear.
  pose proof (nearest_float_nearest x (- top) (float53_opp _ Htop)) as Hnear'.
  pose proof (nearest_float_id top Htop) as Hid.
  pose proof (nearest_float_id _ (float53_opp _ Htop)) as Hid'.
  assert (nearest_float x < pow2 1024)%Q as Hup.
  { destruct (Qlt_le_dec top x) as [Hhigh | Hhigh].
    - revert Hx Hnear Heq H970 Hhigh.
      generalize (nearest_float x) (pow2 1024) (pow2 970).
      clearbody top. clear. intros. Qabs_lra.
    - apply nearest_float_mono in Hhigh. rewrite Hid in Hhigh. lra. }
  assert (- pow2 1024 < nearest_float x)%Q as Hdown.
  { destruct (Qlt_le_dec x (- top)) as [Hlow | Hlow].
    - revert Hx Hnear' Heq H970 Hlow.
      generalize (nearest_float x) (pow2 1024) (pow2 970).
      clearbody top. clear. intros. Qabs_lra.
    - apply nearest_float_mono in Hlow. rewrite Hid' in Hlow. lra. }
  apply Qabs_Qlt_condition. split; lra.
Qed.

(** The rounding at work: [417 / 1000] and [1 / 10] as Python prints them
    in full, a quotient that is a float, and two ties above [2 ** 53], where
    the floats are the even integers. *)
Lemma nearest_float_examples :
  truediv 417 1000 = (7512004178453987 # 18014398509481984)%Q ∧
  truediv 1 10 = (3602879701896397 # 36028797018963968)%Q ∧
  truediv 417000 1000 = 417%Q ∧
  float_of_int (2 ^ 53 + 1) = inject_Z (2 ^ 53) ∧
  float_of_int (2 ^ 53 + 3) = inject_Z (2 ^ 53 + 4).
Proof. repeat split; vm_compute; reflexivity. Qed.

Lemma binary64_comp (x y : Q) : (x == y)%Q → binary64 x → binary64 y.
Proof.
  intros H [(m & e & Hm & He & Hx) Habs]. split.
  - exists m, e. split; [done |]. split; [done |]. by rewrite <- H.
  - by rewrite <- H.
Qed.



Section Properties.

Context `{!AccountEngine, !Network, !Gui}.

Lemma get_coins_run (w : Window) (account : AccountRef) (isInvoice : bool) :
  get_coins account isInvoice w =
  (Returned match pay_from w with
            | [] => get_spendable_coins (accounts w account) None (config w)
                      isInvoice
            | coins => coins
            end, w).
Proof. unfold get_coins. unfold_M. by destruct (pay_from w). Qed.

(** C6.  When the user has pinned a non-empty list of coins, [get_coins]
    returns exactly that list, whatever the account, the configuration and
    the invoice flag are; otherwise it returns the account's spendable
    coins, queried with the invoice flag.  Either way the window is left as
    it was. *)
Theorem get_coins_pinned_or_spendable
  (w : Window) (account : AccountRef) (isInvoice : bool) :
  (pay_from w ≠ [] →
   get_coins account isInvoice w = (Returned (pay_from w), w)) ∧
  (pay_from w = [] →
   get_coins account isInvoice w =
   (Returned (get_spendable_coins (accounts w account) None (config w)
                isInvoice), w)).
Proof.
  rewrite get_coins_run. split; intros Hp.
  - by destruct (pay_from w).
  - by rewrite Hp.
Qed.

Lemma amount_to_send_max (w : Window) :
  is_max w = true → amount_to_send w = ValueAll.
Proof. unfold amount_to_send. by intros ->. Qed.

(** What [do_update_fee] does once it has an amount: it asks the engine for
    the build [update_fee_build] and acts on the outcome alone. *)
Lemma do_update_fee_run (w : Window) :
  amount_to_send w ≠ ValueNone →
  do_update_fee w =
  match update_fee_build w with
  | Returned tx =>
      (Returned tt,
       if is_max w
       then set_amount_e (Some (output_value tx))
              (set_not_enough_funds false w)
       else set_not_enough_funds false w)
  | Raised NotEnoughFunds => (Returned tt, set_not_enough_funds true w)
  | Raised _ =>
      (Returned tt,
       set_shown (shown w ++ [LogException "transaction failure"]) w)
  end.
Proof.
  intros Hamount. unfold do_update_fee, update_fee_build, update_fee_outputs,
    update_fee_coins, get_coins.
  unfold_M.
  destruct (amount_to_send w) eqn:Ha; [done | |].
  all: destruct (pay_from w) eqn:Hp; simpl.
  all: destruct (payto_outputs (payto_e w) (is_max w)) eqn:Ho; simpl.
  all: destruct (make_unsigned_transaction _ _ _ _ _) as [tx | []]; simpl;
    try done.
  all: by destruct (is_max w).
Qed.

(** C10.  When the build of [do_update_fee] fails with [NotEnoughFunds], the
    method returns with the window as it was, but for [not_enough_funds],
    which is now true; the amount field in particular is as before, also in
    maximum-send mode.  The amount field is rewritten in maximum-send mode
    once the build has succeeded, with the output value of the built
    transaction. *)
Theorem do_update_fee_not_enough_funds (w : Window) :
  amount_to_send w ≠ ValueNone →
  (update_fee_build w = Raised NotEnoughFunds →
   do_update_fee w = (Returned tt, set_not_enough_funds true w) ∧
   amount_e (exec do_update_fee w) = amount_e w) ∧
  (∀ tx, is_max w = true → update_fee_build w = Returned tx →
         amount_e (exec do_update_fee w) = Some (output_value tx)) ∧
  (amount_e (exec do_update_fee w) ≠ amount_e w →
   is_max w = true ∧ ∃ tx, update_fee_build w = Returned tx).
Proof.
  intros Hamount. unfold exec. rewrite (do_update_fee_run w Hamount).
  split; [| split].
  - by intros ->.
  - by intros tx -> ->.
  - destruct (update_fee_build w) as [tx | e].
    + destruct (is_max w); simpl; [eauto | done].
    + by destruct e.
Qed.

Lemma existsb_value_is_None (outputs : list XTxOutput) :
  existsb value_is_None outputs = true ↔
  ∃ o, o ∈ outputs ∧ value o = ValueNone.
Proof.
  rewrite existsb_exists. split; intros (o & Hin & Ho); exists o.
  - apply list_elem_of_In in Hin. split; [done |].
    unfold value_is_None in Ho. by destruct (value o).
  - apply list_elem_of_In in Hin. split; [done |].
    unfold value_is_None. by rewrite Ho.
Qed.



Lemma shown_by_app {A : Type} (m : M A) (w : Window) (events : list UiEvent) :
  shown (exec m w) = shown w ++ events → shown_by m w = events.
Proof. unfold shown_by. intros ->. apply drop_app_length. Qed.

(** C3.  With a payment request attached that has expired, the worker of
    [broadcast_transaction] clears the attached request and raises "Payment
    request has expired"; the completion callback reports the failure in the
    broadcast error dialog, which carries that exception, and the request
    stays cleared. *)
Theorem broadcast_expired_request
  (w : Window) (account : AccountRef) (tx : Transaction)
  (tx_desc success_text : option string) (pr : PaymentRequest) :
  payment_request w = Some pr →
  has_expired pr = true →
  eval (broadcast_tx account tx) w
  = Raised (Exception "Payment request has expired") ∧
  payment_request (exec (broadcast_tx account tx) w) = None ∧
  eval (broadcast_transaction account tx tx_desc success_text) w
  = Returned tt ∧
  shown_by (broadcast_transaction account tx tx_desc success_text) w
  = [ WaitingDialogShown "Broadcasting transaction...";
      LogException "unhandled exception broadcasting transaction";
      UntrustedMessageDialog "Transaction Broadcast Error"
        ("Your transaction was not sent: " +:+
         broadcast_failure_reason (Exception "Payment request has expired")
         +:+ ".")
        (Exception "Payment request has expired") ] ∧
  payment_request
    (exec (broadcast_transaction account tx tx_desc success_text) w) = None.
Proof.
  intros Hpr Hexpired.
  assert (∀ w', payment_request w' = Some pr →
                broadcast_tx account tx w'
                = (Raised (Exception "Payment request has expired"),
                   set_payment_request None w')) as Hworker.
  { intros w' Hpr'. unfold broadcast_tx. unfold_M.
    by rewrite Hpr', Hexpired. }
  split; [by unfold eval; rewrite Hworker |].
  split; [by unfold exec; rewrite Hworker |].
  unfold broadcast_transaction, WaitingDialog, broadcast_on_done.
  split; [| split].
  - unfold_M. by rewrite Hworker.
  - apply shown_by_app. unfold_M. rewrite Hworker by done. simpl.
    by rewrite <- !app_assoc.
  - unfold_M. by rewrite Hworker.
Qed.

(** C1.  With a payment request attached that has not expired, when the
    payee endpoint answers without acknowledging the payment, the broadcast
    completes without raising, having shown nothing but its waiting dialog:
    no error, no success message.  The window is otherwise as before, the
    request still attached. *)
Theorem broadcast_unacknowledged_payment_is_silent
  (w : Window) (account : AccountRef) (tx : Transaction)
  (tx_desc success_text : option string) (pr : PaymentRequest)
  (ack_msg : string) :
  payment_request w = Some pr →
  has_expired pr = false →
  send_payment pr (accounts w account) (tx_str tx)
  = Returned (false, ack_msg) →
  broadcast_transaction account tx tx_desc success_text w
  = (Returned tt,
     set_shown (shown w ++ [WaitingDialogShown "Broadcasting transaction..."])
       w) ∧
  shown_by (broadcast_transaction account tx tx_desc success_text) w
  = [WaitingDialogShown "Broadcasting transaction..."].
Proof.
  intros Hpr Hexpired Hack.
  assert (broadcast_transaction account tx tx_desc success_text w
          = (Returned tt,
             set_shown
               (shown w ++ [WaitingDialogShown "Broadcasting transaction..."])
               w)) as Hrun.
  { unfold broadcast_transaction, WaitingDialog, broadcast_on_done,
      broadcast_tx.
    unfold_M. rewrite Hpr, Hexpired. simpl. by rewrite Hack. }
  split; [done |].
  apply shown_by_app. unfold exec. by rewrite Hrun.
Qed.

(** [broadcast_transaction] is its worker followed by its callback. *)
Lemma broadcast_transaction_run
  (w : Window) (account : AccountRef) (tx : Transaction)
  (tx_desc success_text : option string) :
  broadcast_transaction account tx tx_desc success_text w =
  let '(future, w') :=
    broadcast_tx account tx
      (set_shown (shown w ++ [WaitingDialogShown "Broadcasting transaction..."])
         w) in
  broadcast_on_done tx tx_desc (default "Payment sent." success_text)
    future w'.
Proof.
  unfold broadcast_transaction, WaitingDialog. unfold_M.
  destruct (broadcast_tx _ _ _) as [future w'].
  by destruct success_text.
Qed.

(** The callback touches labels only: the tracked transactions and their
    flags are as the worker left them. *)
Lemma broadcast_on_done_transactions
  (w : Window) (tx : Transaction) (tx_desc : option string)
  (success_text : string) (future : Outcome (option string))
  (r : AccountRef) :
  transactions
    (accounts (exec (broadcast_on_done tx tx_desc success_text future) w) r)
  = transactions (accounts w r).
Proof.
  unfold broadcast_on_done, do_clear. unfold_M.
  destruct future as [[[| c id] |] | e]; simpl; try done.
  destruct tx_desc as [desc |]; simpl; [| done].
  destruct (is_complete tx); simpl; [| done].
  unfold alter, fn_alter. by case_decide; subst.
Qed.

Lemma broadcast_on_done_no_request
  (w : Window) (tx : Transaction) (tx_desc : option string)
  (success_text : string) (future : Outcome (option string)) :
  payment_request w = None →
  payment_request (exec (broadcast_on_done tx tx_desc success_text future) w)
  = None.
Proof.
  intros Hpr. unfold broadcast_on_done, do_clear. unfold_M.
  destruct future as [[[| c id] |] | e]; simpl; try done.
  destruct tx_desc as [desc |]; simpl; [| done].
  by destruct (is_complete tx).
Qed.

(** The callback on an accepted broadcast: a description that was supplied
    becomes the label of a complete transaction, on [self._account]. *)
Lemma broadcast_on_done_records_label
  (w : Window) (tx : Transaction) (desc success_text tx_id : string) :
  truthy_str tx_id = true →
  is_complete tx = true →
  labels
    (accounts
       (exec (broadcast_on_done tx (Some desc) success_text
                (Returned (Some tx_id))) w)
       (_account w)) !! hash tx
  = Some desc.
Proof.
  intros Hid Hcomplete. unfold broadcast_on_done, do_clear. unfold_M.
  destruct tx_id as [| c id]; [done |]. rewrite Hcomplete. simpl.
  rewrite fn_lookup_alter. simpl. apply lookup_insert_eq.
Qed.

(** The peer-network path of the worker. *)
Lemma broadcast_tx_network
  (w : Window) (account : AccountRef) (tx : Transaction) (id : string) :
  payment_request w = None →
  broadcast_transaction_and_wait tx = Returned id →
  broadcast_tx account tx w =
  (Returned (Some id),
   if String.eqb id (txid tx) && have_transaction (accounts w account) (hash tx)
   then set_accounts
          (alter (set_transaction_state (hash tx)
                    (Z.lor StateDispatched HasByteData))
                 account (accounts w)) w
   else w).
Proof.
  intros Hpr Hnet. unfold broadcast_tx. unfold_M. rewrite Hpr, Hnet. simpl.
  by destruct (String.eqb id (txid tx) && _).
Qed.

(** One accepted peer-network broadcast of a tracked transaction. *)
Lemma broadcast_dispatched
  (w : Window) (account : AccountRef) (tx : Transaction)
  (tx_desc success_text : option string) :
  payment_request w = None →
  broadcast_transaction_and_wait tx = Returned (txid tx) →
  have_transaction (accounts w account) (hash tx) = true →
  transactions
    (accounts (exec (broadcast_transaction account tx tx_desc success_text) w)
       account) !! hash tx
  = Some (Z.lor StateDispatched HasByteData) ∧
  payment_request
    (exec (broadcast_transaction account tx tx_desc success_text) w) = None.
Proof.
  intros Hpr Hnet Hhave. unfold exec at 1 2.
  rewrite broadcast_transaction_run.
  rewrite (broadcast_tx_network _ _ _ (txid tx)) by done.
  cbn [accounts set_shown]. rewrite String.eqb_refl, Hhave.
  cbn [andb]. cbv beta iota zeta.
  split.
  - etrans; [apply f_equal, broadcast_on_done_transactions |].
    cbn [accounts set_accounts].
    rewrite fn_lookup_alter. apply lookup_insert_eq.
  - by apply broadcast_on_done_no_request.
Qed.

(** C5.  A peer-network broadcast that returns the transaction's own id, of
    a transaction the account tracks, leaves the transaction's flags at
    [StateDispatched | HasByteData]; broadcasting the same transaction once
    more, accepted again, leaves the flags at that same value. *)
Theorem broadcast_dispatched_idempotent
  (w : Window) (account : AccountRef) (tx : Transaction)
  (tx_desc success_text tx_desc' success_text' : option string) :
  payment_request w = None →
  broadcast_transaction_and_wait tx = Returned (txid tx) →
  have_transaction (accounts w account) (hash tx) = true →
  let w1 := exec (broadcast_transaction account tx tx_desc success_text) w in
  let w2 :=
    exec (broadcast_transaction account tx tx_desc' success_text') w1 in
  transactions (accounts w1 account) !! hash tx
  = Some (Z.lor StateDispatched HasByteData) ∧
  transactions (accounts w2 account) !! hash tx
  = transactions (accounts w1 account) !! hash tx.
Proof.
  intros Hpr Hnet Hhave w1 w2.
  destruct (broadcast_dispatched w account tx tx_desc success_text
              Hpr Hnet Hhave) as [Hflags1 Hpr1].
  fold w1 in Hflags1, Hpr1.
  assert (have_transaction (accounts w1 account) (hash tx) = true) as Hhave1.
  { unfold have_transaction. apply bool_decide_eq_true. by rewrite Hflags1. }
  destruct (broadcast_dispatched w1 account tx tx_desc' success_text'
              Hpr1 Hnet Hhave1) as [Hflags2 _].
  fold w2 in Hflags2. split; [done | congruence].
Qed.

(** C4.  With a payment request attached that has not expired, when the
    payee endpoint acknowledges the payment, the request is marked paid with
    the transaction id, and that is all: the callback receives no
    transaction id, so no label is recorded on any account, whatever the
    description and however complete the transaction, and no success
    message is shown. *)
Theorem broadcast_acknowledged_payment_records_no_label
  (w : Window) (account : AccountRef) (tx : Transaction)
  (tx_desc success_text : option string) (pr : PaymentRequest)
  (ack_msg : string) :
  payment_request w = Some pr →
  has_expired pr = false →
  send_payment pr (accounts w account) (tx_str tx)
  = Returned (true, ack_msg) →
  let w' := exec (broadcast_transaction account tx tx_desc success_text) w in
  (∀ r, labels (accounts w' r) = labels (accounts w r)) ∧
  shown_by (broadcast_transaction account tx tx_desc success_text) w
  = [WaitingDialogShown "Broadcasting transaction..."] ∧
  paid (invoices (accounts w' (_account w)))
  = paid (invoices (accounts w (_account w))) ++ [(pr, txid tx)] ∧
  payment_request w' = None.
Proof.
  intros Hpr Hexpired Hack w'.
  assert (broadcast_transaction account tx tx_desc success_text w
          = (Returned tt,
             set_payment_request None
               (set_accounts
                  (alter (with_invoices save) (_account w)
                     (alter (with_invoices (set_paid pr (txid tx)))
                        (_account w) (accounts w)))
                  (set_shown
                     (shown w ++
                      [WaitingDialogShown "Broadcasting transaction..."])
                     w)))) as Hrun.
  { unfold broadcast_transaction, WaitingDialog, broadcast_on_done,
      broadcast_tx.
    unfold_M. rewrite Hpr, Hexpired. simpl. by rewrite Hack. }
  unfold w', exec. rewrite Hrun. simpl. repeat split.
  - intros r. unfold alter, fn_alter. by repeat case_decide; subst.
  - apply shown_by_app. unfold exec. by rewrite Hrun.
  - by rewrite !fn_lookup_alter.
Qed.

Lemma cpfp_run
  (w : Window) (account : AccountRef) (parent_tx new_tx : Transaction) :
  cpfp account parent_tx new_tx w =
  let d := cpfp_dialog w parent_tx new_tx in
  let w' := set_shown (shown w ++ [CpfpDialogShown d]) w in
  match exec_cpfp_dialog d with
  | (false, _) => (Returned tt, w')
  | (true, None) =>
      (Raised (TypeError
         "'>' not supported between instances of 'NoneType' and 'int'"), w')
  | (true, Some fee) =>
      (Returned tt,
       set_shown
         (shown w' ++
          [ if fee >? output_value new_tx then ShowError "Max fee exceeded"
            else cpfp_built (_account w)
                   (account_cpfp (accounts w account) parent_tx fee) ])
         w')
  end.
Proof.
  unfold cpfp, cpfp_dialog, cpfp_built, show_transaction. unfold_M.
  destruct (exec_cpfp_dialog _) as [[] [fee |]]; simpl; try done.
  destruct (fee >? output_value new_tx); simpl; [done |].
  by destruct (account_cpfp _ _ _).
Qed.

(** C9.  The first thing [cpfp] shows is its dialog.  The fee proposed in
    it is the configured fee per kilobyte times the sum of the estimated
    sizes of parent and child, divided by 1000 in a true division, which
    rounds the quotient to a float: the fee is a float, no float is nearer
    to the quotient, and the fee is the quotient itself exactly when that
    is a float, as it is when rate times size is a multiple of 125 of a
    magnitude below [125 * 2 ** 53]. *)
Theorem cpfp_proposed_fee
  (w : Window) (account : AccountRef) (parent_tx new_tx : Transaction) :
  let product :=
    fee_per_kb (config w)
    * (estimated_size parent_tx + estimated_size new_tx) in
  let quotient :=
    (inject_Z (fee_per_kb (config w))
     * (inject_Z (estimated_size parent_tx)
        + inject_Z (estimated_size new_tx))
     / inject_Z 1000)%Q in
  in_float_range quotient →
  ∃ d : CpfpDialog,
    head (shown_by (cpfp account parent_tx new_tx) w)
    = Some (CpfpDialogShown d) ∧
    binary64 (dlg_proposed_fee d) ∧
    (∀ y : Q,
       binary64 y →
       (Qabs (dlg_proposed_fee d - quotient) <= Qabs (y - quotient))%Q) ∧
    (binary64 quotient ↔ (dlg_proposed_fee d == quotient)%Q) ∧
    ((125 | product) → Z.abs product < 125 * 2 ^ 53 →
     (dlg_proposed_fee d == quotient)%Q).
Proof.
  intros product quotient Hrange.
  exists (cpfp_dialog w parent_tx new_tx).
  assert (dlg_proposed_fee (cpfp_dialog w parent_tx new_tx)
          = nearest_float quotient) as Hfee.
  { unfold cpfp_dialog, truediv. cbn [dlg_proposed_fee].
    apply nearest_float_comp. unfold quotient.
    by rewrite inject_Z_mult, inject_Z_plus. }
  rewrite Hfee. split; [| split; [| split; [| split]]].
  - unfold shown_by, exec. rewrite cpfp_run. cbv zeta.
    destruct (exec_cpfp_dialog _) as [[] [fee |]]; cbn [snd shown set_shown];
      rewrite <- ?app_assoc; by rewrite drop_app_length.
  - by apply nearest_float_binary64.
  - intros y [Hy _]. by apply nearest_float_nearest.
  - split; [intros [Hq _]; by apply nearest_float_id |].
    intros Heq. apply (binary64_comp _ _ Heq).
    by apply nearest_float_binary64.
  - intros [k Hk] Hsmall. apply nearest_float_id.
    exists k, (-3). split; [lia |]. split; [done |].
    unfold quotient. fold product. rewrite <- inject_Z_plus, <- inject_Z_mult.
    fold product. rewrite Hk, inject_Z_mult.
    change (pow2 (-3)) with (1 # 8)%Q. change (inject_Z 125) with 125%Q.
    change (inject_Z 1000) with 1000%Q. field.
Qed.

(** C2.  Once the user has accepted the dialog with a fee entered, [cpfp]
    shows "Max fee exceeded" and stops exactly when the fee is greater than
    the output value of the child; for a fee up to and including that value
    it asks the engine to build the child and shows what comes of it. *)
Theorem cpfp_fee_bound
  (w : Window) (account : AccountRef) (parent_tx new_tx : Transaction)
  (fee : Z) :
  exec_cpfp_dialog (cpfp_dialog w parent_tx new_tx) = (true, Some fee) →
  eval (cpfp account parent_tx new_tx) w = Returned tt ∧
  (output_value new_tx < fee →
   shown_by (cpfp account parent_tx new_tx) w
   = [ CpfpDialogShown (cpfp_dialog w parent_tx new_tx);
       ShowError "Max fee exceeded" ]) ∧
  (fee ≤ output_value new_tx →
   shown_by (cpfp account parent_tx new_tx) w
   = [ CpfpDialogShown (cpfp_dialog w parent_tx new_tx);
       cpfp_built (_account w)
         (account_cpfp (accounts w account) parent_tx fee) ]) ∧
  (ShowError "Max fee exceeded" ∈ shown_by (cpfp account parent_tx new_tx) w
   ↔ output_value new_tx < fee).
Proof.
  intros Hdialog.
  assert (shown_by (cpfp account parent_tx new_tx) w
          = [ CpfpDialogShown (cpfp_dialog w parent_tx new_tx);
              if fee >? output_value new_tx then ShowError "Max fee exceeded"
              else cpfp_built (_account w)
                     (account_cpfp (accounts w account) parent_tx fee) ])
    as Hshown.
  { apply shown_by_app. unfold exec. rewrite cpfp_run. cbv zeta.
    rewrite Hdialog. cbn [snd shown set_shown]. by rewrite <- app_assoc. }
  split; [| split; [| split]].
  - unfold eval. rewrite cpfp_run. cbv zeta. by rewrite Hdialog.
  - intros Hgt. rewrite Hshown.
    by destruct (Z.gtb_spec fee (output_value new_tx)); [| lia].
  - intros Hle. rewrite Hshown.
    by destruct (Z.gtb_spec fee (output_value new_tx)); [lia |].
  - rewrite Hshown.
    destruct (Z.gtb_spec fee (output_value new_tx)) as [Hgt | Hle].
    + split; [done |]. intros _. set_solver.
    + split; [| lia]. intros Hin.
      apply elem_of_cons in Hin as [[=] | Hin].
      apply list_elem_of_singleton in Hin.
      unfold cpfp_built in Hin. by destruct (account_cpfp _ _ _).
Qed.

(** A successful [read_send_tab] shows nothing and changes nothing. *)
Lemma read_send_tab_success
  (w : Window) (r : list XTxOutput * option Z * string * list UTXO) :
  eval read_send_tab w = Returned (Some r) →
  ∀ events,
    read_send_tab (set_shown events w)
    = (Returned (Some r), set_shown events w).
Proof.
  unfold read_send_tab, get_coins. unfold_M. intros Hread events.
  destruct (payment_request w) as [p |]; simpl in *.
  - destruct (has_expired p); simpl in *; [done |].
    destruct (get_outputs p) as [| o os]; simpl in *; [done |].
    destruct (value_is_None o || existsb value_is_None os); simpl in *;
      [done |].
    destruct (pay_from w); simpl in *; congruence.
  - destruct (get_errors (payto_e w)); simpl in *; [| done].
    destruct (payto_outputs (payto_e w) (is_max w)) as [| o os];
      simpl in *; [done |].
    destruct (value_is_None o || existsb value_is_None os); simpl in *;
      [done |].
    destruct (pay_from w); simpl in *; congruence.
Qed.





End Properties.

(** ** The properties on the sample wallet *)

Section OnTheSampleWallet.

#[local] Existing Instance Scenario.engine.
#[local] Existing Instance Scenario.network.
#[local] Existing Instance Scenario.gui.

Import Scenario.

Lemma get_coins_pinned_or_spendable_witness :
  let pinned := set_pay_from [coin 5000] (window [output 50000]) in
  let free := window [output 50000] in
  (pay_from pinned ≠ [] ∧
   get_coins 1 true pinned = (Returned (pay_from pinned), pinned)) ∧
  (pay_from free = [] ∧
   get_coins 1 true free
   = (Returned (get_spendable_coins (accounts free 1) None (config free)
                  true), free)).
Proof.
  intros pinned free. split; split.
  - discriminate.
  - apply (proj1 (get_coins_pinned_or_spendable pinned 1 true)).
    discriminate.
  - reflexivity.
  - apply (proj2 (get_coins_pinned_or_spendable free 1 true)).
    reflexivity.
Defined.

Lemma do_update_fee_not_enough_funds_witness :
  let short := set_pay_from [coin 1000] (window [output 50000]) in
  let all_of_it := set_is_max true (window []) in
  (amount_to_send short ≠ ValueNone ∧
   update_fee_build short = Raised NotEnoughFunds ∧
   do_update_fee short = (Returned tt, set_not_enough_funds true short) ∧
   amount_e (exec do_update_fee short) = amount_e short) ∧
  (amount_to_send all_of_it ≠ ValueNone ∧
   is_max all_of_it = true ∧
   amount_e (exec do_update_fee all_of_it) = Some 100775).
Proof.
  intros short all_of_it.
  assert (amount_to_send short ≠ ValueNone) as Hshort by discriminate.
  assert (amount_to_send all_of_it ≠ ValueNone) as Hall by discriminate.
  destruct (do_update_fee_not_enough_funds short Hshort) as (Hfail & _ & _).
  destruct (do_update_fee_not_enough_funds all_of_it Hall) as (_ & Hmax & _).
  split.
  - split; [exact Hshort |]. split; [reflexivity |].
    apply Hfail. reflexivity.
  - split; [exact Hall |]. split; [reflexivity |].
    refine (Hmax _ eq_refl eq_refl).
Defined.


Lemma broadcast_expired_request_witness :
  let w := set_payment_request (Some (request "inv-7" true)) (window []) in
  payment_request w = Some (request "inv-7" true) ∧
  has_expired (request "inv-7" true) = true ∧
  eval (broadcast_tx 1 tx) w
  = Raised (Exception "Payment request has expired") ∧
  payment_request (exec (broadcast_transaction 1 tx (Some "rent") None) w)
  = None.
Proof.
  intros w. split; [reflexivity |]. split; [reflexivity |].
  destruct (broadcast_expired_request w 1 tx (Some "rent") None
              (request "inv-7" true) ltac:(reflexivity) ltac:(reflexivity))
    as (Hraise & _ & _ & _ & Hcleared).
  split; [exact Hraise | exact Hcleared].
Defined.

Lemma broadcast_unacknowledged_payment_is_silent_witness :
  let pr := request "refused" false in
  let w := set_payment_request (Some pr) (window []) in
  payment_request w = Some pr ∧
  has_expired pr = false ∧
  send_payment pr (accounts w 1) (tx_str tx) = Returned (false, "rejected") ∧
  eval (broadcast_transaction 1 tx (Some "rent") None) w = Returned tt ∧
  shown_by (broadcast_transaction 1 tx (Some "rent") None) w
  = [WaitingDialogShown "Broadcasting transaction..."] ∧
  payment_request (exec (broadcast_transaction 1 tx (Some "rent") None) w)
  = Some pr.
Proof.
  intros pr w. split; [reflexivity |]. split; [reflexivity |].
  split; [reflexivity |].
  destruct (broadcast_unacknowledged_payment_is_silent w 1 tx (Some "rent")
              None pr "rejected" ltac:(reflexivity) ltac:(reflexivity) ltac:(reflexivity))
    as (Hrun & Hshown).
  split; [| split; [exact Hshown |]].
  - unfold eval. rewrite Hrun. reflexivity.
  - unfold exec. rewrite Hrun. reflexivity.
Defined.

Lemma broadcast_acknowledged_payment_records_no_label_witness :
  let pr := request "inv-7" false in
  let w := set_payment_request (Some pr) (window []) in
  let w' := exec (broadcast_transaction 1 tx (Some "rent") None) w in
  payment_request w = Some pr ∧
  has_expired pr = false ∧
  send_payment pr (accounts w 1) (tx_str tx) = Returned (true, "thanks") ∧
  is_complete tx = true ∧
  labels (accounts w' (_account w)) !! hash tx = None ∧
  shown_by (broadcast_transaction 1 tx (Some "rent") None) w
  = [WaitingDialogShown "Broadcasting transaction..."] ∧
  paid (invoices (accounts w' (_account w))) = [(pr, txid tx)].
Proof.
  intros pr w w'. split; [reflexivity |]. split; [reflexivity |].
  split; [reflexivity |]. split; [reflexivity |].
  destruct (broadcast_acknowledged_payment_records_no_label w 1 tx
              (Some "rent") None pr "thanks" ltac:(reflexivity) ltac:(reflexivity) ltac:(reflexivity))
    as (Hlabels & Hshown & Hpaid & _).
  split; [| split; [exact Hshown | exact Hpaid]].
  unfold w'. rewrite Hlabels. reflexivity.
Defined.

Lemma broadcast_dispatched_idempotent_witness :
  let w := window [] in
  let w1 := exec (broadcast_transaction 1 tx (Some "rent") None) w in
  let w2 := exec (broadcast_transaction 1 tx (Some "rent") None) w1 in
  payment_request w = None ∧
  broadcast_transaction_and_wait tx = Returned (txid tx) ∧
  have_transaction (accounts w 1) (hash tx) = true ∧
  transactions (accounts w 1) !! hash tx = Some (2 ^ 23) ∧
  transactions (accounts w1 1) !! hash tx = Some (Z.lor (2 ^ 24) (2 ^ 12)) ∧
  transactions (accounts w2 1) !! hash tx
  = transactions (accounts w1 1) !! hash tx.
Proof.
  intros w w1 w2. split; [reflexivity |]. split; [reflexivity |].
  split; [vm_compute; reflexivity |]. split; [vm_compute; reflexivity |].
  apply (broadcast_dispatched_idempotent w 1 tx (Some "rent") None
           (Some "rent") None ltac:(reflexivity) ltac:(reflexivity)).
  vm_compute. reflexivity.
Defined.

Lemma cpfp_proposed_fee_example :
  dlg_proposed_fee (cpfp_dialog (window []) tx (child 50000)) = 417%Q.
Proof. reflexivity. Qed.

Lemma cpfp_fee_bound_witness :
  let w := window [] in
  exec_cpfp_dialog (cpfp_dialog w tx (child 50000)) = (true, Some 417) ∧
  exec_cpfp_dialog (cpfp_dialog w tx (child 300)) = (true, Some 417) ∧
  exec_cpfp_dialog (cpfp_dialog w tx (child 417)) = (true, Some 417) ∧
  shown_by (cpfp 1 tx (child 300)) w
  = [ CpfpDialogShown (cpfp_dialog w tx (child 300));
      ShowError "Max fee exceeded" ] ∧
  shown_by (cpfp 1 tx (child 417)) w
  = [ CpfpDialogShown (cpfp_dialog w tx (child 417));
      cpfp_built 1 (account_cpfp (accounts w 1) tx 417) ] ∧
  ShowError "Max fee exceeded" ∉ shown_by (cpfp 1 tx (child 50000)) w.
Proof.
  intros w.
  assert (exec_cpfp_dialog (cpfp_dialog w tx (child 50000))
          = (true, Some 417)) as Hlarge by reflexivity.
  assert (exec_cpfp_dialog (cpfp_dialog w tx (child 300))
          = (true, Some 417)) as Hsmall by reflexivity.
  assert (exec_cpfp_dialog (cpfp_dialog w tx (child 417))
          = (true, Some 417)) as Hsame by reflexivity.
  split; [exact Hlarge |]. split; [exact Hsmall |]. split; [exact Hsame |].
  destruct (cpfp_fee_bound w 1 tx (child 300) 417 Hsmall)
    as (_ & Hover & _ & _).
  destruct (cpfp_fee_bound w 1 tx (child 417) 417 Hsame)
    as (_ & _ & Hequal & _).
  destruct (cpfp_fee_bound w 1 tx (child 50000) 417 Hlarge)
    as (_ & _ & _ & Hiff).
  split; [apply Hover; reflexivity |].
  split; [apply Hequal; discriminate |].
  intros Hin. apply Hiff in Hin. discriminate Hin.
Defined.

End OnTheSampleWallet.

(** On the wallet that charges the configured rate: 400 satoshis per
    kilobyte make a fee of 90 on the 225 bytes, 500 make 112. *)
Section AtAGivenRate.

#[local] Existing Instance Rates.engine.
#[local] Existing Instance Scenario.network.
#[local] Existing Instance Scenario.gui.



Lemma cpfp_proposed_fee_witness :
  let w := Rates.window 400 in
  let quotient :=
    (inject_Z 400 * (inject_Z 225 + inject_Z 192) / inject_Z 1000)%Q in
  in_float_range quotient ∧
  ∃ d : CpfpDialog,
    head (shown_by (cpfp 1 Scenario.tx (Scenario.child 50000)) w)
    = Some (CpfpDialogShown d) ∧
    binary64 (dlg_proposed_fee d) ∧
    (Qabs (dlg_proposed_fee d - quotient) <= Qabs (167 - quotient))%Q.
Proof.
  intros w quotient.
  assert (in_float_range quotient) as Hrange by reflexivity.
  split; [exact Hrange |].
  destruct (cpfp_proposed_fee w 1 Scenario.tx (Scenario.child 50000) Hrange)
    as (d & Hshown & Hfloat & Hnear & _).
  exists d. split; [exact Hshown |]. split; [exact Hfloat |].
  apply Hnear. split.
  - exists 167, 0. split; [reflexivity |]. split; [discriminate |].
    reflexivity.
  - reflexivity.
Defined.

(** At 400 satoshis per kilobyte and 417 bytes the quotient is 166.8, which
    is no float: the fee proposed is the float next to it. *)
Lemma cpfp_proposed_fee_counterexample :
  ∃ d : CpfpDialog,
    head (shown_by (cpfp 1 Scenario.tx (Scenario.child 50000))
            (Rates.window 400))
    = Some (CpfpDialogShown d) ∧
    dlg_proposed_fee d = (2934376632208589 # 17592186044416)%Q ∧
    ¬ (dlg_proposed_fee d
       == inject_Z 400 * (inject_Z 225 + inject_Z 192) / inject_Z 1000)%Q.
Proof.
  exists (cpfp_dialog (Rates.window 400) Scenario.tx (Scenario.child 50000)).
  split; [vm_compute; reflexivity |]. split; [vm_compute; reflexivity |].
  vm_compute. discriminate.
Qed.

End AtAGivenRate.

(** ** Further properties of the send tab *)

Section SendTab.

Context `{!AccountEngine, !Network, !Gui}.

(** X1.  [do_update_fee] never raises, whatever the engine's build raises,
    and it never touches the accounts, the pinned coins, the attached
    payment request, the maximum-send mode, the pay-to field or the
    description. *)
Theorem do_update_fee_never_raises (w : Window) :
  eval do_update_fee w = Returned tt ∧
  accounts (exec do_update_fee w) = accounts w ∧
  pay_from (exec do_update_fee w) = pay_from w ∧
  payment_request (exec do_update_fee w) = payment_request w ∧
  is_max (exec do_update_fee w) = is_max w ∧
  payto_e (exec do_update_fee w) = payto_e w ∧
  message_e (exec do_update_fee w) = message_e w.
Proof.
  destruct (amount_to_send w) eqn:Hamount.
  - unfold do_update_fee. unfold_M. by rewrite Hamount.
  - unfold exec, eval. rewrite do_update_fee_run by congruence.
    destruct (update_fee_build w) as [tx | []]; simpl; try done;
      destruct (is_max w) eqn:Hmax; simpl; by rewrite ?Hmax.
  - unfold exec, eval. rewrite do_update_fee_run by congruence.
    destruct (update_fee_build w) as [tx | []]; simpl; try done;
      destruct (is_max w) eqn:Hmax; simpl; by rewrite ?Hmax.
Qed.

Lemma do_update_fee_no_amount (w : Window) :
  amount_to_send w = ValueNone →
  do_update_fee w
  = (Returned tt, set_status_bar "" (set_not_enough_funds false w)).
Proof. intros Hamount. unfold do_update_fee. unfold_M. by rewrite Hamount. Qed.

(** X2.  Recalculating the fee twice in a row leaves the window as
    recalculating it once, up to what was logged: the second run finds the
    same build and writes the same flag and the same amount. *)
Theorem do_update_fee_idempotent (w : Window) :
  set_shown (shown w) (exec do_update_fee (exec do_update_fee w))
  = set_shown (shown w) (exec do_update_fee w).
Proof.
  destruct (amount_to_send w) eqn:Hamount.
  - unfold exec. rewrite (do_update_fee_no_amount w Hamount). simpl.
    rewrite do_update_fee_no_amount; [done |].
    unfold amount_to_send in *. simpl. done.
  - unfold exec. rewrite (do_update_fee_run w) by congruence.
    unfold amount_to_send in Hamount.
    destruct (is_max w) eqn:Hmax; [done |].
    destruct (amount_e w) as [v |] eqn:Hv; [| done].
    destruct (update_fee_build w) as [tx | e] eqn:Hbuild; simpl.
    + rewrite do_update_fee_run
        by (unfold amount_to_send; simpl; by rewrite Hmax, Hv).
      unfold update_fee_build, update_fee_coins, update_fee_outputs,
        amount_to_send in *. simpl in *. rewrite Hmax, Hv in *.
      by rewrite Hbuild.
    + destruct e; simpl;
        (rewrite do_update_fee_run
           by (unfold amount_to_send; simpl; by rewrite Hmax, Hv));
        unfold update_fee_build, update_fee_coins, update_fee_outputs,
          amount_to_send in *; simpl in *; rewrite Hmax, Hv in *;
        by rewrite Hbuild.
  - unfold exec. rewrite (do_update_fee_run w) by congruence.
    unfold amount_to_send in Hamount.
    destruct (is_max w) eqn:Hmax; [| by destruct (amount_e w)].
    destruct (update_fee_build w) as [tx | e] eqn:Hbuild; simpl.
    + rewrite do_update_fee_run
        by (unfold amount_to_send; simpl; by rewrite Hmax).
      unfold update_fee_build, update_fee_coins, update_fee_outputs,
        amount_to_send in *. simpl in *. rewrite Hmax in *.
      by rewrite Hbuild.
    + destruct e; simpl;
        (rewrite do_update_fee_run
           by (unfold amount_to_send; simpl; by rewrite Hmax));
        unfold update_fee_build, update_fee_coins, update_fee_outputs,
          amount_to_send in *; simpl in *; rewrite Hmax in *;
        by rewrite Hbuild.
Qed.

End SendTab.

Section ReadSendTab.

Context `{!AccountEngine, !Network, !Gui}.

(** What [read_send_tab] does on each of its paths. *)
Lemma read_send_tab_run (w : Window) :
  read_send_tab w =
  let fail (e : UiEvent) := (Returned None, set_shown (shown w ++ [e]) w) in
  let check (isInvoice : bool) (outputs : list XTxOutput) :=
    match outputs with
    | [] => fail (ShowError "No outputs")
    | _ :: _ =>
        if existsb value_is_None outputs
        then fail (ShowError "Invalid Amount")
        else (Returned
                (Some (outputs, None, message_e w,
                       match pay_from w with
                       | [] => get_spendable_coins (accounts w (_account w))
                                 None (config w) isInvoice
                       | coins => coins
                       end)), w)
    end in
  match payment_request w with
  | Some p =>
      if has_expired p then fail (ShowError "Payment request has expired")
      else check true (get_outputs p)
  | None =>
      match get_errors (payto_e w) with
      | _ :: _ =>
          fail (ShowWarning (invalid_lines_text (get_errors (payto_e w))))
      | [] => check false (payto_outputs (payto_e w) (is_max w))
      end
  end.
Proof.
  unfold read_send_tab, get_coins. unfold_M.
  destruct (payment_request w) as [p |]; simpl.
  - destruct (has_expired p); simpl; [done |].
    destruct (get_outputs p) as [| o os]; simpl; [done |].
    destruct (value_is_None o || existsb value_is_None os); simpl; [done |].
    by destruct (pay_from w).
  - destruct (get_errors (payto_e w)); simpl; [| done].
    destruct (payto_outputs (payto_e w) (is_max w)) as [| o os]; simpl;
      [done |].
    destruct (value_is_None o || existsb value_is_None os); simpl; [done |].
    by destruct (pay_from w).
Qed.

Lemma set_shown_same (w : Window) : set_shown (shown w) w = w.
Proof. by destruct w. Qed.

Lemma read_send_tab_outcome (w : Window) :
  ∃ r events,
    read_send_tab w = (Returned r, set_shown (shown w ++ events) w) ∧
    match r with
    | None => ∃ msg, events = [ShowError msg] ∨ events = [ShowWarning msg]
    | Some _ => events = []
    end.
Proof.
  rewrite read_send_tab_run. cbv zeta.
  repeat case_match;
    first [ by eexists None, [_]; eauto
          | eexists (Some _), []; rewrite app_nil_r, set_shown_same; done ].
Qed.

(** X3.  [read_send_tab] never raises and changes nothing in the window but
    what is shown.  It returns [None] exactly when it has put one error or
    warning box in front of the user, and shows nothing when it returns its
    tuple: no refusal is silent. *)
Theorem read_send_tab_refusal_is_shown (w : Window) :
  exec read_send_tab w
  = set_shown (shown w ++ shown_by read_send_tab w) w ∧
  match eval read_send_tab w with
  | Returned None =>
      ∃ msg, shown_by read_send_tab w = [ShowError msg] ∨
             shown_by read_send_tab w = [ShowWarning msg]
  | Returned (Some _) => shown_by read_send_tab w = []
  | Raised _ => False
  end.
Proof.
  destruct (read_send_tab_outcome w) as (r & events & Hrun & Hevents).
  unfold shown_by, exec, eval. rewrite Hrun. simpl.
  rewrite drop_app_length. split; [done |]. by destruct r.
Qed.

(** X4.  With a payment request attached that has not expired, the form is
    read from the request alone: its outputs are the outputs to pay, the
    coins are selected in invoice mode, and neither the lines of the pay-to
    field nor their errors are looked at. *)
Theorem read_send_tab_payment_request
  (w : Window) (p : PaymentRequest) :
  payment_request w = Some p →
  has_expired p = false →
  get_outputs p ≠ [] →
  Forall (λ o, value o ≠ ValueNone) (get_outputs p) →
  read_send_tab w
  = (Returned
       (Some (get_outputs p, None, message_e w,
              match pay_from w with
              | [] => get_spendable_coins (accounts w (_account w)) None
                        (config w) true
              | coins => coins
              end)), w).
Proof.
  intros Hpr Hexpired Hne Hvalues. rewrite read_send_tab_run. cbv zeta.
  rewrite Hpr, Hexpired.
  destruct (get_outputs p) as [| o os] eqn:Houtputs; [done |].
  destruct (existsb value_is_None (o :: os)) eqn:Hex; [| done].
  apply existsb_value_is_None in Hex as (o' & Hin & Ho').
  rewrite Forall_forall in Hvalues. by destruct (Hvalues o' Hin).
Qed.

End ReadSendTab.

Section Broadcast.

Context `{!AccountEngine, !Network, !Gui}.

(** [do_clear] empties the form and nothing else. *)
Lemma do_clear_run (w : Window) :
  do_clear w = (Returned tt, exec do_clear w) ∧
  is_max (exec do_clear w) = false ∧
  not_enough_funds (exec do_clear w) = false ∧
  payment_request (exec do_clear w) = None ∧
  pay_from (exec do_clear w) = [] ∧
  amount_e (exec do_clear w) = None ∧
  message_e (exec do_clear w) = "" ∧
  accounts (exec do_clear w) = accounts w ∧
  _account (exec do_clear w) = _account w ∧
  config (exec do_clear w) = config w ∧
  shown (exec do_clear w) = shown w.
Proof. unfold do_clear. unfold_M. done. Qed.

(** The accounts after a peer-network broadcast that returned [id]: the
    flags are updated by the worker, the label by the callback. *)
Lemma broadcast_network_returned
  (w : Window) (account : AccountRef) (tx : Transaction)
  (tx_desc success_text : option string) (id : string) :
  payment_request w = None →
  broadcast_transaction_and_wait tx = Returned id →
  truthy_str id = true →
  broadcast_transaction account tx tx_desc success_text w =
  (Returned tt,
   exec do_clear
     (set_shown
        (shown w ++
         [ WaitingDialogShown "Broadcasting transaction...";
           ShowMessage (default "Payment sent." success_text +:+ nl +:+ id);
           InvoiceListUpdate ])
        (set_accounts
           (match tx_desc with
            | Some desc =>
                if is_complete tx
                then alter (set_transaction_label (hash tx) desc) (_account w)
                else λ accounts, accounts
            | None => λ accounts, accounts
            end
              (if String.eqb id (txid tx)
                  && have_transaction (accounts w account) (hash tx)
               then alter (set_transaction_state (hash tx)
                             (Z.lor StateDispatched HasByteData))
                      account (accounts w)
               else accounts w))
           w))).
Proof.
  intros Hpr Hnet Hid. rewrite broadcast_transaction_run.
  rewrite (broadcast_tx_network _ _ _ id) by done.
  cbn [accounts set_shown].
  destruct (String.eqb id (txid tx)
            && have_transaction (accounts w account) (hash tx));
    (destruct id as [| c id]; [done |]);
    unfold broadcast_on_done, do_clear; unfold_M;
    destruct tx_desc as [desc |]; simpl; try destruct (is_complete tx);
    simpl; rewrite <- ?app_assoc; simpl; try done.
Qed.

(** X5.  A broadcast never makes an account track a transaction it did not
    track, and the only flags it can change are those of the broadcast
    transaction on the account it was given, when no payment request is
    attached, the network returned the transaction's own id and the account
    tracks it. *)
Theorem broadcast_changes_flags_only_when_accepted
  (w : Window) (account r : AccountRef) (tx : Transaction)
  (tx_desc success_text : option string) (h : string) :
  let w' := exec (broadcast_transaction account tx tx_desc success_text) w in
  (is_Some (transactions (accounts w' r) !! h) ↔
   is_Some (transactions (accounts w r) !! h)) ∧
  (transactions (accounts w' r) !! h ≠ transactions (accounts w r) !! h →
   r = account ∧ h = hash tx ∧ payment_request w = None ∧
   broadcast_transaction_and_wait tx = Returned (txid tx) ∧
   have_transaction (accounts w account) (hash tx) = true).
Proof.
  intros w'.
  assert (transactions (accounts w' r) !! h = transactions (accounts w r) !! h
          ∨ (r = account ∧ h = hash tx ∧ payment_request w = None ∧
             broadcast_transaction_and_wait tx = Returned (txid tx) ∧
             have_transaction (accounts w account) (hash tx) = true ∧
             transactions (accounts w' r) !! h
             = Some (Z.lor StateDispatched HasByteData))) as Hcases.
  { unfold w', exec. rewrite broadcast_transaction_run.
    match goal with
    | |- context [broadcast_tx ?a ?t ?w0] =>
        destruct (broadcast_tx a t w0) as [future w1] eqn:Hworker
    end.
    pose proof (broadcast_on_done_transactions w1 tx tx_desc
                  (default "Payment sent." success_text) future r) as Hdone.
    unfold exec in Hdone. rewrite Hdone. clear Hdone.
    revert Hworker. unfold broadcast_tx. unfold_M.
    destruct (payment_request w) as [pr |]; simpl.
    - destruct (has_expired pr); simpl; [intros [= <- <-]; by left |].
      destruct (send_payment _ _ _) as [[[] ack_msg] | e]; simpl;
        intros [= <- <-]; simpl; left; [| done | done].
      unfold alter, fn_alter. by repeat case_decide; subst.
    - destruct (broadcast_transaction_and_wait tx) as [id | e]; simpl;
        [| intros [= <- <-]; by left].
      destruct (String.eqb_spec id (txid tx)) as [-> | Hne]; simpl;
        [| intros [= <- <-]; by left].
      destruct (have_transaction (accounts w account) (hash tx)) eqn:Hhave;
        simpl; intros [= <- <-]; simpl; [| by left].
      unfold alter, fn_alter. case_decide as Hr; [subst r | by left].
      simpl. destruct (decide (h = hash tx)) as [-> | Hh].
      + right. by rewrite lookup_insert_eq.
      + left. by rewrite lookup_insert_ne. }
  split.
  - destruct Hcases as [-> | (-> & -> & _ & _ & Hhave & ->)]; [done |].
    unfold have_transaction in Hhave. apply bool_decide_eq_true in Hhave.
    split; [done | by intros _].
  - intros Hchanged. destruct Hcases as [? | (? & ? & ? & ? & ? & _)]; done.
Qed.

(** X6.  When the peer network raises, the broadcast ends in the error
    dialog, carrying the exception and the reason derived from it, and the
    window is otherwise as before: accounts untouched, form not cleared, so
    the user can send again. *)
Theorem broadcast_network_failure
  (w : Window) (account : AccountRef) (tx : Transaction)
  (tx_desc success_text : option string) (e : exn) :
  payment_request w = None →
  broadcast_transaction_and_wait tx = Raised e →
  broadcast_transaction account tx tx_desc success_text w
  = (Returned tt,
     set_shown
       (shown w ++
        [ WaitingDialogShown "Broadcasting transaction...";
          LogException "unhandled exception broadcasting transaction";
          UntrustedMessageDialog "Transaction Broadcast Error"
            ("Your transaction was not sent: " +:+ broadcast_failure_reason e
             +:+ ".") e ])
       w).
Proof.
  intros Hpr Hnet.
  unfold broadcast_transaction, WaitingDialog, broadcast_on_done,
    broadcast_tx.
  unfold_M. rewrite Hpr. simpl. rewrite Hnet. unfold_M.
  by rewrite <- !app_assoc.
Qed.

(** X7.  When the payee endpoint of an attached, unexpired payment request
    raises, the broadcast ends in the error dialog carrying the exception;
    the request stays attached and is not marked paid. *)
Theorem broadcast_payee_failure
  (w : Window) (account : AccountRef) (tx : Transaction)
  (tx_desc success_text : option string) (pr : PaymentRequest) (e : exn) :
  payment_request w = Some pr →
  has_expired pr = false →
  send_payment pr (accounts w account) (tx_str tx) = Raised e →
  broadcast_transaction account tx tx_desc success_text w
  = (Returned tt,
     set_shown
       (shown w ++
        [ WaitingDialogShown "Broadcasting transaction...";
          LogException "unhandled exception broadcasting transaction";
          UntrustedMessageDialog "Transaction Broadcast Error"
            ("Your transaction was not sent: " +:+ broadcast_failure_reason e
             +:+ ".") e ])
       w).
Proof.
  intros Hpr Hexpired Hpay.
  unfold broadcast_transaction, WaitingDialog, broadcast_on_done,
    broadcast_tx.
  unfold_M. rewrite Hpr, Hexpired. simpl. rewrite Hpay. unfold_M.
  by rewrite <- !app_assoc.
Qed.

(** X8.  Whatever non-empty id the peer network returns, the same as the
    transaction's own or not, the broadcast is treated as sent: the success
    text is shown with the returned id and the send form is cleared, so that
    the coins pinned for this payment are forgotten and the next selection
    is the account's spendable coins again. *)
Theorem broadcast_returned_id_clears_form
  (w : Window) (account account' : AccountRef) (tx : Transaction)
  (tx_desc success_text : option string) (id : string) (isInvoice : bool) :
  payment_request w = None →
  broadcast_transaction_and_wait tx = Returned id →
  truthy_str id = true →
  let w' := exec (broadcast_transaction account tx tx_desc success_text) w in
  shown_by (broadcast_transaction account tx tx_desc success_text) w
  = [ WaitingDialogShown "Broadcasting transaction...";
      ShowMessage (default "Payment sent." success_text +:+ nl +:+ id);
      InvoiceListUpdate ] ∧
  is_max w' = false ∧ not_enough_funds w' = false ∧
  payment_request w' = None ∧ pay_from w' = [] ∧
  amount_e w' = None ∧ message_e w' = "" ∧
  eval (get_coins account' isInvoice) w'
  = Returned (get_spendable_coins (accounts w' account') None (config w)
                isInvoice).
Proof.
  intros Hpr Hnet Hid w'.
  pose proof (broadcast_network_returned w account tx tx_desc success_text id
                Hpr Hnet Hid) as Hrun.
  unfold w', shown_by, exec in *. rewrite Hrun. cbn [snd].
  match goal with
  | |- context [do_clear ?w0] =>
      destruct (do_clear_run w0)
        as (_ & Hmax & Hnef & Hreq & Hfrom & Hamount & Hmsg & Hacc & Hself
            & Hconfig & Hshown);
      unfold exec in *
  end.
  rewrite Hshown, Hmax, Hnef, Hreq, Hfrom, Hamount, Hmsg.
  cbn [shown set_shown]. rewrite drop_app_length.
  do 7 (split; [reflexivity |]).
  unfold eval. rewrite get_coins_run. cbn [fst].
  rewrite Hfrom, Hconfig. reflexivity.
Qed.

End Broadcast.

Section DoSend.

Context `{!AccountEngine, !Network, !Gui}.

(** [do_send] once the form has been read: the build, the amount, and then
    either the preview or the password prompt. *)
Lemma do_send_run
  (w : Window) (preview : bool) (outputs : list XTxOutput)
  (fee0 : option Z) (tx_desc : string) (coins : list UTXO) :
  eval read_send_tab w = Returned (Some (outputs, fee0, tx_desc, coins)) →
  do_send preview w =
  let w0 := set_shown (shown w ++ [ShowNamed "think-before-sending"]) w in
  let say (events : list UiEvent) :=
    (Returned tt, set_shown (shown w0 ++ events) w0) in
  match make_unsigned_transaction (accounts w (_account w)) coins outputs
          (config w) fee0 with
  | Raised NotEnoughFunds => say [ShowMessage "Insufficient funds"]
  | Raised ExcessiveFee =>
      say [ShowMessage "Your fee is too high.  Max is 50 sat/byte."]
  | Raised e => say [LogException ""; ShowMessage (str_exn e)]
  | Returned tx =>
      match amount_to_confirm w outputs tx with
      | Raised e => (Raised e, w0)
      | Returned amount =>
          if preview
          then say [ShowTransaction (_account w) tx (Some tx_desc)]
          else
            let prompt :=
              join nl (confirmation_msg amount (get_fee tx) tx) in
            match password_dialog prompt with
            | Some (String c p) =>
                sign_tx_with_password tx (sign_done tx_desc) (String c p)
                  (set_shown (shown w0 ++ [PasswordDialog prompt]) w0)
            | _ => say [PasswordDialog prompt]
            end
      end
  end.
Proof.
  intros Hread.
  pose proof (read_send_tab_success w _ Hread
    (shown w ++ [ShowNamed "think-before-sending"])) as Hread'.
  unfold do_send, amount_to_confirm, show_transaction. unfold_M.
  rewrite Hread'. simpl.
  destruct (make_unsigned_transaction _ _ _ _ _) as [tx | e]; unfold_M.
  - destruct (is_max w); unfold_M.
    + destruct preview; unfold_M; [done |].
      by destruct (password_dialog _) as [[| c p] |].
    + destruct (sum_values 0 outputs) as [amount | e]; unfold_M; [| done].
      destruct preview; unfold_M; [done |].
      by destruct (password_dialog _) as [[| c p] |].
  - destruct e; unfold_M; rewrite <- ?app_assoc; done.
Qed.

(** Signing, with the callback of [do_send]. *)
Lemma sign_tx_with_password_run
  (w : Window) (tx : Transaction) (tx_desc password : string) :
  sign_tx_with_password tx (sign_done tx_desc) password w =
  let w0 :=
    set_shown (shown w ++ [WaitingDialogShown "Signing transaction..."]) w in
  match sign_transaction (accounts w (_account w)) tx password with
  | Raised UserCancelled => (Returned tt, w0)
  | Raised exc =>
      (Returned tt,
       set_shown (shown w0 ++ [LogException ""; ShowError (str_exn exc)]) w0)
  | Returned signed =>
      if is_complete signed
      then broadcast_transaction (_account w) signed (Some tx_desc) None w0
      else do_clear
             (set_shown
                (shown w0 ++ [ShowTransaction (_account w) signed None]) w0)
  end.
Proof.
  unfold sign_tx_with_password, WaitingDialog, sign_done, on_exception,
    show_transaction.
  unfold_M.
  destruct (sign_transaction _ _ _) as [signed | exc]; unfold_M.
  - by destruct (is_complete signed).
  - destruct exc; unfold_M; rewrite <- ?app_assoc; done.
Qed.


(** X10.  When the build fails in [do_send], the user is told why (funds,
    fee, or the text of whatever else was raised, which is also logged) and
    [do_send] returns: no prompt, no signing, and the window is otherwise
    as it was. *)
Theorem do_send_build_failure
  (w : Window) (preview : bool) (outputs : list XTxOutput)
  (fee0 : option Z) (tx_desc : string) (coins : list UTXO) (e : exn) :
  eval read_send_tab w = Returned (Some (outputs, fee0, tx_desc, coins)) →
  make_unsigned_transaction (accounts w (_account w)) coins outputs
    (config w) fee0 = Raised e →
  do_send preview w
  = (Returned tt,
     set_shown
       (shown w ++
        ShowNamed "think-before-sending" ::
        match e with
        | NotEnoughFunds => [ShowMessage "Insufficient funds"]
        | ExcessiveFee =>
            [ShowMessage "Your fee is too high.  Max is 50 sat/byte."]
        | _ => [LogException ""; ShowMessage (str_exn e)]
        end)
       w).
Proof.
  intros Hread Hbuild. rewrite (do_send_run w preview _ _ _ _ Hread).
  cbv zeta. rewrite Hbuild.
  destruct e; cbn [shown set_shown]; by rewrite <- app_assoc.
Qed.

(** X11.  When the user gives no password at the prompt (the dialog is
    dismissed or left empty), [do_send] stops there: nothing is signed and
    the window is as it was, but for the prompt having been shown. *)
Theorem do_send_without_password
  (w : Window) (outputs : list XTxOutput) (fee0 : option Z)
  (tx_desc : string) (coins : list UTXO) (tx : Transaction) (amount : Z) :
  eval read_send_tab w = Returned (Some (outputs, fee0, tx_desc, coins)) →
  make_unsigned_transaction (accounts w (_account w)) coins outputs
    (config w) fee0 = Returned tx →
  amount_to_confirm w outputs tx = Returned amount →
  truthy_opt_str
    (password_dialog (join nl (confirmation_msg amount (get_fee tx) tx)))
  = false →
  do_send false w
  = (Returned tt,
     set_shown
       (shown w ++
        [ ShowNamed "think-before-sending";
          PasswordDialog
            (join nl (confirmation_msg amount (get_fee tx) tx)) ])
       w).
Proof.
  intros Hread Hbuild Hamount Hpassword.
  rewrite (do_send_run w false _ _ _ _ Hread). cbv zeta.
  rewrite Hbuild, Hamount.
  destruct (password_dialog _) as [[| c p] |]; try done;
    cbn [shown set_shown]; by rewrite <- app_assoc.
Qed.

End DoSend.

Section SignAndSend.

Context `{!AccountEngine, !Network, !Gui}.

(** X12.  When signing raises, the error is shown, unless it is
    [UserCancelled], which is passed over in silence; either way nothing is
    broadcast and the window is otherwise as it was: accounts, form and
    attached request untouched. *)
Theorem sign_failure_stops_the_send
  (w : Window) (tx : Transaction) (tx_desc password : string) (exc : exn) :
  sign_transaction (accounts w (_account w)) tx password = Raised exc →
  sign_tx_with_password tx (sign_done tx_desc) password w
  = (Returned tt,
     set_shown
       (shown w ++
        WaitingDialogShown "Signing transaction..." ::
        match exc with
        | UserCancelled => []
        | _ => [LogException ""; ShowError (str_exn exc)]
        end)
       w).
Proof.
  intros Hsign. rewrite sign_tx_with_password_run. cbv zeta. rewrite Hsign.
  destruct exc; cbn [shown set_shown]; rewrite <- ?app_assoc; done.
Qed.

(** X13.  When signing leaves the transaction incomplete (more signatures
    are needed), it is not broadcast: the transaction dialog is opened on
    it and the send form is cleared, the accounts staying as they were. *)
Theorem incomplete_transaction_is_not_broadcast
  (w : Window) (tx signed : Transaction) (tx_desc password : string) :
  sign_transaction (accounts w (_account w)) tx password = Returned signed →
  is_complete signed = false →
  let w' :=
    exec (sign_tx_with_password tx (sign_done tx_desc) password) w in
  shown_by (sign_tx_with_password tx (sign_done tx_desc) password) w
  = [ WaitingDialogShown "Signing transaction...";
      ShowTransaction (_account w) signed None ] ∧
  accounts w' = accounts w ∧
  is_max w' = false ∧ payment_request w' = None ∧ pay_from w' = [] ∧
  amount_e w' = None ∧ message_e w' = "".
Proof.
  intros Hsign Hincomplete w'. unfold w', shown_by, exec.
  rewrite sign_tx_with_password_run. cbv zeta.
  rewrite Hsign, Hincomplete.
  match goal with
  | |- context [do_clear ?w0] =>
      destruct (do_clear_run w0)
        as (_ & Hmax & _ & Hreq & Hfrom & Hamount & Hmsg & Hacc & _ & _
            & Hshown);
      unfold exec in *
  end.
  rewrite Hshown, Hmax, Hreq, Hfrom, Hamount, Hmsg, Hacc.
  cbn [shown set_shown accounts]. rewrite <- app_assoc.
  rewrite drop_app_length. done.
Qed.

(** X14.  A send that goes through: the form reads well with no payment
    request attached, the transaction builds, the user gives a password,
    signing completes the transaction and the network returns its id.  Then
    the user has seen, in this order, the reminder, the prompt, the two
    waiting dialogs and "Payment sent." with the id; the description typed
    in the form is the label of the transaction on the current account; and
    the form is cleared. *)
Theorem do_send_sends
  (w : Window) (outputs : list XTxOutput) (fee0 : option Z)
  (tx_desc : string) (coins : list UTXO) (tx signed : Transaction)
  (amount : Z) (password : string) :
  payment_request w = None →
  eval read_send_tab w = Returned (Some (outputs, fee0, tx_desc, coins)) →
  make_unsigned_transaction (accounts w (_account w)) coins outputs
    (config w) fee0 = Returned tx →
  amount_to_confirm w outputs tx = Returned amount →
  password_dialog (join nl (confirmation_msg amount (get_fee tx) tx))
  = Some password →
  truthy_str password = true →
  sign_transaction (accounts w (_account w)) tx password = Returned signed →
  is_complete signed = true →
  broadcast_transaction_and_wait signed = Returned (txid signed) →
  truthy_str (txid signed) = true →
  let w' := exec (do_send false) w in
  shown_by (do_send false) w
  = [ ShowNamed "think-before-sending";
      PasswordDialog (join nl (confirmation_msg amount (get_fee tx) tx));
      WaitingDialogShown "Signing transaction...";
      WaitingDialogShown "Broadcasting transaction...";
      ShowMessage ("Payment sent." +:+ nl +:+ txid signed);
      InvoiceListUpdate ] ∧
  labels (accounts w' (_account w)) !! hash signed = Some tx_desc ∧
  is_max w' = false ∧ payment_request w' = None ∧ pay_from w' = [] ∧
  amount_e w' = None ∧ message_e w' = "".
Proof.
  intros Hpr Hread Hbuild Hamount Hpassword Htruthy Hsign Hcomplete Hnet Hid
    w'.
  unfold w', shown_by, exec.
  rewrite (do_send_run w false _ _ _ _ Hread). cbv zeta.
  rewrite Hbuild, Hamount, Hpassword.
  destruct password as [| c p]; [done |].
  rewrite sign_tx_with_password_run. cbv zeta.
  cbn [accounts _account shown set_shown]. rewrite Hsign, Hcomplete.
  rewrite (broadcast_network_returned _ _ _ _ _ (txid signed)) by done.
  unfold exec. cbn [snd].
  match goal with
  | |- context [do_clear ?w0] =>
      destruct (do_clear_run w0)
        as (_ & Hmax & _ & Hreq & Hfrom & Hamount' & Hmsg & Hacc & _ & _
            & Hshown);
      unfold exec in *
  end.
  rewrite Hshown, Hmax, Hreq, Hfrom, Hamount', Hmsg, Hacc.
  rewrite Hcomplete, String.eqb_refl.
  cbn [shown set_shown accounts set_accounts _account default].
  rewrite <- !app_assoc. rewrite drop_app_length.
  split; [reflexivity |]. split; [| done].
  rewrite fn_lookup_alter. cbn [labels set_transaction_label].
  apply lookup_insert_eq.
Qed.

(** X15.  [cpfp] never changes the window but for what is shown, and a
    cancelled dialog ends it at once: the engine is not asked for a child
    and nothing further is shown. *)
Theorem cpfp_cancelled
  (w : Window) (account : AccountRef) (parent_tx new_tx : Transaction) :
  set_shown (shown w) (exec (cpfp account parent_tx new_tx) w) = w ∧
  (∀ fee,
     exec_cpfp_dialog (cpfp_dialog w parent_tx new_tx) = (false, fee) →
     cpfp account parent_tx new_tx w
     = (Returned tt,
        set_shown
          (shown w ++ [CpfpDialogShown (cpfp_dialog w parent_tx new_tx)])
          w)).
Proof.
  split.
  - unfold exec. rewrite cpfp_run. cbv zeta.
    destruct (exec_cpfp_dialog _) as [[] [fee |]]; by destruct w.
  - intros fee Hdialog. rewrite cpfp_run. cbv zeta. by rewrite Hdialog.
Qed.

(** X16.  When the CPFP dialog is accepted with the fee field left empty,
    [cpfp] raises a [TypeError] at the comparison of the fee with the
    maximum: no error box is shown and the engine is not asked for a
    child. *)
Theorem cpfp_empty_fee_raises
  (w : Window) (account : AccountRef) (parent_tx new_tx : Transaction) :
  exec_cpfp_dialog (cpfp_dialog w parent_tx new_tx) = (true, None) →
  cpfp account parent_tx new_tx w
  = (Raised (TypeError
       "'>' not supported between instances of 'NoneType' and 'int'"),
     set_shown
       (shown w ++ [CpfpDialogShown (cpfp_dialog w parent_tx new_tx)])
       w).
Proof. intros Hdialog. rewrite cpfp_run. cbv zeta. by rewrite Hdialog. Qed.

(** X17.  [spend_max] turns the maximum-send mode on and recalculates: when
    the build succeeds the amount field shows the output value of the built
    transaction; when funds are short the flag is raised and the amount
    field is left as it was.  The mode stays on in both cases. *)
Theorem spend_max_fills_amount (w : Window) :
  is_max (exec spend_max w) = true ∧
  eval spend_max w = Returned tt ∧
  (∀ tx, update_fee_build (set_is_max true w) = Returned tx →
         amount_e (exec spend_max w) = Some (output_value tx) ∧
         not_enough_funds (exec spend_max w) = false) ∧
  (update_fee_build (set_is_max true w) = Raised NotEnoughFunds →
   amount_e (exec spend_max w) = amount_e w ∧
   not_enough_funds (exec spend_max w) = true).
Proof.
  assert (spend_max w = do_update_fee (set_is_max true w)) as Hrun
    by (unfold spend_max; unfold_M; done).
  unfold exec, eval. rewrite Hrun.
  rewrite do_update_fee_run by done.
  destruct (update_fee_build (set_is_max true w)) as [tx | e].
  - cbn. split; [done |]. split; [done |]. split; [| done].
    by intros ? [= <-].
  - destruct e; cbn; repeat split; try done.
Qed.

End SignAndSend.

(** ** The fee timer and the pinned coins *)

Section PinnedCoins.

Context `{!AccountEngine}.

Lemma do_update_fee_outcome (w : Window) :
  do_update_fee w = (Returned tt, exec do_update_fee w) ∧
  pay_from (exec do_update_fee w) = pay_from w.
Proof.
  destruct (amount_to_send w) eqn:Hamount.
  - unfold exec. by rewrite do_update_fee_no_amount.
  - unfold exec. rewrite do_update_fee_run by congruence.
    destruct (update_fee_build w) as [tx | []]; try done.
    by destruct (is_max w).
  - unfold exec. rewrite do_update_fee_run by congruence.
    destruct (update_fee_build w) as [tx | []]; try done.
    by destruct (is_max w).
Qed.

(** X18.  A tick of the timer always returns and leaves no request
    pending: the fee is recalculated exactly when a recalculation was
    requested, on the window with its pay-to field resolved, and the
    display is refreshed exactly when a refresh was requested.  Without a
    request the engine is not asked for anything. *)
Theorem timer_actions_settles
  (resolve : PayToEdit → PayToEdit) (s : Session) :
  let resolved :=
    set_payto_e (resolve (payto_e (window s))) (window s) in
  let s' := snd (timer_actions resolve s) in
  fst (timer_actions resolve s) = Returned tt ∧
  require_fee_update s' = false ∧
  need_update s' = false ∧
  refreshes s' = (if need_update s then S (refreshes s) else refreshes s) ∧
  window s' = (if require_fee_update s then exec do_update_fee resolved
               else resolved).
Proof.
  intros resolved s'. unfold s', timer_actions.
  destruct (need_update s) eqn:Hneed, (require_fee_update s) eqn:Hfee;
    cbn [window require_fee_update need_update refreshes set_window];
    rewrite ?Hfee; fold resolved;
    try (destruct (do_update_fee_outcome resolved) as [-> _]);
    done.
Qed.

(** X19.  After [spend_coins] with a non-empty list, the coins selected for
    the next transaction are exactly those coins, for every account and in
    invoice mode or not, a fee recalculation is requested, and the coins
    are still pinned after the timer has recalculated the fee.  With an
    empty list the selection is the account's spendable coins again. *)
Theorem spend_coins_pins
  (resolve : PayToEdit → PayToEdit) (coins : list UTXO) (s : Session)
  (account : AccountRef) (isInvoice : bool) :
  let s' := spend_coins coins s in
  let s'' := snd (timer_actions resolve s') in
  require_fee_update s' = true ∧
  (coins ≠ [] →
   eval (get_coins account isInvoice) (window s') = Returned coins ∧
   eval (get_coins account isInvoice) (window s'') = Returned coins) ∧
  (coins = [] →
   eval (get_coins account isInvoice) (window s')
   = Returned (get_spendable_coins (accounts (window s) account) None
                 (config (window s)) isInvoice)).
Proof.
  intros s' s''. split; [done |]. split.
  - intros Hcoins.
    assert (pay_from (window s'') = coins) as Hpinned.
    { unfold s'', timer_actions.
      destruct (need_update s');
        cbn [window require_fee_update need_update refreshes set_window
             spend_coins update_fee set_require_fee_update
             session_set_pay_from s'];
        match goal with
        | |- context [do_update_fee ?w] =>
            destruct (do_update_fee_outcome w) as [-> Hfrom]
        end; cbn [window snd set_window set_require_fee_update];
        by rewrite Hfrom. }
    unfold eval. rewrite !get_coins_run. cbn [fst]. rewrite Hpinned.
    cbn [s' spend_coins update_fee session_set_pay_from window set_window
         set_require_fee_update pay_from set_pay_from].
    by destruct coins.
  - intros ->. unfold eval. by rewrite get_coins_run.
Qed.

Lemma pop_spec {A : Type} (i : Z) (l : list A) :
  PyList.pop i l =
  if decide (0 ≤ i < Z.of_nat (length l)) then
    (λ x, (x, delete (Z.to_nat i) l)) <$> l !! Z.to_nat i
  else if decide (- Z.of_nat (length l) ≤ i < 0) then
    (λ x, (x, delete (Z.to_nat (i + Z.of_nat (length l))) l))
      <$> l !! Z.to_nat (i + Z.of_nat (length l))
  else None.
Proof.
  unfold PyList.pop. cbv zeta.
  destruct (Z.ltb_spec i 0).
  - rewrite decide_False by lia. case_decide.
    + rewrite (proj2 (orb_false_iff _ _)) by (split; lia).
      by destruct (l !! _).
    + rewrite (proj2 (orb_true_iff _ _)); [done |].
      destruct (Z.ltb_spec (i + Z.of_nat (length l)) 0); [by left | lia].
  - case_decide.
    + rewrite (proj2 (orb_false_iff _ _)) by (split; lia).
      by destruct (l !! _).
    + rewrite decide_False by lia.
      rewrite (proj2 (orb_true_iff _ _)); [done |].
      right. apply Z.leb_le. lia.
Qed.

(** X20.  [from_list_delete] removes the coin at the given position and
    requests a fee recalculation; it fails, changing nothing, exactly when
    the position is out of range, which includes every position on an
    empty list.  For the position -1, which is what the list widget gives
    for an item it does not hold, it removes the last pinned coin. *)
Theorem from_list_delete_removes (i : Z) (s : Session) :
  let coins := pay_from (window s) in
  let n := Z.of_nat (length coins) in
  (from_list_delete i s = None ↔ i < - n ∨ n ≤ i) ∧
  (0 ≤ i < n →
   ∃ s', from_list_delete i s = Some s' ∧
         pay_from (window s') = delete (Z.to_nat i) coins ∧
         require_fee_update s' = true) ∧
  (i = -1 → coins ≠ [] →
   ∃ s', from_list_delete i s = Some s' ∧
         pay_from (window s') = removelast coins) ∧
  (∀ s', from_list_delete i s = Some s' →
         S (length (pay_from (window s'))) = length coins ∧
         pay_from (window s') `sublist_of` coins).
Proof.
  intros coins n. unfold from_list_delete. rewrite pop_spec. fold coins n.
  split; [| split; [| split]].
  - case_decide as Hpos; [| case_decide as Hneg].
    + destruct (lookup_lt_is_Some_2 coins (Z.to_nat i)) as [x ->]; [lia |].
      simpl. split; [done | lia].
    + destruct (lookup_lt_is_Some_2 coins (Z.to_nat (i + n))) as [x ->];
        [lia |].
      simpl. split; [done | lia].
    + split; [lia | done].
  - intros Hi. rewrite decide_True by done.
    destruct (lookup_lt_is_Some_2 coins (Z.to_nat i)) as [x ->]; [lia |].
    simpl. eauto.
  - intros -> Hne. rewrite decide_False by lia.
    assert (0 < n) by (unfold n; destruct coins; [done | simpl; lia]).
    rewrite decide_True by lia.
    destruct (lookup_lt_is_Some_2 coins (Z.to_nat (-1 + n))) as [x ->];
      [lia |].
    simpl. eexists. split; [done |]. simpl.
    replace (Z.to_nat (-1 + n)) with (Nat.pred (length coins)) by lia.
    clear. induction coins as [| c [| c' coins] IH]; [done | done |].
    change (removelast (c :: c' :: coins))
      with (c :: removelast (c' :: coins)).
    rewrite <- IH. done.
  - intros s'.
    case_decide as Hpos; [| case_decide as Hneg]; [| | done].
    + destruct (coins !! Z.to_nat i) as [x |] eqn:Hx; [| done].
      simpl. intros [= <-]. simpl. split; [| apply sublist_delete].
      rewrite length_delete by eauto.
      assert (0 < length coins)%nat by lia. lia.
    + destruct (coins !! Z.to_nat (i + n)) as [x |] eqn:Hx; [| done].
      simpl. intros [= <-]. simpl. split; [| apply sublist_delete].
      rewrite length_delete by eauto.
      assert (0 < length coins)%nat by lia. lia.
Qed.

End PinnedCoins.

(** ** The network status *)

Lemma tally_spec (q r : Z) (accounts : list SyncCounters) :
  tally q r accounts =
  (q + sum_Z (request_count <$> filter (λ a, lagging a = true) accounts),
   r + sum_Z (response_count <$> filter (λ a, lagging a = true) accounts),
   settle <$> accounts).
Proof.
  revert q r. induction accounts as [| a accounts IH]; intros q r.
  - simpl. by rewrite !Z.add_0_r.
  - cbn [tally]. rewrite fmap_cons.
    destruct (request_count a >? response_count a) eqn:Hlag; rewrite IH.
    + assert (lagging a = true) as Ha by done.
      rewrite filter_cons_True by done. rewrite !fmap_cons.
      replace (settle a) with a by (unfold settle; by rewrite Ha).
      change (sum_Z (?x :: ?l)) with (x + sum_Z l).
      by rewrite !Z.add_assoc.
    + assert (lagging a = false) as Ha by done.
      rewrite filter_cons_False by (by rewrite Ha).
      replace (settle a) with {| request_count := 0; response_count := 0 |}
        by (unfold settle; by rewrite Ha).
      done.
Qed.

Lemma settle_idemp (a : SyncCounters) : settle (settle a) = settle a.
Proof.
  unfold settle. destruct (lagging a) eqn:Hlag; [by rewrite Hlag | done].
Qed.

Lemma lagging_settle (a : SyncCounters) : lagging (settle a) = lagging a.
Proof.
  unfold settle. destruct (lagging a) eqn:Hlag; [done |].
  unfold lagging. simpl. done.
Qed.

(** The accounts that wait make the request total exceed the response
    total, each by at least one. *)
Lemma lagging_totals (accounts : list SyncCounters) :
  Forall (λ a, lagging a = true) accounts →
  sum_Z (response_count <$> accounts) + Z.of_nat (length accounts)
  ≤ sum_Z (request_count <$> accounts).
Proof.
  induction 1 as [| a accounts Hlag _ IH]; [done |].
  cbn [fmap list_fmap sum_Z foldr length].
  unfold sum_Z in IH. unfold lagging in Hlag.
  apply Z.gtb_lt in Hlag. lia.
Qed.

(** X21.  With a network, the status update leaves every account either
    waiting for responses, with its counters as they were, or with both
    counters at zero; updating once more changes neither the accounts nor
    the text.  Offline, the text is "Offline" and no counter is touched. *)
Theorem _update_network_status_settles
  (network : option NetworkHeights) (accounts : list SyncCounters) :
  let accounts' := snd (_update_network_status network accounts) in
  (network = None →
   _update_network_status network accounts = ("Offline", accounts)) ∧
  (is_Some network →
   accounts' = settle <$> accounts ∧
   Forall (λ a, request_count a > response_count a
                ∨ (request_count a = 0 ∧ response_count a = 0)) accounts') ∧
  _update_network_status network accounts'
  = _update_network_status network accounts.
Proof.
  intros accounts'. unfold accounts'. destruct network as [net |].
  - split; [done |].
    unfold _update_network_status. rewrite !tally_spec. cbn [snd].
    split.
    + intros _. split; [done |].
      apply Forall_fmap, Forall_forall. intros a _. simpl.
      unfold settle, lagging. destruct (Z.gtb_spec (request_count a)
        (response_count a)); simpl; lia.
    + assert (filter (λ a, lagging a = true) (settle <$> accounts)
              = filter (λ a, lagging a = true) accounts) as ->.
      { clear. induction accounts as [| a accounts IH]; [done |].
        cbn [fmap list_fmap]. rewrite !filter_cons, lagging_settle.
        change (list_fmap _ _ settle accounts) with (settle <$> accounts).
        rewrite IH. unfold settle. by destruct (lagging a) eqn:Hlag. }
      rewrite <- list_fmap_compose.
      assert (settle ∘ settle <$> accounts = settle <$> accounts) as ->
        by (apply list_fmap_ext; intros; apply settle_idemp).
      done.
  - split; [done |]. split; [by intros [? ?] | done].
Qed.

(** X22.  With a network, the status reads "Synchronizing..." with the
    response and request totals of the waiting accounts exactly when some
    account waits for responses; when none does, it tells the connection:
    "Not connected" for a server height of zero, the number of blocks the
    server is behind when that is more than one, and "Connected"
    otherwise. *)
Theorem _update_network_status_text
  (net : NetworkHeights) (accounts : list SyncCounters) :
  let waiting := filter (λ a, lagging a = true) accounts in
  let text := fst (_update_network_status (Some net) accounts) in
  (waiting ≠ [] →
   text = "Synchronizing..." +:+ " "
          +:+ PyFormat.thousands (sum_Z (response_count <$> waiting))
          +:+ "/"
          +:+ PyFormat.thousands (sum_Z (request_count <$> waiting))) ∧
  (waiting = [] →
   text = if server_height net =? 0 then "Not connected"
          else if local_height net - server_height net >? 1
               then "Server "
                    +:+ pretty (local_height net - server_height net)
                    +:+ " blocks behind"
               else "Connected").
Proof.
  intros waiting text. unfold text, _update_network_status.
  rewrite tally_spec. fold waiting. cbn [fst]. rewrite !Z.add_0_l.
  split.
  - intros Hwaiting.
    pose proof (lagging_totals waiting) as Htotals.
    assert (0 < length waiting)%nat
      by (destruct waiting; [done | simpl; lia]).
    destruct (Z.gtb_spec (sum_Z (request_count <$> waiting))
                (sum_Z (response_count <$> waiting))) as [_ | Hle]; [done |].
    exfalso.
    assert (Forall (λ a, lagging a = true) waiting) as Hall.
    { apply Forall_forall. intros a Ha. unfold waiting in Ha.
      by apply list_elem_of_filter in Ha as [? _]. }
    specialize (Htotals Hall). lia.
  - intros ->. done.
Qed.

Lemma thousands_examples :
  PyFormat.thousands 0 = "0" ∧ PyFormat.thousands 999 = "999" ∧
  PyFormat.thousands 1000 = "1,000" ∧
  PyFormat.thousands 1234567 = "1,234,567" ∧
  PyFormat.thousands (-1234) = "-1,234".
Proof. repeat split; vm_compute; reflexivity. Qed.

(** ** Notifications of incoming transactions *)

Section Notifications.

Context `{!Gui}.

Variable get_transaction_delta : AccountRef → string → option Z.

(** The loop counts and adds up the deltas that count. *)
Lemma combine_transactions_spec
  (total n : Z) (notifications : list (option Transaction * AccountRef)) :
  combine_transactions get_transaction_delta total n notifications =
  (total + sum_Z (counted_deltas get_transaction_delta notifications),
   n + Z.of_nat
         (length (counted_deltas get_transaction_delta notifications))).
Proof.
  revert total n.
  induction notifications as [| [[tx |] account] notifications IH];
    intros total n; cbn [combine_transactions].
  - simpl. by rewrite !Z.add_0_r.
  - unfold counted_deltas. cbn [omap list_omap mbind option_bind].
    fold (counted_deltas get_transaction_delta notifications).
    destruct (get_transaction_delta account (hash tx)) as [v |]; simpl.
    + destruct (v =? 0) eqn:Hv; rewrite IH; simpl; [done |].
      f_equal; lia.
    + by rewrite IH.
  - by rewrite IH.
Qed.

Lemma notify_tx_cb_run (connected : bool) (now : Q) (s : Notifier) :
  let deltas :=
    counted_deltas get_transaction_delta (tx_notifications s) in
  notify_tx_cb get_transaction_delta connected now s =
  {| tx_notifications := [];
     last_notify_tx_time :=
       if connected && negb (bool_decide (deltas = []))
       then now else last_notify_tx_time s;
     tx_notify_timer := None;
     cleaned_up := cleaned_up s;
     tray := tray s ++
       if connected && negb (bool_decide (deltas = [])) then
         [ if bool_decide (1 < length deltas)%nat then
             pretty (Z.of_nat (length deltas)) +:+
             " new transactions received: Total amount received in the new transactions "
             +:+ format_amount_and_units (sum_Z deltas)
           else
             "New transaction received: "
             +:+ format_amount_and_units (sum_Z deltas) ]
       else [] |}.
Proof.
  intros deltas. unfold notify_tx_cb. destruct connected; [| done].
  destruct (tx_notifications s) as [| n ns] eqn:Hqueue.
  { by subst deltas. }
  rewrite combine_transactions_spec. fold deltas. rewrite !Z.add_0_l.
  cbn [andb]. destruct deltas as [| d [| d' deltas]].
  { by rewrite bool_decide_eq_true_2 by done. }
  { rewrite bool_decide_eq_false_2 by done.
    by rewrite bool_decide_eq_false_2 by (simpl; lia). }
  rewrite bool_decide_eq_false_2 by done. cbn [negb].
  rewrite bool_decide_eq_true_2 by (simpl; lia).
  destruct (Z.eqb_spec (Z.of_nat (length (d :: d' :: deltas))) 0)
    as [Hz | _]; [simpl in Hz; lia |].
  destruct (Z.gtb_spec (Z.of_nat (length (d :: d' :: deltas))) 1)
    as [_ | Hle]; [done | simpl in Hle; lia].
Qed.

(** X23.  [notify_tx_cb] always empties the queue and drops the pending
    timer.  It shows one tray message, and records the time, exactly when
    the network is connected and some queued transaction has a delta that
    is neither missing nor zero; the message gives the sum of those deltas,
    and their number when there is more than one.  Offline, the queued
    notifications are dropped without a message. *)
Theorem notify_tx_cb_notifies
  (connected : bool) (now : Q) (s : Notifier) :
  let deltas :=
    counted_deltas get_transaction_delta (tx_notifications s) in
  let s' := notify_tx_cb get_transaction_delta connected now s in
  tx_notifications s' = [] ∧ tx_notify_timer s' = None ∧
  (connected = false ∨ deltas = [] →
   tray s' = tray s ∧ last_notify_tx_time s' = last_notify_tx_time s) ∧
  (connected = true → length deltas = 1%nat →
   tray s' = tray s ++ [ "New transaction received: "
                         +:+ format_amount_and_units (sum_Z deltas) ] ∧
   last_notify_tx_time s' = now) ∧
  (connected = true → (1 < length deltas)%nat →
   tray s' = tray s ++
     [ pretty (Z.of_nat (length deltas)) +:+
       " new transactions received: Total amount received in the new transactions "
       +:+ format_amount_and_units (sum_Z deltas) ] ∧
   last_notify_tx_time s' = now).
Proof.
  intros deltas s'. unfold s'. rewrite notify_tx_cb_run. fold deltas.
  cbn [tx_notifications tx_notify_timer tray last_notify_tx_time].
  split; [done |]. split; [done |]. split; [| split].
  - intros [-> | ->]; cbn [andb]; [by rewrite app_nil_r |].
    rewrite bool_decide_eq_true_2 by done. rewrite andb_false_r.
    by rewrite app_nil_r.
  - intros -> Hone. by destruct deltas as [| d [| ? ?]].
  - intros -> Hmany. destruct deltas as [| d [| d' deltas]];
      [simpl in Hmany; lia | simpl in Hmany; lia |].
    rewrite bool_decide_eq_false_2 by done. cbn [andb negb].
    by rewrite bool_decide_eq_true_2 by done.
Qed.

(** X24.  Notifications are rate limited.  With transactions queued, no
    timer pending and the window not cleaned up: if the time elapsed since
    the last notification, as the float subtraction gives it, is less than
    thirty seconds, nothing is shown, the queue is kept and a timer is
    armed with a positive delay, of 30 000 ms at most unless the clock went
    back; otherwise the notification is made at once.  Thirty seconds or
    more on the clock always round to the second case, and anything up to
    the last float below thirty to the first.  While a timer is pending, or
    with nothing queued, or once the window is cleaned up,
    [notify_transactions] does nothing at all. *)
Theorem notify_transactions_rate_limit
  (connected : bool) (now now' : Q) (s : Notifier) :
  let s' := notify_transactions get_transaction_delta connected now now' s in
  let elapsed := float_sub now (last_notify_tx_time s) in
  (is_Some (tx_notify_timer s) ∨ tx_notifications s = []
   ∨ cleaned_up s = true → s' = s) ∧
  (tx_notify_timer s = None → tx_notifications s ≠ [] →
   cleaned_up s = false →
   (elapsed < 30 →
    tray s' = tray s ∧ tx_notifications s' = tx_notifications s ∧
    last_notify_tx_time s' = last_notify_tx_time s ∧
    (∃ delay,
       tx_notify_timer s' = Some delay ∧
       0 < delay ∧
       (last_notify_tx_time s <= now → delay <= 30000)) ∧
    ∀ connected2 now2 now2',
      notify_transactions get_transaction_delta connected2 now2 now2' s'
      = s') ∧
   (30 <= elapsed →
    s' = notify_tx_cb get_transaction_delta connected now' s) ∧
   (30 <= now - last_notify_tx_time s → 30 <= elapsed) ∧
   (now - last_notify_tx_time s <= 30 - pow2 (-48) → elapsed < 30))%Q.
Proof.
  intros s' elapsed. unfold s', notify_transactions. split.
  - intros [[t Ht] | [Hq | Hc]].
    + by rewrite Ht.
    + rewrite Hq. by destruct (tx_notify_timer s).
    + rewrite Hc. by destruct (tx_notify_timer s), (tx_notifications s).
  - intros Htimer Hqueue Hclean. rewrite Htimer, Hclean.
    destruct (tx_notifications s) as [| n ns] eqn:Hq; [done |].
    unfold notify_tx_rate. fold elapsed.
    assert (float53 30) as H30 by (by apply (float53_inject_Z 30)).
    assert (float53 30000) as H30000 by (by apply (float53_inject_Z 30000)).
    pose proof (pow2_pos (-1074)) as Hstep.
    split; [| split; [| split]].
    + intros Hlt.
      destruct (Qlt_le_dec elapsed 30) as [_ | Hle];
        [| exfalso; by apply (Qlt_not_le _ _ Hlt)].
      cbn [tray tx_notifications last_notify_tx_time tx_notify_timer
           cleaned_up].
      split; [done |]. split; [done |]. split; [done |]. split; [| done].
      eexists. split; [done |].
      pose proof (nearest_float_step _
        (float53_gap elapsed 30 (nearest_float_float53 _) H30 Hlt))
        as Hwhen.
      unfold float_mul, float_sub at 1. split.
      * assert (pow2 (-1074) <= nearest_float (30 - elapsed) * 1000)%Q
          as Hms by lra.
        apply nearest_float_step in Hms. lra.
      * intros Hclock.
        assert (0 <= elapsed)%Q as Hpos.
        { assert (0 <= now - last_notify_tx_time s)%Q as H0 by lra.
          apply nearest_float_mono in H0.
          by rewrite (nearest_float_0 0) in H0. }
        assert (nearest_float (30 - elapsed) <= 30)%Q as Hwhen'.
        { assert (30 - elapsed <= 30)%Q as H0 by lra.
          apply nearest_float_mono in H0.
          by rewrite (nearest_float_id 30 H30) in H0. }
        assert (nearest_float (30 - elapsed) * 1000 <= 30000)%Q as H0
          by lra.
        apply nearest_float_mono in H0.
        by rewrite (nearest_float_id 30000 H30000) in H0.
    + intros Hle.
      destruct (Qlt_le_dec elapsed 30) as [Hlt | _]; [| done].
      exfalso. by apply (Qlt_not_le _ _ Hlt).
    + intros Hclock. apply nearest_float_mono in Hclock.
      by rewrite (nearest_float_id 30 H30) in Hclock.
    + intros Hclock. apply nearest_float_mono in Hclock.
      rewrite (nearest_float_id (30 - pow2 (-48))) in Hclock.
      * pose proof (pow2_pos (-48)). unfold elapsed, float_sub. lra.
      * exists (30 * 2 ^ 48 - 1), (-48).
        split; [done |]. split; [done |]. reflexivity.
Qed.

End Notifications.

(** ** Recently opened wallets and top-level windows *)

Lemma remove_None `{EqDecision A} (x : A) (l : list A) :
  PyList.remove x l = None ↔ x ∉ l.
Proof.
  induction l as [| y l IH]; simpl.
  - split; [intros _; apply not_elem_of_nil | done].
  - case_decide as Hxy.
    + subst. split; [done |]. intros Hnot. destruct Hnot. by left.
    + rewrite fmap_None, IH. rewrite not_elem_of_cons. tauto.
Qed.

Lemma remove_Some `{EqDecision A} (x : A) (l l' : list A) :
  PyList.remove x l = Some l' →
  l' `sublist_of` l ∧ S (length l') = length l ∧
  (NoDup l → x ∉ l') ∧ ∀ y, y ∈ l' → y ∈ l.
Proof.
  revert l'. induction l as [| y l IH]; intros l'; simpl; [done |].
  case_decide as Hxy.
  - intros [= <-]. subst y. split; [by apply sublist_cons |].
    split; [done |]. split.
    + by intros [Hnot _]%NoDup_cons.
    + intros z Hz. by right.
  - destruct (PyList.remove x l) as [l'' |] eqn:Hrem; simpl; [| done].
    intros [= <-]. destruct (IH l'' eq_refl) as (Hsub & Hlen & Hnot & Hin).
    split; [by apply sublist_skip |]. split; [simpl; lia |]. split.
    + intros [_ Hnd]%NoDup_cons. rewrite not_elem_of_cons. split; eauto.
    + intros z [-> | Hz]%elem_of_cons; [by left | right; eauto].
Qed.

Lemma discard_spec `{EqDecision A} (x : A) (l : list A) :
  PyList.discard x l `sublist_of` l ∧
  (NoDup l → x ∉ PyList.discard x l) ∧
  (x ∉ l → PyList.discard x l = l).
Proof.
  unfold PyList.discard. case_decide as Hin.
  - destruct (PyList.remove x l) as [l' |] eqn:Hrem.
    + destruct (remove_Some x l l' Hrem) as (Hsub & _ & Hnot & _).
      simpl. split; [done |]. split; [done | by intros []].
    + apply remove_None in Hrem. done.
  - split; [done |]. split; done.
Qed.

Section RecentlyVisitedProperties.

Variable normpath : string → string.
Variable path_exists : string → bool.
Variable get_wallet_name_from_path : string → string.

(** X25.  The list of recently opened wallets never holds more than ten
    paths, and only paths that exist.  The wallet just opened comes first,
    under its normalised path, if that path exists, and is not listed if it
    does not.  The menu is rebuilt with one entry per listed path, in the
    order of the list, each opening its path. *)
Theorem update_recently_visited_bounds
  (filename : string) (recent : list string) :
  let '(recent', menu, enabled) :=
    update_recently_visited normpath path_exists get_wallet_name_from_path
      filename recent in
  (length recent' ≤ 10)%nat ∧
  Forall (λ path, path_exists path = true) recent' ∧
  (path_exists (normpath filename) = true →
   head recent' = Some (normpath filename)) ∧
  (path_exists (normpath filename) = false →
   normpath filename ∉ recent') ∧
  menu.*2 = recent' ∧ enabled = true.
Proof.
  unfold update_recently_visited, recently_open. cbv zeta.
  set (rest := PyList.discard (normpath filename)
                 (PyList.discard filename recent)).
  split; [rewrite length_take; lia |]. split; [| split; [| split; [| split]]].
  - apply Forall_forall. intros path Hin.
    apply elem_of_take in Hin as (i & Hi & _).
    apply list_elem_of_lookup_2 in Hi.
    by apply list_elem_of_filter in Hi as [? _].
  - intros Hexists. by rewrite filter_cons_True by done.
  - intros Hmissing Hin.
    apply elem_of_take in Hin as (i & Hi & _).
    apply list_elem_of_lookup_2 in Hi.
    apply list_elem_of_filter in Hi as [Hexists _]. congruence.
  - unfold recently_visited_menu.
    generalize (take 10 (filter (λ path, path_exists path = true)
                           (normpath filename :: rest))).
    intros l. generalize (map get_wallet_name_from_path l) at 1.
    intros names. induction l as [| p l IH]; [done |].
    cbn [map zip zip_with fmap list_fmap fst snd]. f_equal. apply IH.
  - done.
Qed.

(** X26.  If the stored list has no duplicate, the updated list has none
    either, and every listed path is the wallet just opened or a path that
    was listed before; the paths that were listed before keep their
    order. *)
Theorem update_recently_visited_no_duplicates
  (filename : string) (recent : list string) :
  NoDup recent →
  let recent' := recently_open normpath path_exists filename recent in
  NoDup recent' ∧
  recent' `sublist_of` normpath filename :: recent ∧
  ∀ path, path ∈ recent' → path = normpath filename ∨ path ∈ recent.
Proof.
  intros Hnodup recent'. unfold recent', recently_open. cbv zeta.
  destruct (discard_spec filename recent) as (Hsub1 & _ & _).
  destruct (discard_spec (normpath filename)
              (PyList.discard filename recent)) as (Hsub2 & Hnot & _).
  assert (NoDup (PyList.discard filename recent)) as Hnodup1
    by apply (sublist_NoDup _ _ Hnodup Hsub1).
  assert (take 10 (filter (λ path, path_exists path = true)
            (normpath filename
             :: PyList.discard (normpath filename)
                  (PyList.discard filename recent)))
          `sublist_of` normpath filename :: recent) as Hsub.
  { etrans; [apply sublist_take |]. etrans; [apply sublist_filter |].
    apply sublist_skip. by etrans. }
  split; [| split; [done |]].
  - eapply sublist_NoDup; [| apply sublist_take].
    apply NoDup_filter. apply NoDup_cons. split; [by apply Hnot |].
    by apply (sublist_NoDup _ _ Hnodup1 Hsub2).
  - intros path Hin. eapply elem_of_sublist in Hin; [| exact Hsub].
    by apply elem_of_cons in Hin.
Qed.

End RecentlyVisitedProperties.

(** X27.  The top-level windows form a stack.  A window just pushed is the
    one [top_level_window] starts from.  Popping a window that is not on
    the stack fails.  Popping the window just pushed gives back the stack
    as it was, provided the window was not on it already; if it was, it is
    the earlier entry that goes, and the window stays on top. *)
Theorem top_level_windows_stack (self window : Z) (tl_windows : list Z) :
  top_level_override self (push_top_level_window window tl_windows)
  = window ∧
  top_level_override self [] = self ∧
  (pop_top_level_window window tl_windows = None ↔ window ∉ tl_windows) ∧
  (window ∉ tl_windows →
   pop_top_level_window window (push_top_level_window window tl_windows)
   = Some tl_windows) ∧
  (∀ rest, pop_top_level_window window tl_windows = Some rest →
           pop_top_level_window window
             (push_top_level_window window tl_windows)
           = Some (push_top_level_window window rest)).
Proof.
  unfold top_level_override, push_top_level_window, pop_top_level_window.
  split; [by rewrite last_snoc |]. split; [done |].
  split; [apply remove_None |]. split.
  - induction tl_windows as [| w tl IH]; intros Hnot; simpl.
    + by rewrite decide_True.
    + apply not_elem_of_cons in Hnot as [Hne Hnot].
      rewrite decide_False by done. by rewrite IH.
  - induction tl_windows as [| w tl IH]; intros rest; simpl; [done |].
    case_decide; [by intros [= <-] |].
    destruct (PyList.remove window tl) as [rest' |]; simpl; [| done].
    intros [= <-]. by rewrite (IH rest').
Qed.

(** ** Transactions read from text *)

Lemma value_from_coins_outpoint (my_coins : list UTXO) (txin : XTxInput) :
  prev_hash (value_from_coins my_coins txin) = prev_hash txin ∧
  prev_idx (value_from_coins my_coins txin) = prev_idx txin.
Proof.
  unfold value_from_coins. cbv zeta. case_decide; [| done].
  destruct (list_find _ _) as [[i k] |]; [| done].
  by destruct (my_coins !! i).
Qed.

Lemma value_from_coins_none (my_coins : list UTXO) (txin : XTxInput) :
  (prev_hash txin, prev_idx txin) ∉ map coin_key my_coins →
  value_from_coins my_coins txin = txin.
Proof. intros Hnot. unfold value_from_coins. by rewrite decide_False. Qed.

Lemma value_from_coins_first
  (my_coins : list UTXO) (txin : XTxInput) (i : nat) (coin : UTXO) :
  my_coins !! i = Some coin →
  coin_key coin = (prev_hash txin, prev_idx txin) →
  (∀ j other, my_coins !! j = Some other → (j < i)%nat →
              coin_key other ≠ (prev_hash txin, prev_idx txin)) →
  txin_value (value_from_coins my_coins txin) = Some (utxo_value coin).
Proof.
  intros Hcoin Hkey Hfirst. unfold value_from_coins. cbv zeta.
  assert (list_find (λ k, k = (prev_hash txin, prev_idx txin))
            (map coin_key my_coins)
          = Some (i, (prev_hash txin, prev_idx txin))) as Hfind.
  { apply list_find_Some. split; [| split; [done |]].
    - change (map coin_key my_coins) with (coin_key <$> my_coins).
      by rewrite list_lookup_fmap, Hcoin, <- Hkey.
    - intros j k Hj Hlt.
      change (map coin_key my_coins) with (coin_key <$> my_coins) in Hj.
      rewrite list_lookup_fmap in Hj.
      destruct (my_coins !! j) as [other |] eqn:Hother; [| done].
      injection Hj as <-. by eapply Hfirst. }
  rewrite decide_True.
  - by rewrite Hfind, Hcoin.
  - apply list_elem_of_lookup. exists i.
    change (map coin_key my_coins) with (coin_key <$> my_coins).
    by rewrite list_lookup_fmap, Hcoin, <- Hkey.
Qed.

Section TxFromTextProperties.

Context `{!AccountEngine}.

Variable parse_inputs : string → Outcome (list XTxInput).

Lemma tx_from_text_run
  (wallet_accounts : list AccountRef) (txt : string) (w : Window) :
  tx_from_text parse_inputs wallet_accounts txt w =
  match txt with
  | EmptyString => (Returned None, w)
  | String _ _ =>
      match parse_inputs txt with
      | Raised e => (Raised e, w)
      | Returned inputs =>
          (Returned (Some
             (foldl (λ inputs account,
                       map (value_from_coins
                              (get_spendable_coins (accounts w account) None
                                 (config w) false)) inputs)
                    inputs wallet_accounts)), w)
      end
  end.
Proof.
  unfold tx_from_text. destruct txt as [| c txt]; [done |].
  unfold_M. by destruct (parse_inputs _).
Qed.

(** X28.  [tx_from_text] gives nothing for an empty text, without parsing
    it, and lets the parser's exception through; the window is never
    changed.  On a parsed transaction the inputs keep their number, order
    and outpoints.  An input that spends no spendable coin of any account
    keeps its value; an input whose outpoint is that of a coin of some
    account, and of no coin of the accounts after it, carries the value of
    the first such coin of that account. *)
Theorem tx_from_text_fills_values
  (wallet_accounts : list AccountRef) (txt : string) (w : Window) :
  let coins_of account :=
    get_spendable_coins (accounts w account) None (config w) false in
  exec (tx_from_text parse_inputs wallet_accounts txt) w = w ∧
  (txt = "" →
   eval (tx_from_text parse_inputs wallet_accounts txt) w = Returned None) ∧
  (∀ e, txt ≠ "" → parse_inputs txt = Raised e →
        eval (tx_from_text parse_inputs wallet_accounts txt) w = Raised e) ∧
  ∀ inputs, txt ≠ "" → parse_inputs txt = Returned inputs →
    ∃ inputs',
      eval (tx_from_text parse_inputs wallet_accounts txt) w
      = Returned (Some inputs') ∧
      (λ txin, (prev_hash txin, prev_idx txin)) <$> inputs'
      = (λ txin, (prev_hash txin, prev_idx txin)) <$> inputs ∧
      ∀ i txin txin',
        inputs !! i = Some txin → inputs' !! i = Some txin' →
        ((∀ account, account ∈ wallet_accounts →
            (prev_hash txin, prev_idx txin)
            ∉ map coin_key (coins_of account)) →
         txin' = txin) ∧
        (∀ before account after j coin,
           wallet_accounts = before ++ account :: after →
           (∀ later, later ∈ after →
              (prev_hash txin, prev_idx txin)
              ∉ map coin_key (coins_of later)) →
           coins_of account !! j = Some coin →
           coin_key coin = (prev_hash txin, prev_idx txin) →
           (∀ k other, coins_of account !! k = Some other → (k < j)%nat →
                       coin_key other ≠ (prev_hash txin, prev_idx txin)) →
           txin_value txin' = Some (utxo_value coin)).
Proof.
  intros coins_of. unfold exec, eval. rewrite tx_from_text_run.
  split; [| split; [| split]].
  - destruct txt; [done |]. by destruct (parse_inputs _).
  - by intros ->.
  - intros e Htxt Hparse. destruct txt; [done |]. by rewrite Hparse.
  - intros inputs Htxt Hparse. destruct txt as [| c txt]; [done |].
    rewrite Hparse.
    set (step := λ (inputs : list XTxInput) (account : AccountRef),
           map (value_from_coins (coins_of account)) inputs).
    exists (foldl step inputs wallet_accounts). split; [done |].
    assert (∀ accs ins i txin',
              foldl step ins accs !! i = Some txin' →
              ∃ txin, ins !! i = Some txin ∧
                prev_hash txin' = prev_hash txin ∧
                prev_idx txin' = prev_idx txin ∧
                ((∀ account, account ∈ accs →
                    (prev_hash txin, prev_idx txin)
                    ∉ map coin_key (coins_of account)) → txin' = txin))
      as Hframe.
    { induction accs as [| a accs IH]; intros ins i txin' Hi; simpl in Hi.
      - exists txin'. split; [done |]. split; [done |]. by split.
      - destruct (IH _ _ _ Hi) as (mid & Hmid & Hh & Hx & Hsame).
        unfold step in Hmid.
        change (map ?f ins) with (f <$> ins) in Hmid.
        rewrite list_lookup_fmap in Hmid.
        destruct (ins !! i) as [txin |] eqn:Hin; [| done].
        injection Hmid as <-.
        destruct (value_from_coins_outpoint (coins_of a) txin) as [Hh' Hx'].
        exists txin. split; [done |]. split; [congruence |].
        split; [congruence |].
        intros Hnone. rewrite Hsame.
        + apply value_from_coins_none. apply Hnone. by left.
        + intros account Hacc. rewrite Hh', Hx'. apply Hnone. by right. }
    split.
    + apply list_eq. intros i. rewrite !list_lookup_fmap.
      destruct (foldl step inputs wallet_accounts !! i) as [txin' |] eqn:Hi.
      * destruct (Hframe _ _ _ _ Hi) as (txin & -> & Hh & Hx & _).
        simpl. by rewrite Hh, Hx.
      * assert (length (foldl step inputs wallet_accounts) = length inputs)
          as Hlen.
        { clear. revert inputs.
          induction wallet_accounts as [| a accs IH]; intros ins; [done |].
          simpl. rewrite IH. unfold step. apply length_map. }
        apply lookup_ge_None in Hi. rewrite Hlen in Hi.
        apply lookup_ge_None in Hi. by rewrite Hi.
    + intros i txin txin' Hin Hout. split.
      * intros Hnone. destruct (Hframe _ _ _ _ Hout) as (t & Ht & _ & _ & Hs).
        rewrite Hin in Ht. injection Ht as <-. by apply Hs.
      * intros before account after j coin -> Hafter Hcoin Hkey Hfirst.
        rewrite foldl_app in Hout. simpl in Hout.
        destruct (Hframe _ _ _ _ Hout) as (mid & Hmid & Hh & Hx & Hsame).
        unfold step at 1 in Hmid.
        change (map ?f ?l) with (f <$> l) in Hmid.
        rewrite list_lookup_fmap in Hmid.
        destruct (foldl step inputs before !! i) as [pre |] eqn:Hpre;
          [| done].
        injection Hmid as <-.
        destruct (Hframe _ _ _ _ Hpre) as (t & Ht & Hh0 & Hx0 & _).
        rewrite Hin in Ht. injection Ht as <-.
        destruct (value_from_coins_outpoint (coins_of account) pre)
          as [Hh1 Hx1].
        rewrite Hsame.
        -- apply value_from_coins_first with j; [done | congruence |].
           intros k other Hk Hlt. rewrite Hh0, Hx0. by eapply Hfirst.
        -- intros later Hlater. rewrite Hh1, Hx1, Hh0, Hx0.
           by apply Hafter.
Qed.

End TxFromTextProperties.

(** ** The further properties on the sample wallet *)

Section SendingOnTheSampleWallet.

#[local] Existing Instance Scenario.engine.
#[local] Existing Instance Scenario.network.
#[local] Existing Instance Scenario.gui.

Import Scenario.

Lemma read_send_tab_payment_request_witness :
  let p := request "inv-7" false in
  let w := set_payment_request (Some p) (window []) in
  payment_request w = Some p ∧ has_expired p = false ∧
  get_outputs p ≠ [] ∧
  eval read_send_tab w
  = Returned (Some ([output 50000], None, "rent", [coin 100000])).
Proof.
  intros p w.
  assert (Forall (λ o, value o ≠ ValueNone) (get_outputs p)) as Hvalues
    by (repeat constructor; discriminate).
  assert (get_outputs p ≠ []) as Hne by discriminate.
  split; [reflexivity |]. split; [reflexivity |]. split; [exact Hne |].
  assert (payment_request w = Some p) as Hpr by reflexivity.
  assert (has_expired p = false) as Hexp by reflexivity.
  unfold eval.
  rewrite (read_send_tab_payment_request w p Hpr Hexp Hne Hvalues).
  reflexivity.
Defined.

Lemma broadcast_changes_flags_only_when_accepted_witness :
  let w := window [] in
  let w' := exec (broadcast_transaction 1 tx (Some "rent") None) w in
  transactions (accounts w' 1) !! hash tx
  ≠ transactions (accounts w 1) !! hash tx ∧
  payment_request w = None ∧
  broadcast_transaction_and_wait tx = Returned (txid tx) ∧
  have_transaction (accounts w 1) (hash tx) = true ∧
  (is_Some (transactions (accounts w' 1) !! "h-cd34") ↔
   is_Some (transactions (accounts w 1) !! "h-cd34")).
Proof.
  intros w w'.
  assert (transactions (accounts w' 1) !! hash tx
          ≠ transactions (accounts w 1) !! hash tx) as Hchanged
    by (vm_compute; discriminate).
  split; [exact Hchanged |].
  destruct (broadcast_changes_flags_only_when_accepted w 1 1 tx
              (Some "rent") None (hash tx)) as [_ Honly].
  destruct (Honly Hchanged) as (_ & _ & Hpr & Hnet & Hhave).
  split; [exact Hpr |]. split; [exact Hnet |]. split; [exact Hhave |].
  apply (broadcast_changes_flags_only_when_accepted w 1 1 tx
           (Some "rent") None "h-cd34").
Defined.

Lemma broadcast_returned_id_clears_form_witness :
  let w := set_pay_from [coin 5000] (set_is_max true (window [])) in
  let w' := exec (broadcast_transaction 1 tx (Some "rent") None) w in
  payment_request w = None ∧
  broadcast_transaction_and_wait tx = Returned "ab12" ∧
  truthy_str "ab12" = true ∧
  pay_from w' = [] ∧ is_max w' = false ∧
  eval (get_coins 1 false) w'
  = Returned (get_spendable_coins (accounts w' 1) None (config w) false).
Proof.
  intros w w'.
  assert (payment_request w = None) as Hpr by reflexivity.
  assert (broadcast_transaction_and_wait tx = Returned "ab12") as Hnet
    by reflexivity.
  assert (truthy_str "ab12" = true) as Hid by reflexivity.
  split; [exact Hpr |]. split; [exact Hnet |]. split; [exact Hid |].
  destruct (broadcast_returned_id_clears_form w 1 1 tx (Some "rent") None
              "ab12" false Hpr Hnet Hid)
    as (_ & Hmax & _ & _ & Hfrom & _ & _ & Hcoins).
  split; [exact Hfrom |]. split; [exact Hmax | exact Hcoins].
Defined.


Lemma do_send_build_failure_witness :
  let w := set_pay_from [coin 1000] (window [output 50000]) in
  eval read_send_tab w
  = Returned (Some ([output 50000], None, "rent", [coin 1000])) ∧
  make_unsigned_transaction (accounts w (_account w)) [coin 1000]
    [output 50000] (config w) None = Raised NotEnoughFunds ∧
  do_send false w
  = (Returned tt,
     set_shown
       (shown w ++ [ ShowNamed "think-before-sending";
                     ShowMessage "Insufficient funds" ])
       w).
Proof.
  intros w.
  assert (eval read_send_tab w
          = Returned (Some ([output 50000], None, "rent", [coin 1000])))
    as Hread by reflexivity.
  assert (make_unsigned_transaction (accounts w (_account w)) [coin 1000]
            [output 50000] (config w) None = Raised NotEnoughFunds)
    as Hbuild by reflexivity.
  split; [exact Hread |]. split; [exact Hbuild |].
  exact (do_send_build_failure w false _ _ _ _ _ Hread Hbuild).
Defined.

Lemma do_send_sends_witness :
  let w := window [output 50000] in
  let built := match build [coin 100000; coin 1000] [output 50000] with
               | Returned t => t
               | Raised _ => tx
               end in
  let w' := exec (do_send false) w in
  payment_request w = None ∧
  eval read_send_tab w
  = Returned (Some ([output 50000], None, "rent",
                    [coin 100000; coin 1000])) ∧
  password_dialog (join nl (confirmation_msg 50000 225 built))
  = Some "hunter2" ∧
  sign_transaction (accounts w (_account w)) built "hunter2"
  = Returned (signed built) ∧
  is_complete (signed built) = true ∧
  broadcast_transaction_and_wait (signed built)
  = Returned (txid (signed built)) ∧
  labels (accounts w' (_account w)) !! hash (signed built) = Some "rent" ∧
  pay_from w' = [] ∧ amount_e w' = None.
Proof.
  intros w built w'.
  assert (eval read_send_tab w
          = Returned (Some ([output 50000], None, "rent",
                            [coin 100000; coin 1000]))) as Hread
    by reflexivity.
  assert (make_unsigned_transaction (accounts w (_account w))
            [coin 100000; coin 1000] [output 50000] (config w) None
          = Returned built) as Hbuild by reflexivity.
  assert (amount_to_confirm w [output 50000] built = Returned 50000)
    as Hamount by reflexivity.
  assert (password_dialog (join nl (confirmation_msg 50000 (get_fee built)
                                      built)) = Some "hunter2") as Hpassword
    by reflexivity.
  assert (sign_transaction (accounts w (_account w)) built "hunter2"
          = Returned (signed built)) as Hsign by reflexivity.
  assert (broadcast_transaction_and_wait (signed built)
          = Returned (txid (signed built))) as Hnet by reflexivity.
  assert (payment_request w = None) as Hpr by reflexivity.
  assert (truthy_str "hunter2" = true) as Htruthy by reflexivity.
  assert (is_complete (signed built) = true) as Hcomplete by reflexivity.
  assert (truthy_str (txid (signed built)) = true) as Hid by reflexivity.
  split; [exact Hpr |]. split; [exact Hread |]. split; [exact Hpassword |].
  split; [exact Hsign |]. split; [exact Hcomplete |]. split; [exact Hnet |].
  destruct (do_send_sends w _ _ _ _ built (signed built) 50000 "hunter2"
              Hpr Hread Hbuild Hamount Hpassword Htruthy Hsign Hcomplete
              Hnet Hid)
    as (_ & Hlabel & _ & _ & Hfrom & Hamount' & _).
  split; [exact Hlabel |]. split; [exact Hfrom | exact Hamount'].
Defined.

Lemma spend_max_fills_amount_witness :
  let w := window [] in
  let short := set_pay_from [coin 100] (window [output 50000]) in
  (∃ tx, update_fee_build (set_is_max true w) = Returned tx ∧
         output_value tx = 100775) ∧
  amount_e (exec spend_max w) = Some 100775 ∧
  update_fee_build (set_is_max true short) = Raised NotEnoughFunds ∧
  not_enough_funds (exec spend_max short) = true ∧
  amount_e (exec spend_max short) = amount_e short.
Proof.
  intros w short.
  destruct (spend_max_fills_amount w) as (_ & _ & Hbuilt & _).
  destruct (spend_max_fills_amount short) as (_ & _ & _ & Hshort).
  assert (update_fee_build (set_is_max true short) = Raised NotEnoughFunds)
    as Hfail by reflexivity.
  split; [eexists; split; reflexivity |].
  assert (update_fee_build (set_is_max true w)
          = build [coin 100000; coin 1000]
              [{| value := ValueAll; script_pubkey := "6a" |}]) as Hok
    by reflexivity.
  split; [exact (proj1 (Hbuilt _ Hok)) |].
  split; [exact Hfail |].
  destruct (Hshort Hfail) as [Hamount Hflag].
  split; [exact Hflag | exact Hamount].
Defined.

End SendingOnTheSampleWallet.

Section NetworkDown.

#[local] Existing Instance Scenario.engine.
#[local] Existing Instance Faults.network_down.
#[local] Existing Instance Scenario.gui.

Import Scenario.

Lemma broadcast_network_failure_witness :
  let w := set_pay_from [coin 5000] (window [output 50000]) in
  let w' := exec (broadcast_transaction 1 tx (Some "rent") None) w in
  payment_request w = None ∧
  broadcast_transaction_and_wait tx = Raised (Exception "timed out") ∧
  pay_from w' = [coin 5000] ∧ amount_e w' = Some 50000 ∧
  shown w'
  = [ WaitingDialogShown "Broadcasting transaction...";
      LogException "unhandled exception broadcasting transaction";
      UntrustedMessageDialog "Transaction Broadcast Error"
        "Your transaction was not sent: reason unknown."
        (Exception "timed out") ].
Proof.
  intros w w'.
  assert (payment_request w = None) as Hpr by reflexivity.
  assert (broadcast_transaction_and_wait tx = Raised (Exception "timed out"))
    as Hnet by reflexivity.
  split; [exact Hpr |]. split; [exact Hnet |].
  unfold w', exec.
  rewrite (broadcast_network_failure w 1 tx (Some "rent") None _ Hpr Hnet).
  repeat split; reflexivity.
Defined.

Lemma broadcast_payee_failure_witness :
  let pr := request "inv-7" false in
  let w := set_payment_request (Some pr) (window []) in
  let w' := exec (broadcast_transaction 1 tx (Some "rent") None) w in
  payment_request w = Some pr ∧ has_expired pr = false ∧
  send_payment pr (accounts w 1) (tx_str tx)
  = Raised (Exception "connection refused") ∧
  payment_request w' = Some pr ∧
  paid (invoices (accounts w' 1)) = [].
Proof.
  intros pr w w'.
  assert (payment_request w = Some pr) as Hpr by reflexivity.
  assert (has_expired pr = false) as Hexp by reflexivity.
  assert (send_payment pr (accounts w 1) (tx_str tx)
          = Raised (Exception "connection refused")) as Hpay by reflexivity.
  split; [exact Hpr |]. split; [exact Hexp |]. split; [exact Hpay |].
  unfold w', exec.
  rewrite (broadcast_payee_failure w 1 tx (Some "rent") None pr _ Hpr Hexp
             Hpay).
  split; reflexivity.
Defined.

End NetworkDown.

Section DialogsDismissed.

#[local] Existing Instance Scenario.engine.
#[local] Existing Instance Scenario.network.
#[local] Existing Instance Faults.gui_dismissing.

Import Scenario.

Lemma do_send_without_password_witness :
  let w := window [output 50000] in
  let built := match build [coin 100000; coin 1000] [output 50000] with
               | Returned t => t
               | Raised _ => tx
               end in
  eval read_send_tab w
  = Returned (Some ([output 50000], None, "rent",
                    [coin 100000; coin 1000])) ∧
  truthy_opt_str
    (password_dialog (join nl (confirmation_msg 50000 225 built))) = false ∧
  do_send false w
  = (Returned tt,
     set_shown
       (shown w ++
        [ ShowNamed "think-before-sending";
          PasswordDialog (join nl (confirmation_msg 50000 225 built)) ])
       w).
Proof.
  intros w built.
  assert (eval read_send_tab w
          = Returned (Some ([output 50000], None, "rent",
                            [coin 100000; coin 1000]))) as Hread
    by reflexivity.
  assert (make_unsigned_transaction (accounts w (_account w))
            [coin 100000; coin 1000] [output 50000] (config w) None
          = Returned built) as Hbuild by reflexivity.
  assert (amount_to_confirm w [output 50000] built = Returned 50000)
    as Hamount by reflexivity.
  assert (truthy_opt_str
            (password_dialog
               (join nl (confirmation_msg 50000 (get_fee built) built)))
          = false) as Hpassword by reflexivity.
  split; [exact Hread |]. split; [exact Hpassword |].
  exact (do_send_without_password w _ _ _ _ built 50000 Hread Hbuild Hamount
           Hpassword).
Defined.

Lemma cpfp_cancelled_witness :
  let w := window [] in
  exec_cpfp_dialog (cpfp_dialog w tx (child 50000)) = (false, None) ∧
  cpfp 1 tx (child 50000) w
  = (Returned tt,
     set_shown (shown w ++ [CpfpDialogShown (cpfp_dialog w tx (child 50000))])
       w).
Proof.
  intros w.
  assert (exec_cpfp_dialog (cpfp_dialog w tx (child 50000)) = (false, None))
    as Hdialog by reflexivity.
  split; [exact Hdialog |].
  destruct (cpfp_cancelled w 1 tx (child 50000)) as (_ & Hcancel).
  exact (Hcancel None Hdialog).
Defined.

End DialogsDismissed.

Section SigningFails.

#[local] Existing Instance Faults.engine_refusing.
#[local] Existing Instance Scenario.network.
#[local] Existing Instance Scenario.gui.

Import Scenario.

Lemma sign_failure_stops_the_send_witness :
  let w := window [output 50000] in
  sign_transaction (accounts w (_account w)) tx "hunter2"
  = Raised (Exception "Incorrect password") ∧
  sign_tx_with_password tx (sign_done "rent") "hunter2" w
  = (Returned tt,
     set_shown
       (shown w ++ [ WaitingDialogShown "Signing transaction...";
                     LogException ""; ShowError "Incorrect password" ])
       w).
Proof.
  intros w.
  assert (sign_transaction (accounts w (_account w)) tx "hunter2"
          = Raised (Exception "Incorrect password")) as Hsign
    by reflexivity.
  split; [exact Hsign |].
  exact (sign_failure_stops_the_send w tx "rent" "hunter2" _ Hsign).
Defined.

End SigningFails.

Section Cosigning.

#[local] Existing Instance Faults.engine_cosigning.
#[local] Existing Instance Scenario.network.
#[local] Existing Instance Scenario.gui.

Import Scenario.

Lemma incomplete_transaction_is_not_broadcast_witness :
  let w := window [output 50000] in
  let w' :=
    exec (sign_tx_with_password (child 50000) (sign_done "rent") "hunter2")
      w in
  sign_transaction (accounts w (_account w)) (child 50000) "hunter2"
  = Returned (child 50000) ∧
  is_complete (child 50000) = false ∧
  shown_by (sign_tx_with_password (child 50000) (sign_done "rent")
              "hunter2") w
  = [ WaitingDialogShown "Signing transaction...";
      ShowTransaction 1 (child 50000) None ] ∧
  accounts w' = accounts w ∧ amount_e w' = None.
Proof.
  intros w w'.
  assert (sign_transaction (accounts w (_account w)) (child 50000) "hunter2"
          = Returned (child 50000)) as Hsign by reflexivity.
  assert (is_complete (child 50000) = false) as Hincomplete by reflexivity.
  split; [exact Hsign |]. split; [exact Hincomplete |].
  destruct (incomplete_transaction_is_not_broadcast w (child 50000)
              (child 50000) "rent" "hunter2" Hsign Hincomplete)
    as (Hshown & Hacc & _ & _ & _ & Hamount & _).
  split; [exact Hshown |]. split; [exact Hacc | exact Hamount].
Defined.

End Cosigning.

Section EmptyFee.

#[local] Existing Instance Scenario.engine.
#[local] Existing Instance Faults.gui_empty_fee.

Import Scenario.

Lemma cpfp_empty_fee_raises_witness :
  let w := window [] in
  exec_cpfp_dialog (cpfp_dialog w tx (child 50000)) = (true, None) ∧
  eval (cpfp 1 tx (child 50000)) w
  = Raised (TypeError
      "'>' not supported between instances of 'NoneType' and 'int'").
Proof.
  intros w.
  assert (exec_cpfp_dialog (cpfp_dialog w tx (child 50000)) = (true, None))
    as Hdialog by reflexivity.
  split; [exact Hdialog |].
  unfold eval.
  rewrite (cpfp_empty_fee_raises w 1 tx (child 50000) Hdialog).
  reflexivity.
Defined.

End EmptyFee.

Section TheRestOnSamples.

#[local] Existing Instance Scenario.engine.
#[local] Existing Instance Scenario.gui.

Import Samples.

Lemma spend_coins_pins_witness :
  let s' := spend_coins [Scenario.coin 5000] session in
  let s'' := snd (timer_actions resolve s') in
  [Scenario.coin 5000] ≠ [] ∧
  eval (get_coins 1 true) (window s') = Returned [Scenario.coin 5000] ∧
  eval (get_coins 1 true) (window s'') = Returned [Scenario.coin 5000] ∧
  eval (get_coins 1 true) (window (spend_coins [] session))
  = Returned [Scenario.coin 100000].
Proof.
  intros s' s''.
  assert ([Scenario.coin 5000] ≠ []) as Hne by discriminate.
  destruct (spend_coins_pins resolve [Scenario.coin 5000] session 1 true)
    as (_ & Hpinned & _).
  destruct (spend_coins_pins resolve [] session 1 true) as (_ & _ & Hfree).
  split; [exact Hne |].
  split; [exact (proj1 (Hpinned Hne)) |].
  split; [exact (proj2 (Hpinned Hne)) |].
  exact (Hfree eq_refl).
Defined.

Lemma from_list_delete_removes_witness :
  let s := spend_coins [Scenario.coin 1; Scenario.coin 2; Scenario.coin 3] session in
  (0 ≤ 1 < 3 ∧
   ∃ s', from_list_delete 1 s = Some s' ∧
         pay_from (window s') = [Scenario.coin 1; Scenario.coin 3]) ∧
  (∃ s', from_list_delete (-1) s = Some s' ∧
         pay_from (window s') = [Scenario.coin 1; Scenario.coin 2]) ∧
  from_list_delete 3 s = None ∧
  from_list_delete 0 session = None.
Proof.
  intros s.
  destruct (from_list_delete_removes 1 s) as (_ & Hpos & _ & _).
  destruct (from_list_delete_removes (-1) s) as (_ & _ & Hlast & _).
  destruct (from_list_delete_removes 3 s) as (Hout & _).
  destruct (from_list_delete_removes 0 session) as (Hempty & _).
  assert (0 ≤ 1 < 3) as Hrange by lia.
  split; [split; [exact Hrange |] |].
  - destruct (Hpos Hrange) as (s' & Hs' & Hfrom & _). by exists s'.
  - split; [| split].
    + assert (pay_from (window s) ≠ []) as Hne by discriminate.
      destruct (Hlast eq_refl Hne) as (s' & Hs' & Hfrom). by exists s'.
    + apply Hout. right. simpl. lia.
    + apply Hempty. right. simpl. lia.
Defined.

Lemma _update_network_status_settles_witness :
  is_Some (Some heights) ∧
  snd (_update_network_status (Some heights) syncing)
  = [ {| request_count := 1200; response_count := 1100 |};
      {| request_count := 0; response_count := 0 |};
      {| request_count := 40; response_count := 2 |} ] ∧
  _update_network_status None syncing = ("Offline", syncing).
Proof.
  assert (is_Some (Some heights)) as Hnet by eauto.
  destruct (_update_network_status_settles (Some heights) syncing)
    as (_ & Hsettled & _).
  destruct (_update_network_status_settles None syncing) as (Hoffline & _).
  split; [exact Hnet |]. split.
  - rewrite (proj1 (Hsettled Hnet)). reflexivity.
  - exact (Hoffline eq_refl).
Defined.

Lemma _update_network_status_text_witness :
  filter (λ a, lagging a = true) syncing ≠ [] ∧
  fst (_update_network_status (Some heights) syncing)
  = "Synchronizing... 1,102/1,240" ∧
  fst (_update_network_status (Some heights) [])
  = "Server 3 blocks behind".
Proof.
  assert (filter (λ a, lagging a = true) syncing ≠ []) as Hwaiting
    by discriminate.
  split; [exact Hwaiting |]. split.
  - rewrite (proj1 (_update_network_status_text heights syncing) Hwaiting).
    vm_compute. reflexivity.
  - rewrite (proj2 (_update_network_status_text heights []) eq_refl).
    vm_compute. reflexivity.
Defined.

Lemma notify_tx_cb_notifies_witness :
  let deltas := counted_deltas delta (tx_notifications notifier) in
  let s' := notify_tx_cb delta true 2000 notifier in
  deltas = [50000; 1200] ∧ (1 < length deltas)%nat ∧
  tray s' = [ "2 new transactions received: Total amount received in the new transactions 51200 BSV" ] ∧
  tray (notify_tx_cb delta false 2000 notifier) = [] ∧
  tx_notifications (notify_tx_cb delta false 2000 notifier) = [].
Proof.
  intros deltas s'.
  assert (deltas = [50000; 1200]) as Hdeltas by reflexivity.
  assert (1 < length deltas)%nat as Hmany by (rewrite Hdeltas; simpl; lia).
  destruct (notify_tx_cb_notifies delta true 2000 notifier)
    as (_ & _ & _ & _ & Hplural).
  destruct (notify_tx_cb_notifies delta false 2000 notifier)
    as (Hqueue & _ & Hsilent & _).
  split; [exact Hdeltas |]. split; [exact Hmany |]. split; [| split].
  - unfold s'. rewrite (proj1 (Hplural eq_refl Hmany)).
    vm_compute. reflexivity.
  - rewrite (proj1 (Hsilent (or_introl eq_refl))). reflexivity.
  - exact Hqueue.
Defined.

Lemma notify_transactions_rate_limit_witness :
  let now := nearest_float (10001 # 10) in
  let s' := notify_transactions delta true now now notifier in
  tx_notify_timer notifier = None ∧ tx_notifications notifier ≠ [] ∧
  cleaned_up notifier = false ∧
  (float_sub now (last_notify_tx_time notifier) < 30)%Q ∧
  (last_notify_tx_time notifier <= now)%Q ∧
  tray s' = [] ∧
  tx_notify_timer s' = Some (4109424708812797 # 137438953472)%Q ∧
  (∃ delay,
     tx_notify_timer s' = Some delay ∧ (0 < delay)%Q ∧ (delay <= 30000)%Q) ∧
  notify_transactions delta true 1013 1013 s' = s' ∧
  (30 <= 1030 - last_notify_tx_time notifier)%Q ∧
  notify_transactions delta true 1030 1031 notifier
  = notify_tx_cb delta true 1031 notifier.
Proof.
  intros now s'.
  assert (tx_notify_timer notifier = None) as Htimer by reflexivity.
  assert (tx_notifications notifier ≠ []) as Hqueue by discriminate.
  assert (cleaned_up notifier = false) as Hclean by reflexivity.
  assert (float_sub now (last_notify_tx_time notifier) < 30)%Q as Hsoon
    by (vm_compute; reflexivity).
  assert (last_notify_tx_time notifier <= now)%Q as Hclock
    by (vm_compute; discriminate).
  assert (30 <= 1030 - last_notify_tx_time notifier)%Q as Hlate
    by discriminate.
  destruct (notify_transactions_rate_limit delta true now now notifier)
    as (_ & Hlimit).
  destruct (Hlimit Htimer Hqueue Hclean) as (Harmed & _).
  destruct (Harmed Hsoon)
    as (Htray & _ & _ & (delay & Hdelay & Hpos & Hmost) & Hagain).
  destruct (notify_transactions_rate_limit delta true 1030 1031 notifier)
    as (_ & Hlimit').
  destruct (Hlimit' Htimer Hqueue Hclean) as (_ & Hnow & Hround & _).
  split; [exact Htimer |]. split; [exact Hqueue |].
  split; [exact Hclean |]. split; [exact Hsoon |].
  split; [exact Hclock |]. split; [exact Htray |].
  split; [vm_compute; reflexivity |]. split.
  - exists delay. split; [exact Hdelay |].
    split; [exact Hpos | exact (Hmost Hclock)].
  - split; [exact (Hagain true 1013 1013)%Q |].
    split; [exact Hlate | exact (Hnow (Hround Hlate))].
Defined.

Lemma update_recently_visited_bounds_witness :
  path_exists (normpath "./b.sqlite") = true ∧
  path_exists (normpath "gone.sqlite") = false ∧
  fst (fst (update_recently_visited normpath path_exists wallet_name
              "./b.sqlite" ["a.sqlite"; "b.sqlite"; "gone.sqlite"]))
  = ["b.sqlite"; "a.sqlite"] ∧
  "gone.sqlite"
  ∉ fst (fst (update_recently_visited normpath path_exists wallet_name
                "gone.sqlite" ["a.sqlite"])).
Proof.
  assert (path_exists (normpath "./b.sqlite") = true) as Hthere
    by reflexivity.
  assert (path_exists (normpath "gone.sqlite") = false) as Hgone
    by reflexivity.
  split; [exact Hthere |]. split; [exact Hgone |].
  pose proof (update_recently_visited_bounds normpath path_exists
                wallet_name "./b.sqlite"
                ["a.sqlite"; "b.sqlite"; "gone.sqlite"]) as Hfirst.
  pose proof (update_recently_visited_bounds normpath path_exists
                wallet_name "gone.sqlite" ["a.sqlite"]) as Hsecond.
  destruct (update_recently_visited normpath path_exists wallet_name
              "./b.sqlite" ["a.sqlite"; "b.sqlite"; "gone.sqlite"])
    as [[recent1 menu1] enabled1] eqn:Hrun1.
  destruct (update_recently_visited normpath path_exists wallet_name
              "gone.sqlite" ["a.sqlite"])
    as [[recent2 menu2] enabled2] eqn:Hrun2.
  destruct Hsecond as (_ & _ & _ & Hnot & _).
  split; [| exact (Hnot Hgone)].
  injection Hrun1 as <- _ _. reflexivity.
Defined.

Lemma update_recently_visited_no_duplicates_witness :
  NoDup ["a.sqlite"; "b.sqlite"; "gone.sqlite"] ∧
  NoDup (recently_open normpath path_exists "./b.sqlite"
           ["a.sqlite"; "b.sqlite"; "gone.sqlite"]).
Proof.
  assert (NoDup ["a.sqlite"; "b.sqlite"; "gone.sqlite"]) as Hnodup
    by (apply (bool_decide_unpack _); vm_compute; exact I).
  split; [exact Hnodup |].
  exact (proj1 (update_recently_visited_no_duplicates normpath path_exists
                  "./b.sqlite" _ Hnodup)).
Defined.

Lemma top_level_windows_stack_witness :
  (7 ∉ [3; 5]) ∧
  pop_top_level_window 7 (push_top_level_window 7 [3; 5]) = Some [3; 5] ∧
  pop_top_level_window 3 [3; 5] = Some [5] ∧
  pop_top_level_window 3 (push_top_level_window 3 [3; 5]) = Some [5; 3].
Proof.
  assert (7 ∉ [3; 5]) as Hfresh
    by (apply (bool_decide_unpack _); vm_compute; exact I).
  assert (pop_top_level_window 3 [3; 5] = Some [5]) as Hpop by reflexivity.
  destruct (top_level_windows_stack 0 7 [3; 5]) as (_ & _ & _ & Hback & _).
  destruct (top_level_windows_stack 0 3 [3; 5]) as (_ & _ & _ & _ & Hmove).
  split; [exact Hfresh |]. split; [exact (Hback Hfresh) |].
  split; [exact Hpop |]. exact (Hmove _ Hpop).
Defined.

Lemma tx_from_text_fills_values_witness :
  let w := Scenario.window [] in
  "0100" ≠ "" ∧ parse_inputs "0100" = Returned inputs ∧
  eval (tx_from_text parse_inputs [1] "") w = Returned None ∧
  eval (tx_from_text parse_inputs [1] "zz") w
  = Raised (Exception "could not parse") ∧
  ∃ inputs',
    eval (tx_from_text parse_inputs [1] "0100") w = Returned (Some inputs') ∧
    ∀ txin', inputs' !! 0%nat = Some txin' →
             txin_value txin' = Some 100000.
Proof.
  intros w.
  assert ("0100" ≠ "") as Htxt by discriminate.
  assert ("zz" ≠ "") as Hzz by discriminate.
  assert (parse_inputs "0100" = Returned inputs) as Hparse by reflexivity.
  assert (parse_inputs "zz" = Raised (Exception "could not parse"))
    as Hbad by reflexivity.
  destruct (tx_from_text_fills_values parse_inputs [1] "" w)
    as (_ & Hempty & _).
  destruct (tx_from_text_fills_values parse_inputs [1] "zz" w)
    as (_ & _ & Hraise & _).
  destruct (tx_from_text_fills_values parse_inputs [1] "0100" w)
    as (_ & _ & _ & Hfill).
  split; [exact Htxt |]. split; [exact Hparse |].
  split; [exact (Hempty eq_refl) |]. split; [exact (Hraise _ Hzz Hbad) |].
  destruct (Hfill inputs Htxt Hparse) as (inputs' & Hrun & _ & Hvalues).
  exists inputs'. split; [exact Hrun |].
  intros txin' Hout.
  assert (inputs !! 0%nat
          = Some {| prev_hash := "c0"; prev_idx := 0; txin_value := None |})
    as Hin by reflexivity.
  destruct (Hvalues 0%nat _ txin' Hin Hout) as (_ & Hvalue).
  apply (Hvalue [] 1 [] 0%nat (Scenario.coin 100000)).
  - reflexivity.
  - intros later Hlater. by apply elem_of_nil in Hlater.
  - reflexivity.
  - reflexivity.
  - intros k other _ Hk. lia.
Defined.

End TheRestOnSamples.
